(** * Exoplanet-AI backend: conditioning, feature derivation, artifact
      loading and scoring

    A shallow embedding of the serving path of the repository
    ([backend/app/features/bls.py], [backend/app/models/loader.py],
    [backend/app/models/infer.py], [backend/app/dataaccess/lc_store.py],
    [backend/app/main.py]) and the properties of it that the specification
    states.

    Python [float]s and NumPy [float64]s are Rocq's primitive binary64
    floats, so every comparison, NaN test and arithmetic step below is the
    IEEE-754 operation the interpreter performs.  Exceptions are values of
    an error type; code that touches the disk, the clock, the logger or the
    service's cached state runs in a state-and-error monad over an explicit
    [World]. *)

From Stdlib Require Import List String Ascii Bool ZArith Lia PeanoNat.
From Stdlib Require Import Floats DecimalString.
Import ListNotations.

Set Warnings "-inexact-float,-register-all".
#[local] Open Scope string_scope.
#[local] Open Scope list_scope.

(* ================================================================== *)
(** * Python values: exceptions, results, dictionaries, floats *)
(* ================================================================== *)

Module Py.

(** The exception classes the serving path raises or catches.  Built-in
    classes whose intermediate bases play no role here ([LookupError],
    [ArithmeticError]) hang directly under [Exception]. *)
Inductive exc_class : Type :=
| Exception
| ValueError
| TypeError
| RuntimeError
| IndexError
| ZeroDivisionError
| AttributeError
| OSError
| FileNotFoundError
| AssertionError
| InsufficientDataError      (* bls.py:16   class InsufficientDataError(Exception) *)
| LightcurveNotFoundError    (* infer.py:20 class LightcurveNotFoundError(FileNotFoundError) *)
| FeatureExtractionError.    (* infer.py:24 class FeatureExtractionError(RuntimeError) *)

Definition exc_class_eqb (a b : exc_class) : bool :=
  match a, b with
  | Exception, Exception | ValueError, ValueError | TypeError, TypeError
  | RuntimeError, RuntimeError | IndexError, IndexError
  | ZeroDivisionError, ZeroDivisionError | AttributeError, AttributeError
  | OSError, OSError | FileNotFoundError, FileNotFoundError
  | AssertionError, AssertionError
  | InsufficientDataError, InsufficientDataError
  | LightcurveNotFoundError, LightcurveNotFoundError
  | FeatureExtractionError, FeatureExtractionError => true
  | _, _ => false
  end.

(** The direct base class ([None] at the root). *)
Definition base (c : exc_class) : option exc_class :=
  match c with
  | Exception => None
  | FileNotFoundError => Some OSError
  | LightcurveNotFoundError => Some FileNotFoundError
  | FeatureExtractionError => Some RuntimeError
  | _ => Some Exception
  end.

Fixpoint issubclass_upto (fuel : nat) (c d : exc_class) : bool :=
  exc_class_eqb c d ||
  match fuel with
  | O => false
  | S fuel' =>
      match base c with
      | Some b => issubclass_upto fuel' b d
      | None => false
      end
  end.

(** The hierarchy above is four levels deep at most. *)
Definition issubclass : exc_class -> exc_class -> bool := issubclass_upto 4.

(** An exception instance: class, [str(exc)], and [__cause__]
    ([raise ... from exc]). *)
Inductive exn : Type :=
| Exn (cls : exc_class) (msg : string) (cause : option exn).

Definition exn_class (e : exn) : exc_class := let 'Exn c _ _ := e in c.
Definition exn_str (e : exn) : string := let 'Exn _ m _ := e in m.
Definition exn_cause (e : exn) : option exn := let 'Exn _ _ c := e in c.

(** [except C] catches [e] when [isinstance(e, C)]. *)
Definition isinstance (e : exn) (c : exc_class) : bool :=
  issubclass (exn_class e) c.

Inductive result (A : Type) : Type :=
| Ok (a : A)
| Raise (e : exn).
Arguments Ok {A} a.
Arguments Raise {A} e.

Definition bind {A B} (r : result A) (k : A -> result B) : result B :=
  match r with
  | Ok a => k a
  | Raise e => Raise e
  end.

Definition raise {A} (c : exc_class) (msg : string) : result A :=
  Raise (Exn c msg None).

Definition raise_from {A} (c : exc_class) (msg : string) (cause : exn)
  : result A :=
  Raise (Exn c msg (Some cause)).

(** The outcome of a call into a third-party library (astropy): a value, or
    an exception.  Library code cannot raise the application's own exception
    classes, and the serving path tells a library failure apart no further
    than [except Exception], so it is kept as a plain [Exception] with the
    library's message. *)
Inductive foreign (A : Type) : Type :=
| Returned (a : A)
| Failed (msg : string).
Arguments Returned {A} a.
Arguments Failed {A} msg.

Definition of_foreign {A} (f : foreign A) : result A :=
  match f with
  | Returned a => Ok a
  | Failed msg => raise Exception msg
  end.

Definition is_ok {A} (r : result A) : bool :=
  match r with Ok _ => true | Raise _ => false end.

(** [raises r C]: [r] is an exception that [except C] would catch. *)
Definition raises {A} (r : result A) (c : exc_class) : bool :=
  match r with Ok _ => false | Raise e => isinstance e c end.

(** ** Dictionaries with [str] keys

    A Python [dict] (and the label/value pairs of a [pandas.Series] built
    from one) as an association list in insertion order; assignment to an
    existing key replaces the value in place. *)
Definition dict (V : Type) : Type := list (string * V).

Fixpoint get {V} (k : string) (d : dict V) : option V :=
  match d with
  | [] => None
  | (k', v) :: d' => if String.eqb k k' then Some v else get k d'
  end.

Fixpoint set {V} (k : string) (v : V) (d : dict V) : dict V :=
  match d with
  | [] => [(k, v)]
  | (k', v') :: d' =>
      if String.eqb k k' then (k, v) :: d' else (k', v') :: set k v d'
  end.

Definition contains {V} (k : string) (d : dict V) : bool :=
  match get k d with Some _ => true | None => false end.

(** ** Floats *)

(** Truth value of a float: everything but [0.0] and [-0.0]; NaN is true. *)
Definition truthy (x : float) : bool := negb (x =? 0)%float.

(** The built-in [max(a, b)]: [b] only when [b > a]. *)
Definition max (a b : float) : float := if (a <? b)%float then b else a.

(** [int] to [float], exact below [2^53]. *)
Definition float_of_Z (z : Z) : float :=
  if (z <? 0)%Z then (- PrimFloat.of_uint63 (Uint63.of_Z (- z)))%float
  else PrimFloat.of_uint63 (Uint63.of_Z z).

Definition float_of_nat (n : nat) : float := float_of_Z (Z.of_nat n).

(** [a / b] on two [int]s. *)
Definition truediv (a b : Z) : result float :=
  if (b =? 0)%Z then raise ZeroDivisionError "division by zero"
  else Ok (float_of_Z a / float_of_Z b)%float.

(** [str(n)] for an [int]. *)
Definition str_of_Z (z : Z) : string := NilZero.string_of_int (Z.to_int z).

(** [s.startswith(p)]. *)
Definition startswith (s p : string) : bool := String.prefix p s.

(** [s.removeprefix(p)]. *)
Definition removeprefix (s p : string) : string :=
  if startswith s p
  then String.substring (String.length p) (String.length s - String.length p) s
  else s.

End Py.

Export Py(result, Ok, Raise, exn, Exn).

Declare Scope py_scope.
Delimit Scope py_scope with py.
Notation "x <- r ;; k" := (Py.bind r (fun x => k))
  (at level 61, r at next level, right associativity) : py_scope.
Notation "' pat <- r ;; k" := (Py.bind r (fun x => match x with pat => k end))
  (at level 61, pat pattern, r at next level, right associativity) : py_scope.

#[local] Open Scope py_scope.

(* ================================================================== *)
(** * NumPy array operations on one-dimensional arrays *)
(* ================================================================== *)

Module Np.

Definition isfinite (x : float) : bool := PrimFloat.is_finite x.

(** The order NumPy sorts by: IEEE [<=], with NaN after everything. *)
Definition sort_le (a b : float) : bool :=
  PrimFloat.is_nan b || (a <=? b)%float.

Fixpoint insert_sorted (x : float) (l : list float) : list float :=
  match l with
  | [] => [x]
  | y :: l' => if sort_le x y then x :: l else y :: insert_sorted x l'
  end.

(** [np.sort(a)]. *)
Definition sort (a : list float) : list float :=
  fold_right insert_sorted [] a.

(** [np.median(a)]: NaN on an empty array or when a NaN is present
    (sorted last), else the middle element, or the mean of the two middle
    elements, of the sorted copy. *)
Definition median (a : list float) : float :=
  let s := sort a in
  let n := List.length a in
  match n with
  | O => nan
  | _ =>
      if PrimFloat.is_nan (last s nan) then nan
      else if Nat.even n
           then ((nth (n / 2 - 1) s nan + nth (n / 2) s nan) / 2)%float
           else nth (n / 2) s nan
  end.

(** [a[mask]] for a boolean [mask] that has the List.length of [a]. *)
Fixpoint select {A} (mask : list bool) (a : list A) : list A :=
  match mask, a with
  | m :: mask', x :: a' => if m then x :: select mask' a' else select mask' a'
  | _, _ => []
  end.

(** [a[mask]]: an [IndexError] when the lengths differ. *)
Definition compress {A} (mask : list bool) (a : list A) : result (list A) :=
  if Nat.eqb (List.length mask) (List.length a) then Ok (select mask a)
  else Py.raise Py.IndexError
         "boolean index did not match indexed array along axis 0".

(** [a & b] with broadcasting of a length-1 operand. *)
Definition logical_and (a b : list bool) : result (list bool) :=
  if Nat.eqb (List.length a) (List.length b) then Ok (map (fun p => fst p && snd p) (combine a b))
  else match a, b with
       | [x], _ => Ok (map (andb x) b)
       | _, [y] => Ok (map (fun x => x && y) a)
       | _, _ => Py.raise Py.ValueError "operands could not be broadcast together"
       end.

(** [a &= b]: the left operand keeps its shape. *)
Definition logical_and_inplace (a b : list bool) : result (list bool) :=
  if Nat.eqb (List.length a) (List.length b) then Ok (map (fun p => fst p && snd p) (combine a b))
  else match b with
       | [y] => Ok (map (fun x => x && y) a)
       | _ => Py.raise Py.ValueError "non-broadcastable output operand"
       end.

(** [np.count_nonzero(mask)]. *)
Definition count_nonzero (mask : list bool) : nat :=
  List.length (filter (fun b => b) mask).

(** [mask.any()]. *)
Definition any (mask : list bool) : bool := existsb (fun b => b) mask.

(** [np.argsort(keys)]: the indices that sort [keys]; equal keys keep
    their order here (NumPy leaves their order unspecified). *)
Fixpoint insert_keyed (x : nat * float) (l : list (nat * float))
  : list (nat * float) :=
  match l with
  | [] => [x]
  | y :: l' =>
      if sort_le (snd x) (snd y) then x :: l else y :: insert_keyed x l'
  end.

Definition argsort (keys : list float) : list nat :=
  map fst (fold_right insert_keyed [] (combine (seq 0 (List.length keys)) keys)).

(** [a[idx]] for an index array: an [IndexError] outside the array. *)
Fixpoint take {A} (idx : list nat) (a : list A) : result (list A) :=
  match idx with
  | [] => Ok []
  | i :: idx' =>
      match nth_error a i with
      | Some x => rest <- take idx' a ;; Ok (x :: rest)
      | None => Py.raise Py.IndexError "index out of bounds"
      end
  end.

(** [np.linspace(start, stop, num)]. *)
Definition linspace (start stop : float) (num : nat) : list float :=
  let div := Py.float_of_nat (num - 1) in
  let delta := (stop - start)%float in
  let y := map Py.float_of_nat (seq 0 num) in
  let y :=
    match num with
    | O | S O => map (fun v => v * delta)%float y
    | _ =>
        let step := (delta / div)%float in
        if (step =? 0)%float
        then map (fun v => v / div * delta)%float y
        else map (fun v => v * step)%float y
    end in
  let y := map (fun v => v + start)%float y in
  match num with
  | O | S O => y
  | _ => removelast y ++ [stop]
  end.

(** The integer a finite float denotes after rounding down / towards
    zero ([None] on NaN and the infinities). *)
Definition floor_Z (x : float) : option Z :=
  match Prim2SF x with
  | S754_zero _ => Some 0%Z
  | S754_finite s m e =>
      let num := if s then Z.neg m else Z.pos m in
      Some (if (0 <=? e)%Z then num * 2 ^ e else num / 2 ^ (- e))%Z
  | _ => None
  end.

Definition trunc_Z (x : float) : option Z :=
  match Prim2SF x with
  | S754_zero _ => Some 0%Z
  | S754_finite s m e =>
      let num := if s then Z.neg m else Z.pos m in
      Some (if (0 <=? e)%Z then num * 2 ^ e else Z.quot num (2 ^ (- e)))%Z
  | _ => None
  end.

Definition int64_min : Z := (- 2 ^ 63)%Z.

(** Conversion of an integral-valued float to [int64]; what does not fit
    (and NaN) comes out as the smallest [int64], as on x86-64. *)
Definition to_int64 (z : option Z) : Z :=
  match z with
  | Some v => if ((int64_min <=? v) && (v <? 2 ^ 63))%Z then v else int64_min
  | None => int64_min
  end.

(** [np.floor(x).astype(int)] and [x.astype(int)]. *)
Definition floor_astype_int (x : float) : Z := to_int64 (floor_Z x).
Definition astype_int (x : float) : Z := to_int64 (trunc_Z x).

(** [np.nanargmax(a)]: the first index of the largest non-NaN entry;
    a [ValueError] when every entry is NaN. *)
Fixpoint argmax_from (best_i : nat) (best_v : float) (i : nat)
                     (l : list float) : nat :=
  match l with
  | [] => best_i
  | x :: l' =>
      let x' := if PrimFloat.is_nan x then neg_infinity else x in
      if (best_v <? x')%float then argmax_from i x' (S i) l'
      else argmax_from best_i best_v (S i) l'
  end.

Definition nanargmax (a : list float) : result nat :=
  match a with
  | [] => Py.raise Py.ValueError "attempt to get argmax of an empty sequence"
  | x :: l =>
      if forallb PrimFloat.is_nan a
      then Py.raise Py.ValueError "All-NaN slice encountered"
      else Ok (argmax_from 0 (if PrimFloat.is_nan x then neg_infinity else x) 1 l)
  end.

(** [np.clip(x, lo, hi)] on a scalar: [minimum(maximum(x, lo), hi)],
    NaN propagating. *)
Definition maximum (a b : float) : float :=
  if PrimFloat.is_nan a then a else if PrimFloat.is_nan b then b
  else if (a <? b)%float then b else a.

Definition minimum (a b : float) : float :=
  if PrimFloat.is_nan a then a else if PrimFloat.is_nan b then b
  else if (b <? a)%float then b else a.

Definition clip (x lo hi : float) : float := minimum (maximum x lo) hi.

End Np.

(* ================================================================== *)
(** * backend/app/config.py *)
(* ================================================================== *)

Module Config.

(** The fields of [Settings] the serving path reads. *)
Record Settings : Type := {
  model_dir : string;
  processed_dir : string;
  interim_dir : string;
  period_min : float;
  period_max : float;
  n_periods : nat;
  dur_min_hours : float;
  dur_max_hours : float;
  auto_fetch_missing : bool;
  auto_fetch_author : option string;
  auto_fetch_flux_column : string
}.

End Config.

(* ================================================================== *)
(** * backend/app/features/bls.py *)
(* ================================================================== *)

Module Bls.

Import Config.

Definition MIN_SAMPLES : nat := 200.
Definition META_FEATURE_KEYS : list string :=
  ["tmag"; "teff"; "rad"; "crowdsap"; "contratio"].

Record BLSResult : Type := {
  features : Py.dict float;            (* pd.Series, dtype float64 *)
  summary : Py.dict (option float);
  warnings : list string
}.

(** def _mad(values) *)
Definition _mad (values : list float) : float :=
  let med := Np.median values in
  Np.median (map (fun v => abs (v - med))%float values).

Definition compress_opt (mask : list bool) (a : option (list float))
  : result (option (list float)) :=
  match a with
  | Some e => c <- Np.compress mask e ;; Ok (Some c)
  | None => Ok None
  end.

Definition take_opt (idx : list nat) (a : option (list float))
  : result (option (list float)) :=
  match a with
  | Some e => c <- Np.take idx e ;; Ok (Some c)
  | None => Ok None
  end.

(** def _five_sigma_clip(time, flux, flux_err) *)
Definition _five_sigma_clip
    (time flux : list float) (flux_err : option (list float))
  : result (list float * list float * option (list float) * float) :=
  let median := Np.median flux in
  let mad := _mad flux in
  if (mad =? 0)%float then Ok (time, flux, flux_err, 1.0%float)
  else
    let threshold := (5.0 * 1.4826 * mad)%float in
    let mask := map (fun f => abs (f - median) <=? threshold)%float flux in
    clipped_time <- Np.compress mask time ;;
    clipped_flux <- Np.compress mask flux ;;
    clipped_err <- compress_opt mask flux_err ;;
    fraction <- Py.truediv (Z.of_nat (Np.count_nonzero mask))
                           (Z.of_nat (List.length flux)) ;;
    Ok (clipped_time, clipped_flux, clipped_err, fraction).

(** def _as_float(value), on the values a statistics mapping holds. *)
Inductive pyval : Type :=
| PNone
| PFloat (x : float)
| PSeq (xs : list float)          (* tuple, list or ndarray *)
| PUnconvertible.                 (* float(value) raises *)

Definition _as_float (value : pyval) : option float :=
  match value with
  | PNone => None
  | PSeq [] => None
  | PSeq (x :: _) => Some x
  | PFloat x => Some x
  | PUnconvertible => None
  end.

(** ** The periodic-signal search (astropy's [BoxLeastSquares]) *)

(** One entry of the periodogram [bls.power] returns. *)
Record PowerRow : Type := {
  power : float;
  period : float;
  duration : float;
  transit_time : float;
  depth : float
}.

(** What [bls.compute_stats] may hand back: an object with [colnames]
    (each field: the column's first row, when the column exists), a
    [dict], or anything else. *)
Inductive stats_table : Type :=
| StatsColumns (depth depth_snr : option float)
               (transit_mask in_transit_mask : option (list bool))
| StatsDict (depth depth_snr : pyval)
            (transit_mask in_transit_mask : option (list bool))
| StatsOther.

Record BoxLeastSquares : Type := {
  (* BoxLeastSquares(t, y, dy).power(periods, durations) *)
  bls_power : list float -> list float -> option (list float) ->
              list float -> list float -> Py.foreign (list PowerRow);
  (* .compute_stats(period, duration, transit_time) *)
  bls_compute_stats : list float -> list float -> option (list float) ->
                      float -> float -> float -> Py.foreign stats_table;
  (* .transit_mask(t, period, duration, transit_time) *)
  bls_transit_mask : list float -> float -> float -> float ->
                     Py.foreign (list bool)
}.

(** The best-fit result the feature derivation starts from
    (bls.py:119-154). *)
Record BestFit : Type := {
  powers : list float;             (* results.power *)
  best_power : float;              (* results.power[best_idx] *)
  best_period : float;
  best_duration : float;
  best_t0 : float;
  depth_value : float;
  depth_snr : float;
  transit_mask_array : list bool
}.

(** The sample after conditioning (bls.py:72-100). *)
Record Conditioned : Type := {
  time_arr : list float;
  flux_arr : list float;
  flux_err_arr : option (list float);
  fraction_kept : float;
  clip_warnings : list string
}.

(** ** Stage 1: drop non-finite entries, sort by time, clip
    (bls.py:72-100) *)

Definition finite_mask (time flux : list float)
                       (flux_err : option (list float))
  : result (list bool) :=
  m <- Np.logical_and (map Np.isfinite time) (map Np.isfinite flux) ;;
  match flux_err with
  | Some e => Np.logical_and_inplace m (map Np.isfinite e)
  | None => Ok m
  end.

Definition condition (time flux : list float)
                     (flux_err : option (list float))
  : result Conditioned :=
  mask <- finite_mask time flux flux_err ;;
  time_arr <- Np.compress mask time ;;
  flux_arr <- Np.compress mask flux ;;
  flux_err_arr <- compress_opt mask flux_err ;;
  if (List.length time_arr <? MIN_SAMPLES)%nat
  then Py.raise Py.InsufficientDataError
         "insufficient samples after removing non-finite values"
  else
    let order := Np.argsort time_arr in
    time_arr <- Np.take order time_arr ;;
    flux_arr <- Np.take order flux_arr ;;
    flux_err_arr <- take_opt order flux_err_arr ;;
    '(time_arr, flux_arr, flux_err_arr, fraction_kept) <-
       _five_sigma_clip time_arr flux_arr flux_err_arr ;;
    if (List.length time_arr <? MIN_SAMPLES)%nat
    then Py.raise Py.InsufficientDataError "insufficient samples after clipping"
    else
      Ok {| time_arr := time_arr;
            flux_arr := flux_arr;
            flux_err_arr := flux_err_arr;
            fraction_kept := fraction_kept;
            clip_warnings :=
              if (fraction_kept <? 0.8)%float then ["aggressive_clipping"]
              else [] |}.

(** ** Stage 2: median normalisation (bls.py:102-110) *)

Definition normalize (c : Conditioned)
  : result (list float * option (list float)) :=
  let median_flux := Np.median (flux_arr c) in
  if negb (Np.isfinite median_flux) || (median_flux =? 0)%float
  then Py.raise Py.ValueError "median flux is invalid for normalization"
  else
    Ok (map (fun f => f / median_flux - 1.0)%float (flux_arr c),
        option_map (map (fun e => e / median_flux)%float) (flux_err_arr c)).

Section WithSearch.

(** The external collaborators: the box-least-squares search, and
    NumPy's [np.std] and [np.mean] (whose summation order is NumPy's
    own). *)
Variable bls : BoxLeastSquares.
Variable np_std np_mean : list float -> float.

(** ** Stage 3: grid search and best-fit selection (bls.py:112-154) *)

Definition first_truthy (a b : option (list bool)) : option (list bool) :=
  match a with
  | Some (_ :: _) => a              (* [a or b] on a non-empty mask *)
  | _ => b
  end.

Definition search (settings : Settings) (time_arr norm_flux : list float)
                  (norm_flux_err : option (list float))
  : result BestFit :=
  let periods := Np.linspace (period_min settings) (period_max settings)
                             (n_periods settings) in
  let durations :=
    map (fun d => d / 24.0)%float
        (Np.linspace (dur_min_hours settings) (dur_max_hours settings) 20) in
  results <- Py.of_foreign
               (bls_power bls time_arr norm_flux norm_flux_err periods durations) ;;
  match results with
  | [] => Py.raise Py.ValueError "BLS did not return any power spectrum results"
  | row0 :: _ =>
      best_idx <- Np.nanargmax (map power results) ;;
      let best := nth best_idx results row0 in
      let best_period := period best in
      let best_duration := duration best in
      let best_t0 := transit_time best in
      stats <- Py.of_foreign
                 (bls_compute_stats bls time_arr norm_flux norm_flux_err
                                    best_period best_duration best_t0) ;;
      let '(depth_value, depth_snr, mask) :=
        match stats with
        | StatsColumns d s m m' =>
            (d,
             match s with Some v => v | None => power best end,
             match m with Some _ => m | None => m' end)
        | StatsDict d s m m' =>
            (_as_float d,
             match _as_float s with Some v => v | None => power best end,
             first_truthy m m')
        | StatsOther => (None, power best, None)
        end in
      let depth_value :=
        match depth_value with Some d => d | None => depth best end in
      mask <- match mask with
              | Some m => Ok m
              | None => Py.of_foreign
                          (bls_transit_mask bls time_arr
                                            best_period best_duration best_t0)
              end ;;
      Ok {| powers := map power results;
            best_power := power best;
            best_period := best_period;
            best_duration := best_duration;
            best_t0 := best_t0;
            depth_value := depth_value;
            depth_snr := depth_snr;
            transit_mask_array := mask |}
  end.

(** ** Stage 4: derived diagnostics (bls.py:156-221) *)

(** [a / b] on two Python floats raises on a zero divisor. *)
Definition fdiv (a b : float) : result float :=
  if (b =? 0)%float then Py.raise Py.ZeroDivisionError "float division by zero"
  else Ok (a / b)%float.

Definition std_or_zero (a : list float) : float :=
  match a with [] => 0.0%float | _ => np_std a end.

Definition derive (time_arr norm_flux : list float) (fraction_kept : float)
                  (meta : option (Py.dict float)) (fit : BestFit)
  : result (Py.dict float * Py.dict (option float)) :=
  let mask := transit_mask_array fit in
  let best_period := best_period fit in
  let best_t0 := best_t0 fit in
  flux_in <- Np.compress mask norm_flux ;;
  flux_out <- Np.compress (map negb mask) norm_flux ;;
  let out_std := std_or_zero flux_out in
  let in_std := std_or_zero flux_in in
  let in_vs_out_rms :=
    if Py.truthy out_std then (in_std / out_std)%float else 1.0%float in

  let baseline_days :=
    match time_arr with
    | [] => 0.0%float
    | t0 :: _ => (last time_arr t0 - t0)%float
    end in
  n_transits <- (if (0 <? best_period)%float
                 then fdiv baseline_days best_period
                 else Ok 0.0%float) ;;
  let n_transits := Py.max n_transits 1.0 in

  let second_best_power :=
    if (1 <? List.length (powers fit))%nat
    then
      let order := Np.argsort (powers fit) in
      nth (nth (List.length order - 2) order O) (powers fit) nan
    else 0.0%float in
  let secondary_snr :=
    if Py.truthy (best_power fit)
    then (second_best_power / best_power fit)%float else 0.0%float in

  let transit_numbers :=
    if (0 <? best_period)%float
    then map (fun t => Np.floor_astype_int
                         ((t - best_t0) / best_period + 1e-6)%float) time_arr
    else map (fun _ => 0%Z) time_arr in
  odd_mask <- Np.logical_and mask
                (map (fun k => (k mod 2 =? 0)%Z) transit_numbers) ;;
  even_mask <- Np.logical_and mask
                 (map (fun k => (k mod 2 =? 1)%Z) transit_numbers) ;;
  odd_even_depth_ratio <-
    (if Np.any odd_mask && Np.any even_mask
     then
       odd_flux <- Np.compress odd_mask norm_flux ;;
       let odd_depth := abs (np_mean odd_flux) in
       even_flux <- Np.compress even_mask norm_flux ;;
       let even_depth := abs (np_mean even_flux) in
       if Py.truthy even_depth then fdiv odd_depth even_depth
       else Ok 1.0%float
     else Ok 1.0%float) ;;

  let before := map (fun t => t <? best_t0)%float time_arr in
  let after := map (fun t => best_t0 <? t)%float time_arr in
  rms_before <- (if Np.any before
                 then sel <- Np.compress before norm_flux ;; Ok (np_std sel)
                 else Ok nan) ;;
  rms_after <- (if Np.any after
                then sel <- Np.compress after norm_flux ;; Ok (np_std sel)
                else Ok nan) ;;

  duty_cycle <- (if (0 <? best_period)%float
                 then fdiv (best_duration fit) best_period
                 else Ok 0.0%float) ;;

  let features : Py.dict float :=
    [ ("period_days", best_period);
      ("duration_hours", (best_duration fit * 24.0)%float);
      ("depth_ppm", (depth_value fit * 1e6)%float);
      ("snr", depth_snr fit);
      ("t0_btjd", best_t0);
      ("duty_cycle", duty_cycle);
      ("n_transits", n_transits);
      ("odd_even_depth_ratio", odd_even_depth_ratio);
      ("secondary_snr", secondary_snr);
      ("in_vs_out_rms", in_vs_out_rms);
      ("rms_before", rms_before);
      ("rms_after", rms_after);
      ("data_fraction_kept", fraction_kept) ] in
  let features :=
    match meta with
    | Some ((_ :: _) as m) =>
        fold_left (fun acc key =>
                     match Py.get key m with
                     | Some v => Py.set key v acc
                     | None => acc
                     end)
                  META_FEATURE_KEYS features
    | _ => features
    end in
  let pick (k : string) : option float :=
    Some (match Py.get k features with Some v => v | None => nan end) in
  let summary : Py.dict (option float) :=
    [ ("period_days", pick "period_days");
      ("duration_hours", pick "duration_hours");
      ("depth_ppm", pick "depth_ppm");
      ("snr", pick "snr");
      ("t0_btjd", pick "t0_btjd") ] in
  Ok (features, summary).

(** def build_bls_features(settings, time, flux, flux_err=None, meta=None) *)
Definition build_bls_features
    (settings : Settings) (time flux : list float)
    (flux_err : option (list float)) (meta : option (Py.dict float))
  : result BLSResult :=
  c <- condition time flux flux_err ;;
  '(norm_flux, norm_flux_err) <- normalize c ;;
  fit <- search settings (time_arr c) norm_flux norm_flux_err ;;
  '(features, summary) <-
     derive (time_arr c) norm_flux (fraction_kept c) meta fit ;;
  Ok {| features := features;
        summary := summary;
        warnings := clip_warnings c |}.

End WithSearch.

End Bls.

(* ================================================================== *)
(** * Strings and paths ([str] methods, [pathlib.PurePath]) *)
(* ================================================================== *)

Module Str.

#[local] Open Scope string_scope.

Definition is_space (c : ascii) : bool :=
  let n := nat_of_ascii c in
  (n =? 32)%nat || ((9 <=? n)%nat && (n <=? 13)%nat).

Fixpoint lstrip (s : string) : string :=
  match s with
  | String c s' => if is_space c then lstrip s' else s
  | EmptyString => EmptyString
  end.

Fixpoint rev (s : string) : string :=
  match s with
  | EmptyString => EmptyString
  | String c s' => rev s' ++ String c EmptyString
  end.

(** [s.strip()] (ASCII white space). *)
Definition strip (s : string) : string := rev (lstrip (rev (lstrip s))).

(** [s.split(sep)[0]]: the part before the first [sep]. *)
Fixpoint before_first (sep : ascii) (s : string) : string :=
  match s with
  | EmptyString => EmptyString
  | String c s' =>
      if Ascii.eqb c sep then EmptyString else String c (before_first sep s')
  end.

(** The part after the last [sep] (all of [s] when there is none). *)
Fixpoint after_last (sep : ascii) (s : string) : string :=
  match s with
  | EmptyString => EmptyString
  | String c s' =>
      if existsb (Ascii.eqb sep) (list_ascii_of_string s')
      then after_last sep s'
      else if Ascii.eqb c sep then s' else s
  end.

(** [s.rfind(c)], [None] for -1. *)
Fixpoint rfind_from (i : nat) (c : ascii) (s : string) (found : option nat)
  : option nat :=
  match s with
  | EmptyString => found
  | String c' s' =>
      rfind_from (S i) c s' (if Ascii.eqb c' c then Some i else found)
  end.

Definition rfind (c : ascii) (s : string) : option nat :=
  rfind_from 0 c s None.

(** [PurePath(p).name]: the final component. *)
Definition path_name (p : string) : string := after_last "/"%char p.

(** The index of the dot that starts the suffix of a name: the last dot,
    unless it is the first or the last character. *)
Definition suffix_dot (name : string) : option nat :=
  match rfind "."%char name with
  | Some i =>
      if ((0 <? i) && (i <? String.length name - 1))%nat then Some i else None
  | None => None
  end.

(** [PurePath(p).stem]. *)
Definition path_stem (p : string) : string :=
  let name := path_name p in
  match suffix_dot name with
  | Some i => String.substring 0 i name
  | None => name
  end.

(** [PurePath(p).suffix]. *)
Definition path_suffix (p : string) : string :=
  let name := path_name p in
  match suffix_dot name with
  | Some i => String.substring i (String.length name - i) name
  | None => EmptyString
  end.

Definition lower_char (c : ascii) : ascii :=
  let n := nat_of_ascii c in
  if ((65 <=? n) && (n <=? 90))%nat then ascii_of_nat (n + 32) else c.

(** [s.lower()] (ASCII). *)
Fixpoint lower (s : string) : string :=
  match s with
  | EmptyString => EmptyString
  | String c s' => String (lower_char c) (lower s')
  end.

Definition mem (s : string) (l : list string) : bool :=
  existsb (String.eqb s) l.

End Str.

(* ================================================================== *)
(** * backend/app/models/loader.py *)
(* ================================================================== *)

Module Loader.

Import Config.
#[local] Open Scope string_scope.

(** Mode = Literal['one_class', 'supervised'] *)
Inductive Mode : Type := one_class | supervised.

Definition mode_eqb (a b : Mode) : bool :=
  match a, b with
  | one_class, one_class | supervised, supervised => true
  | _, _ => false
  end.

(** A deserialised artifact, by the method the scoring path calls on it
    (each on the single-row matrix [X]): an outlier model's
    [decision_function(X)[0]], a scaler's [transform(X)], a calibrator's
    [predict_proba(X)[0, :]], a booster's
    [predict(DMatrix(X, feature_names))[0]]; or an object with none of
    them. *)
Inductive pyobject : Type :=
| Estimator (decision_function : list float -> float)
| Transformer (transform : list float -> list float)
| Classifier (predict_proba : list float -> float * float)
| Booster (predict : list string -> list float -> float)
| Opaque.

(** A parsed JSON document, as far as [_load_feature_names] looks. *)
Inductive json : Type :=
| JObject (feature_names : option (list string))  (* data.get('feature_names') *)
| JArray (items : list string)                    (* [str(item) for item in data] *)
| JOther.

(** A file of the model directory. *)
Inductive file : Type :=
| PickleFile (o : pyobject)        (* readable by joblib.load *)
| BoosterFile (predict : list string -> list float -> float)
                                   (* readable by Booster.load_model *)
| JsonFile (j : json)              (* readable by json.load *)
| OtherFile.

(** The model directory: [latest.txt] (text and [st_mtime]) when present,
    the other files by name, and whether [xgboost] can be imported. *)
Record ModelDir : Type := {
  latest_txt : option (string * float);
  files : Py.dict file;
  xgboost_installed : bool
}.

Inductive xgb_module : Type := XGBoost.

(** The state dictionary [load_state] returns. *)
Record State : Type := {
  mode : Mode;
  feature_names : list string;
  model : pyobject;
  scaler : option pyobject;
  calibrator : option pyobject;
  xgb : option xgb_module;
  latest : string;
  model_path : string;
  feature_names_path : string;
  feature_names_version : string;
  latest_mtime : float
}.

Definition path_exists (md : ModelDir) (name : string) : bool :=
  Py.contains name (files md).

(** joblib.load(path) *)
Definition joblib_load (md : ModelDir) (name : string) : result pyobject :=
  match Py.get name (files md) with
  | Some (PickleFile o) => Ok o
  | Some _ => Py.raise Py.Exception "could not unpickle"
  | None => Py.raise Py.FileNotFoundError name
  end.

Definition load_if_exists (md : ModelDir) (name : string)
  : result (option pyobject) :=
  if path_exists md name then o <- joblib_load md name ;; Ok (Some o)
  else Ok None.

(** def _load_feature_names(path) *)
Definition _load_feature_names (md : ModelDir) (path : string)
  : result (list string) :=
  match Py.get path (files md) with
  | Some (JsonFile (JObject (Some names))) => Ok names
  | Some (JsonFile (JObject None)) => Ok []
  | Some (JsonFile (JArray items)) => Ok items
  | Some (JsonFile JOther) =>
      Py.raise Py.ValueError ("Unsupported feature names format in " ++ path)
  | Some _ => Py.raise Py.ValueError "Expecting value"      (* JSONDecodeError *)
  | None => Py.raise Py.FileNotFoundError path
  end.

(** def _resolve_suffix(latest, prefix) *)
Definition _resolve_suffix (latest prefix : string) : result string :=
  let stem := Str.path_stem latest in
  if negb (Py.startswith stem prefix)
  then Py.raise Py.ValueError
         ("Expected latest artifact to start with " ++ prefix ++ ", got " ++ latest)
  else Ok (Py.removeprefix stem prefix).

(** def load_state(settings) *)
Definition load_state (settings : Settings) (md : ModelDir) : result State :=
  match latest_txt md with
  | None =>
      Py.raise Py.FileNotFoundError
        ("latest.txt not found in " ++ model_dir settings)
  | Some (text, mtime) =>
      let latest := Str.strip text in
      if String.eqb latest "" then Py.raise Py.ValueError "latest.txt is empty"
      else if negb (path_exists md latest)
      then Py.raise Py.FileNotFoundError
             ("Model artifact " ++ latest ++ " missing in " ++ model_dir settings)
      else
        '(mode, feature_path, model, scaler, calibrator, xgb_module) <-
          (if Py.startswith latest "model_iso_" then
             suffix <- _resolve_suffix latest "model_iso_" ;;
             let suffix := Str.before_first "."%char suffix in
             let feature_path := "feature_names_" ++ suffix ++ ".json" in
             let scaler_path := "scaler_" ++ suffix ++ ".pkl" in
             model <- joblib_load md latest ;;
             scaler <- load_if_exists md scaler_path ;;
             Ok (one_class, feature_path, model, scaler, None, None)
           else if Py.startswith latest "model_xgb_" then
             suffix <- _resolve_suffix latest "model_xgb_" ;;
             let suffix := Str.before_first "."%char suffix in
             let feature_path := "feature_names_" ++ suffix ++ ".json" in
             let scaler_path := "scaler_" ++ suffix ++ ".pkl" in
             let calibrator_path := "calibrator_" ++ suffix ++ ".pkl" in
             if negb (xgboost_installed md)
             then Py.raise Py.RuntimeError
                    "xgboost must be installed for supervised mode"
             else
               model <-
                 (if Str.mem (Str.lower (Str.path_suffix latest))
                             [".json"; ".ubj"; ".bin"]
                  then match Py.get latest (files md) with
                       | Some (BoosterFile p) => Ok (Booster p)
                       | _ => Py.raise Py.ValueError "failed to load model"
                       end
                  else
                    model <- joblib_load md latest ;;
                    match model with
                    | Booster _ => Ok model
                    | _ => Py.raise Py.TypeError
                             "Loaded supervised model is not an XGBoost Booster instance"
                    end) ;;
               scaler <- load_if_exists md scaler_path ;;
               calibrator <- load_if_exists md calibrator_path ;;
               Ok (supervised, feature_path, model, scaler, calibrator,
                   Some XGBoost)
           else
             Py.raise Py.ValueError
               ("Unsupported latest artifact name: " ++ latest)) ;;
        if negb (path_exists md feature_path)
        then Py.raise Py.FileNotFoundError
               ("Feature names file missing: " ++ model_dir settings ++ "/"
                ++ feature_path)
        else
          feature_names <- _load_feature_names md feature_path ;;
          match feature_names with
          | [] => Py.raise Py.ValueError "Loaded feature names list is empty"
          | _ =>
              Ok {| mode := mode;
                    feature_names := feature_names;
                    model := model;
                    scaler := scaler;
                    calibrator := calibrator;
                    xgb := if Py.startswith latest "model_xgb_"
                           then xgb_module else None;
                    latest := latest;
                    model_path := model_dir settings ++ "/" ++ latest;
                    feature_names_path :=
                      model_dir settings ++ "/" ++ feature_path;
                    feature_names_version :=
                      Py.removeprefix (Str.path_stem feature_path)
                                      "feature_names_";
                    latest_mtime := mtime |}
          end
  end.

End Loader.

(* ================================================================== *)
(** * The world the service runs in *)
(* ================================================================== *)

Module Sys.

Import Config.
#[local] Open Scope string_scope.

(** A light-curve parquet file, by the columns the store reads. *)
Record Table : Type := {
  col_time : option (list float);
  col_flux : option (list float);
  col_flux_err : option (list float)
}.

(** The archive behind [lightkurve]: a stitched, NaN-free light curve, and
    the outcome of [search.download_all(flux_column=...)]. *)
Record LightCurve : Type := {
  lc_time : list float;
  lc_flux : list float;
  lc_flux_err : option (list float)
}.

Inductive download : Type :=
| DownloadError (msg : string)      (* raises LightkurveError *)
| NoCollection                      (* None, or an empty collection *)
| Collection (lc : LightCurve).

Record Mast : Type := {
  lightkurve_installed : bool;
  (* search_lightcurve('TIC <id>', author=...): [None] for an empty search,
     else the download outcome per flux column *)
  search_lightcurve : Z -> option string -> option (string -> download)
}.

(** Calls on the collaborators that touch the disk, the network or the
    log, in the order they happen. *)
Inductive event : Type :=
| LoadState                       (* loader.load_state(settings) *)
| GetLightcurve (tic : Z)         (* lc_store.get_lightcurve_by_tic *)
| FetchFromMast (tic : Z)         (* lc_store.fetch_lightcurve_from_mast *)
| ReadCachedFeatures (tic : Z)    (* lc_store.read_cached_features *)
| WriteCachedFeatures (tic : Z)   (* lc_store.write_cached_features *)
| Log (level message : string).   (* LOGGER.<level>(message, ...) *)

Record World : Type := {
  model_files : Loader.ModelDir;                  (* settings.model_dir *)
  lightcurve_files : Z -> option Table;           (* processed_dir/lightcurves/TIC-<id>.parquet *)
  feature_cache_files : Z -> option (list (Py.dict float));
                                                  (* interim_dir/features/TIC-<id>.parquet, by rows *)
  mast : Mast;
  _state : option Loader.State;                   (* InferenceService._state *)
  clock : nat -> Z;                               (* successive time.perf_counter() * 1000 readings *)
  ticks : nat;                                    (* readings taken so far *)
  trace : list event
}.

Definition with_trace (w : World) (t : list event) : World :=
  {| model_files := model_files w; lightcurve_files := lightcurve_files w;
     feature_cache_files := feature_cache_files w; mast := mast w;
     _state := _state w; clock := clock w; ticks := ticks w; trace := t |}.

Definition with_state (w : World) (s : option Loader.State) : World :=
  {| model_files := model_files w; lightcurve_files := lightcurve_files w;
     feature_cache_files := feature_cache_files w; mast := mast w;
     _state := s; clock := clock w; ticks := ticks w; trace := trace w |}.

Definition with_ticks (w : World) (n : nat) : World :=
  {| model_files := model_files w; lightcurve_files := lightcurve_files w;
     feature_cache_files := feature_cache_files w; mast := mast w;
     _state := _state w; clock := clock w; ticks := n; trace := trace w |}.

Definition with_lightcurve (w : World) (tic : Z) (t : Table) : World :=
  {| model_files := model_files w;
     lightcurve_files := fun k => if (k =? tic)%Z then Some t else lightcurve_files w k;
     feature_cache_files := feature_cache_files w; mast := mast w;
     _state := _state w; clock := clock w; ticks := ticks w; trace := trace w |}.

Definition with_feature_cache (w : World) (tic : Z)
                              (rows : list (Py.dict float)) : World :=
  {| model_files := model_files w; lightcurve_files := lightcurve_files w;
     feature_cache_files :=
       fun k => if (k =? tic)%Z then Some rows else feature_cache_files w k;
     mast := mast w;
     _state := _state w; clock := clock w; ticks := ticks w; trace := trace w |}.

(** ** Computations that may raise and may change the world *)

Definition M (A : Type) : Type := World -> result A * World.

Definition ret {A} (a : A) : M A := fun w => (Ok a, w).

Definition bind {A B} (m : M A) (k : A -> M B) : M B :=
  fun w =>
    match m w with
    | (Ok a, w') => k a w'
    | (Raise e, w') => (Raise e, w')
    end.

Definition throw {A} (e : exn) : M A := fun w => (Raise e, w).

Definition lift {A} (r : result A) : M A := fun w => (r, w).

Definition get_world : M World := fun w => (Ok w, w).

Definition emit (e : event) : M unit :=
  fun w => (Ok tt, with_trace w (trace w ++ [e])%list).

(** [try: m  except ...: handler]: [handler e] is [None] when no clause
    matches [e]. *)
Definition try_except {A} (m : M A) (handler : exn -> option (M A)) : M A :=
  fun w =>
    match m w with
    | (Ok a, w') => (Ok a, w')
    | (Raise e, w') =>
        match handler e with
        | Some h => h w'
        | None => (Raise e, w')
        end
    end.

(** utils_time.py *)
Definition monotonic_ms : M Z :=
  fun w => (Ok (clock w (ticks w)), with_ticks w (S (ticks w))).

Definition elapsed_ms (start_ms : Z) : M Z :=
  bind monotonic_ms (fun now => ret (Z.max 0 (now - start_ms))).

End Sys.

Declare Scope io_scope.
Delimit Scope io_scope with io.
Notation "x <- m ;; k" := (Sys.bind m (fun x => k))
  (at level 61, m at next level, right associativity) : io_scope.
Notation "m ;;; k" := (Sys.bind m (fun _ => k))
  (at level 61, right associativity) : io_scope.
Notation "' pat <- m ;; k" := (Sys.bind m (fun x => match x with pat => k end))
  (at level 61, pat pattern, m at next level, right associativity) : io_scope.

#[local] Open Scope io_scope.

(* ================================================================== *)
(** * backend/app/dataaccess/lc_store.py *)
(* ================================================================== *)

Module LcStore.

Import Config Sys.
#[local] Open Scope string_scope.

Definition _resolve_lightcurve_path (settings : Settings) (tic_id : Z)
  : string :=
  processed_dir settings ++ "/lightcurves/TIC-" ++ Py.str_of_Z tic_id ++ ".parquet".

Definition _resolve_cache_path (settings : Settings) (tic_id : Z) : string :=
  interim_dir settings ++ "/features/TIC-" ++ Py.str_of_Z tic_id ++ ".parquet".

(** def get_lightcurve_by_tic(settings, tic_id) *)
Definition get_lightcurve_by_tic (settings : Settings) (tic_id : Z)
  : M (list float * list float * option (list float)) :=
  emit (GetLightcurve tic_id) ;;;
  w <- get_world ;;
  match lightcurve_files w tic_id with
  | None =>
      throw (Exn Py.FileNotFoundError
               ("Lightcurve parquet not found for TIC " ++ Py.str_of_Z tic_id
                ++ " at " ++ _resolve_lightcurve_path settings tic_id) None)
  | Some df =>
      match col_time df, col_flux df with
      | Some time, Some flux => ret (time, flux, col_flux_err df)
      | _, _ =>
          throw (Exn Py.ValueError
                   "Lightcurve parquet missing required columns" None)
      end
  end.

(** def read_cached_features(settings, tic_id) *)
Definition read_cached_features (settings : Settings) (tic_id : Z)
  : M (option (Py.dict float)) :=
  emit (ReadCachedFeatures tic_id) ;;;
  w <- get_world ;;
  match feature_cache_files w tic_id with
  | None => ret None
  | Some [] => ret None                 (* df.empty *)
  | Some (row :: _) => ret (Some row)   (* df.iloc[0] *)
  end.

(** def write_cached_features(settings, tic_id, features) *)
Definition write_cached_features (settings : Settings) (tic_id : Z)
                                 (features : Py.dict float) : M unit :=
  emit (WriteCachedFeatures tic_id) ;;;
  fun w => (Ok tt, with_feature_cache w tic_id [features]).

(** Order-preserving removal of repeats, as the [seen] sets do. *)
Fixpoint dedupe {A} (eqb : A -> A -> bool) (seen l : list A) : list A :=
  match l with
  | [] => []
  | x :: l' =>
      if existsb (eqb x) seen then dedupe eqb seen l'
      else x :: dedupe eqb (x :: seen) l'
  end.

Definition author_eqb (a b : option string) : bool :=
  match a, b with
  | Some x, Some y => String.eqb x y
  | None, None => true
  | _, _ => false
  end.

Definition authors_ordered (settings : Settings) : list (option string) :=
  let authors :=
    [auto_fetch_author settings; Some "SPOC"; Some "QLP"; Some "TESS-SPOC"; None] in
  let authors :=
    filter (fun a => match a with Some _ => true | None => false end) authors in
  dedupe author_eqb [] (authors ++ [None])%list.

Definition flux_ordered (settings : Settings) : list string :=
  dedupe String.eqb []
    (filter (fun c => negb (String.eqb c ""))
            [auto_fetch_flux_column settings; "pdcsap_flux"; "sap_flux"; "flux"]).

(** The data frame built from a stitched light curve, with the rows that
    hold a NaN or an infinity dropped. *)
Definition clean_frame (lc : LightCurve) : result Table :=
  let time := lc_time lc in
  let flux := lc_flux lc in
  if negb (List.length time =? List.length flux)%nat
  then Py.raise Py.ValueError "All arrays must be of the same length"
  else
    let base := map (fun p => Np.isfinite (fst p) && Np.isfinite (snd p))
                    (combine time flux) in
    match lc_flux_err lc with
    | None =>
        Ok {| col_time := Some (Np.select base time);
              col_flux := Some (Np.select base flux);
              col_flux_err := None |}
    | Some err =>
        if negb (List.length err =? List.length time)%nat
        then Py.raise Py.ValueError
               "Length of values does not match length of index"
        else
          let keep := map (fun p => fst p && Np.isfinite (snd p))
                          (combine base err) in
          Ok {| col_time := Some (Np.select keep time);
                col_flux := Some (Np.select keep flux);
                col_flux_err := Some (Np.select keep err) |}
    end.

Definition frame_len (t : Table) : nat :=
  match col_time t with Some c => List.length c | None => O end.

(** The outcome of the two nested loops of
    [fetch_lightcurve_from_mast]. *)
Inductive fetched : Type :=
| Stored (t : Table)                     (* written to disk; the path is returned *)
| Escaped (e : exn)                      (* an exception no clause catches *)
| Exhausted (last_exc : option string).  (* loop ran out; the last LightkurveError *)

Fixpoint try_flux_columns (dl : string -> download) (columns : list string)
                          (last_exc : option string) : fetched :=
  match columns with
  | [] => Exhausted last_exc
  | flux_column :: rest =>
      match dl flux_column with
      | DownloadError msg => try_flux_columns dl rest (Some msg)
      | NoCollection => try_flux_columns dl rest last_exc
      | Collection lc =>
          match clean_frame lc with
          | Raise e => Escaped e
          | Ok df =>
              if (frame_len df <? 200)%nat
              then try_flux_columns dl rest last_exc
              else Stored df
          end
      end
  end.

Fixpoint try_authors (search : option string -> option (string -> download))
                     (authors : list (option string)) (columns : list string)
                     (last_exc : option string) : fetched :=
  match authors with
  | [] => Exhausted last_exc
  | author :: rest =>
      match search author with
      | None => try_authors search rest columns last_exc
      | Some dl =>
          match try_flux_columns dl columns last_exc with
          | Exhausted last_exc' => try_authors search rest columns last_exc'
          | done => done
          end
      end
  end.

(** def fetch_lightcurve_from_mast(settings, tic_id, sector=None) *)
Definition fetch_lightcurve_from_mast (settings : Settings) (tic_id : Z)
  : M string :=
  emit (FetchFromMast tic_id) ;;;
  w <- get_world ;;
  if negb (lightkurve_installed (mast w))
  then throw (Exn Py.RuntimeError
                "lightkurve is required for automatic lightcurve fetching" None)
  else
    match try_authors (search_lightcurve (mast w) tic_id)
                      (authors_ordered settings) (flux_ordered settings) None with
    | Stored df =>
        (fun w => (Ok tt, with_lightcurve w tic_id df)) ;;;
        ret (_resolve_lightcurve_path settings tic_id)
    | Escaped e => throw e
    | Exhausted (Some msg) =>
        throw (Exn Py.RuntimeError
                 ("Failed to download lightcurve for TIC " ++ Py.str_of_Z tic_id
                  ++ ": " ++ msg)
                 (Some (Exn Py.Exception msg None)))
    | Exhausted None =>
        throw (Exn Py.RuntimeError
                 ("Failed to download lightcurve for TIC " ++ Py.str_of_Z tic_id
                  ++ "; no matching products found") None)
    end.

End LcStore.

(* ================================================================== *)
(** * backend/app/models/infer.py *)
(* ================================================================== *)

Module Infer.

Import Config Sys Loader.
#[local] Open Scope string_scope.

Record Meta : Type := {
  artifact_dir : string;
  meta_feature_names_version : string;
  runtime_ms : Z;
  cache_hit : option bool;        (* the key is set only when not None *)
  auto_fetch : bool
}.

Record LightcurvePayload : Type := {
  lp_time : list float;
  lp_flux : list float;
  lp_flux_err : option (list float)
}.

Record Response : Type := {
  tic_id : option Z;
  resp_mode : Mode;
  is_probability : bool;
  score : float;
  summary : Py.dict (option float);
  features : Py.dict (option float);
  warnings : list string;
  meta : Meta;
  lightcurve : option LightcurvePayload
}.

Record VersionInfo : Type := {
  vi_app : string;
  vi_mode : Mode;
  vi_model : string;
  vi_is_probability : bool
}.

Record ModelInfo : Type := {
  mi_mode : Mode;
  mi_latest : string;
  mi_artifact_dir : string;
  mi_feature_names_version : string;
  mi_feature_count : nat;
  mi_has_scaler : bool;
  mi_has_calibrator : bool;
  mi_is_probability : bool
}.

Definition is_some {A} (o : option A) : bool :=
  match o with Some _ => true | None => false end.

(** ** Static helpers *)

(** def _serialize_series(series) *)
Definition _serialize_series (series : Py.dict float)
  : Py.dict (option float) :=
  fold_left
    (fun payload kv =>
       let '(key, value) := kv in
       if PrimFloat.is_nan value            (* pd.isna(value) *)
       then Py.set key None payload
       else Py.set key (Some value) payload)
    series [].

(** def _serialize_summary(summary) *)
Definition _serialize_summary (summary : Py.dict (option float))
  : Py.dict (option float) :=
  fold_left
    (fun payload kv =>
       let '(key, value) := kv in
       match value with
       | None => Py.set key None payload
       | Some x =>
           if PrimFloat.is_nan x || PrimFloat.is_infinity x
           then Py.set key None payload
           else Py.set key (Some x) payload
       end)
    summary [].

(** def _prepare_lightcurve(time, flux, flux_err, *, max_points=5000) *)
Definition _prepare_lightcurve (time flux : list float)
                               (flux_err : option (list float))
  : result LightcurvePayload :=
  let max_points := 5000%nat in
  match time, flux with
  | [], _ | _, [] =>
      Ok {| lp_time := []; lp_flux := []; lp_flux_err := None |}
  | _, _ =>
      let sample (a : list float) : result (list float) :=
        if (max_points <? List.length time)%nat
        then
          let indices :=
            map Np.astype_int
                (Np.linspace 0 (Py.float_of_nat (List.length time - 1))
                             max_points) in
          Np.take (map Z.to_nat indices) a
        else Ok a in
      (time_sampled <- sample time ;;
       flux_sampled <- sample flux ;;
       match flux_err with
       | Some ((_ :: _) as err) =>
           err_sampled <- sample err ;;
           Ok {| lp_time := time_sampled; lp_flux := flux_sampled;
                 lp_flux_err := Some err_sampled |}
       | _ =>
           Ok {| lp_time := time_sampled; lp_flux := flux_sampled;
                 lp_flux_err := None |}
       end)%py
  end.

(** def _summary_from_features(features) *)
Definition _summary_from_features (features : Py.dict float)
  : Py.dict (option float) :=
  let pick k := Some (match Py.get k features with Some v => v | None => nan end) in
  [ ("period_days", pick "period_days");
    ("duration_hours", pick "duration_hours");
    ("depth_ppm", pick "depth_ppm");
    ("snr", pick "snr");
    ("t0_btjd", pick "t0_btjd") ].

(** ** The model input and the score (infer.py:189-217) *)

(** features.reindex(state['feature_names']): a label the vector lacks
    becomes NaN. *)
Definition reindex (features : Py.dict float) (names : list string)
  : list float :=
  map (fun n => match Py.get n features with Some v => v | None => nan end)
      names.

Definition attribute_error {A} (attr : string) : result A :=
  Py.raise Py.AttributeError ("object has no attribute '" ++ attr ++ "'").

Definition model_input (state : State) (features : Py.dict float)
  : result (list float) :=
  let X := reindex features (feature_names state) in
  match scaler state with
  | Some (Transformer transform) => Ok (transform X)
  | Some _ => attribute_error "transform"
  | None => Ok X
  end.

(** The pair [(score, is_probability)]. *)
Definition compute_score (state : State) (features : Py.dict float)
  : result (float * bool) :=
  (X_model <- model_input state features ;;
   match mode state with
   | one_class =>
       match model state with
       | Estimator decision_function =>
           let raw_score := decision_function X_model in
           Ok (Np.clip (raw_score + 0.5) 0.0 1.0, false)
       | _ => attribute_error "decision_function"
       end
   | supervised =>
       match xgb state with
       | None =>
           Py.raise Py.RuntimeError "XGBoost module not loaded for supervised mode"
       | Some _ =>
           base_score <-
             match model state with
             | Booster predict => Ok (predict (feature_names state) X_model)
             | _ => attribute_error "predict"
             end ;;
           base_score <-
             match calibrator state with
             | Some (Classifier predict_proba) => Ok (snd (predict_proba X_model))
             | Some _ => attribute_error "predict_proba"
             | None => Ok base_score
             end ;;
           Ok (Np.clip base_score 0.0 1.0, true)
       end
   end)%py.

Section Service.

Variable bls : Bls.BoxLeastSquares.
Variable np_std np_mean : list float -> float.
Variable settings : Settings.                  (* self._settings *)

(** def refresh(self, force=False) *)
Definition refresh (force : bool) : M State :=
  w <- get_world ;;
  match latest_txt (model_files w) with
  | None =>
      throw (Exn Py.FileNotFoundError
               ("latest.txt not found in " ++ model_dir settings) None)
  | Some (_, current_mtime) =>
      (if force
          || match _state w with
             | None => true
             | Some st => (latest_mtime st <? current_mtime)%float
             end
       then
         emit LoadState ;;;
         st <- lift (load_state settings (model_files w)) ;;
         fun w => (Ok tt, with_state w (Some st))
       else ret tt) ;;;
      w' <- get_world ;;
      match _state w' with
      | Some st => ret st
      | None => throw (Exn Py.AssertionError "" None)
      end
  end.

(** def __init__(self, settings) *)
Definition init : M unit :=
  (fun w => (Ok tt, with_state w None)) ;;;
  refresh true ;;;
  ret tt.

(** def version_info(self) *)
Definition version_info : M VersionInfo :=
  state <- refresh false ;;
  ret {| vi_app := "exoplanet-ai";
         vi_mode := mode state;
         vi_model := latest state;
         vi_is_probability := mode_eqb (mode state) supervised |}.

Definition model_info_of (state : State) : ModelInfo :=
  {| mi_mode := mode state;
     mi_latest := latest state;
     mi_artifact_dir := model_dir settings;
     mi_feature_names_version := feature_names_version state;
     mi_feature_count := List.length (feature_names state);
     mi_has_scaler := is_some (scaler state);
     mi_has_calibrator := is_some (calibrator state);
     mi_is_probability := mode_eqb (mode state) supervised |}.

(** def model_info(self) *)
Definition model_info : M ModelInfo :=
  state <- refresh false ;;
  ret (model_info_of state).

(** def _compute_features(self, time, flux, flux_err=None, meta=None) *)
Definition _compute_features (time flux : list float)
                             (flux_err : option (list float))
                             (meta : option (Py.dict float))
  : M Bls.BLSResult :=
  try_except
    (lift (Bls.build_bls_features bls np_std np_mean settings
                                  time flux flux_err meta))
    (fun exc =>
       if Py.isinstance exc Py.InsufficientDataError then Some (throw exc)
       else if Py.isinstance exc Py.Exception then
         Some (emit (Log "exception" "Failed to compute BLS features") ;;;
               throw (Exn Py.FeatureExtractionError (Py.exn_str exc) (Some exc)))
       else None).

(** def _score(self, features, summary, warnings, *, tic_id, start_ms,
               state, cache_hit, auto_fetch, lightcurve) *)
Definition _score (features : Py.dict float)
                  (summary : Py.dict (option float))
                  (warnings : list string)
                  (tic_id : option Z) (start_ms : Z) (state : State)
                  (cache_hit : option bool) (auto_fetch : bool)
                  (lightcurve : option LightcurvePayload)
  : M Response :=
  '(score, is_probability) <- lift (compute_score state features) ;;
  runtime <- elapsed_ms start_ms ;;
  let features_payload := _serialize_series features in
  let summary_payload := _serialize_summary summary in
  let response :=
    {| tic_id := tic_id;
       resp_mode := mode state;
       is_probability := is_probability;
       score := score;
       summary := summary_payload;
       features := features_payload;
       warnings := warnings;
       meta := {| artifact_dir := model_dir settings;
                  meta_feature_names_version := feature_names_version state;
                  runtime_ms := runtime;
                  cache_hit := cache_hit;
                  auto_fetch := auto_fetch |};
       lightcurve := lightcurve |} in
  emit (Log "info" "prediction_complete") ;;;
  ret response.

(** def predict_by_tic(self, tic_id) *)
Definition predict_by_tic (tic_id : Z) : M Response :=
  state <- refresh false ;;
  start_ms <- monotonic_ms ;;
  '(arrays, auto_fetch) <-
    try_except
      (arrays <- LcStore.get_lightcurve_by_tic settings tic_id ;;
       ret (arrays, false))
      (fun exc =>
         if Py.isinstance exc Py.FileNotFoundError then
           Some
             (if negb (auto_fetch_missing settings)
              then throw (Exn Py.LightcurveNotFoundError (Py.exn_str exc)
                              (Some exc))
              else
                try_except
                  (LcStore.fetch_lightcurve_from_mast settings tic_id ;;;
                   arrays <- LcStore.get_lightcurve_by_tic settings tic_id ;;
                   ret (arrays, true))
                  (fun fetch_exc =>
                     if Py.isinstance fetch_exc Py.Exception then
                       Some (emit (Log "warning" "auto_fetch_failed") ;;;
                             throw (Exn Py.LightcurveNotFoundError
                                        (Py.exn_str fetch_exc)
                                        (Some fetch_exc)))
                     else None))
         else None) ;;
  let '(time_arr, flux_arr, flux_err_arr) := arrays in
  cached_features <-
    (if auto_fetch then ret None
     else LcStore.read_cached_features settings tic_id) ;;
  '(features_series, summary, warnings, cache_hit) <-
    match cached_features with
    | Some cached =>
        ret (cached, _summary_from_features cached, [], true)
    | None =>
        bls_result <-
          try_except
            (_compute_features time_arr flux_arr flux_err_arr None)
            (fun exc =>
               if Py.isinstance exc Py.InsufficientDataError
               then Some (throw exc)
               else if Py.isinstance exc Py.Exception then
                 Some (emit (Log "exception"
                                 "Unexpected failure during TIC prediction") ;;;
                       throw (Exn Py.FeatureExtractionError
                                  (Py.exn_str exc) (Some exc)))
               else None) ;;
        LcStore.write_cached_features settings tic_id
                                      (Bls.features bls_result) ;;;
        ret (Bls.features bls_result, Bls.summary bls_result,
             Bls.warnings bls_result, false)
    end ;;
  lightcurve_payload <- lift (_prepare_lightcurve time_arr flux_arr flux_err_arr) ;;
  _score features_series summary warnings
         (Some tic_id) start_ms state (Some cache_hit) auto_fetch
         (Some lightcurve_payload).

(** def predict_from_arrays(self, time, flux, flux_err=None, meta=None) *)
Definition predict_from_arrays (time flux : list float)
                               (flux_err : option (list float))
                               (meta : option (Py.dict float))
  : M Response :=
  state <- refresh false ;;
  start_ms <- monotonic_ms ;;
  bls_result <- _compute_features time flux flux_err meta ;;
  lightcurve_payload <- lift (_prepare_lightcurve time flux flux_err) ;;
  _score (Bls.features bls_result) (Bls.summary bls_result)
         (Bls.warnings bls_result)
         None start_ms state (Some false) false (Some lightcurve_payload).

End Service.

End Infer.

(* ================================================================== *)
(** * backend/app/main.py *)
(* ================================================================== *)

Module Main.

Import Config Sys.
#[local] Open Scope string_scope.

Inductive http_response : Type :=
| Http200 (body : Infer.Response)
| HttpError (status_code : Z) (detail : string).

Definition status_code_of (r : http_response) : Z :=
  match r with
  | Http200 _ => 200
  | HttpError c _ => c
  end.

(** The [except] clauses of the [/predict/by_tic] handler, in order; an
    exception none of them catches leaves the handler and is answered
    with the framework's 500. *)
Definition by_tic_response (r : result Infer.Response) : http_response :=
  match r with
  | Ok payload => Http200 payload
  | Raise exc =>
      if Py.isinstance exc Py.LightcurveNotFoundError
      then HttpError 404 (Py.exn_str exc)
      else if Py.isinstance exc Py.InsufficientDataError
      then HttpError 422 "insufficient_data"
      else if Py.isinstance exc Py.FeatureExtractionError
      then HttpError 500 (Py.exn_str exc)
      else HttpError 500 "Internal Server Error"
  end.

Section Endpoints.

Variable bls : Bls.BoxLeastSquares.
Variable np_std np_mean : list float -> float.
Variable settings : Settings.

(** @APP.get('/predict/by_tic')  def predict_by_tic(tic_id: int = Query(..., ge=1), ...) *)
Definition predict_by_tic (tic_id : Z) : World -> http_response * World :=
  fun w =>
    if (tic_id <? 1)%Z then (HttpError 422 "Input should be greater than or equal to 1", w)
    else
      let '(r, w') := Infer.predict_by_tic bls np_std np_mean settings tic_id w in
      (by_tic_response r, w').

End Endpoints.

End Main.

(* ================================================================== *)
(** * Classification of binary64 values, on their [Prim2SF] image *)
(* ================================================================== *)

Definition sf_nan (s : spec_float) : bool :=
  match s with S754_nan => true | _ => false end.

Definition sf_finite (s : spec_float) : bool :=
  match s with S754_zero _ | S754_finite _ _ _ => true | _ => false end.



(* ================================================================== *)
(** * The specification's statements, over the embedding *)
(* ================================================================== *)

Module Spec.


Definition same_length_opt (flux_err : option (list float)) (n : nat) : Prop :=
  match flux_err with Some e => List.length e = n | None => True end.

(** The entries of the parallel arrays whose values are all finite. *)
Definition all_finite_mask (time flux : list float)
                           (flux_err : option (list float)) : list bool :=
  let base := map (fun p => fst p && snd p)
                  (combine (map Np.isfinite time) (map Np.isfinite flux)) in
  match flux_err with
  | Some e => map (fun p => fst p && snd p) (combine base (map Np.isfinite e))
  | None => base
  end.

(** The number of finite samples: what remains before the clipping stage. *)
Definition n_finite (time flux : list float) (flux_err : option (list float))
  : nat :=
  Np.count_nonzero (all_finite_mask time flux flux_err).

(** [a[order]] for an index array within bounds. *)
Definition reorder (order : list nat) (a : list float) : list float :=
  map (fun i => nth i a nan) order.

(** The finite samples' flux, in time order: what the clipping stage gets. *)
Definition flux_before_clip (time flux : list float)
                            (flux_err : option (list float)) : list float :=
  let mask := all_finite_mask time flux flux_err in
  reorder (Np.argsort (Np.select mask time)) (Np.select mask flux).

(** The samples the clipping stage keeps. *)
Definition clip_keep (flux : list float) : list bool :=
  let median := Np.median flux in
  let mad := Bls._mad flux in
  if (mad =? 0)%float then map (fun _ => true) flux
  else map (fun f => abs (f - median) <=? 5.0 * 1.4826 * mad)%float flux.

(** The number of samples that remain after the clipping stage. *)
Definition n_after_clip (time flux : list float)
                        (flux_err : option (list float)) : nat :=
  Np.count_nonzero (clip_keep (flux_before_clip time flux flux_err)).

(** The baseline span of a non-empty time array: last time minus first
    time. *)
Definition baseline_span (time_arr : list float) : float :=
  (last time_arr nan - hd nan time_arr)%float.

(** Every value of a dictionary satisfies [P]. *)
Definition values_satisfy {V} (P : V -> Prop) (d : Py.dict V) : Prop :=
  Forall (fun kv => P (snd kv)) d.

(** A payload entry is clean when it is the null sentinel or a finite
    number. *)
Definition null_or_finite (v : option float) : Prop :=
  match v with
  | None => True
  | Some x => is_finite x = true
  end.

Definition null_or_not_nan (v : option float) : Prop :=
  match v with
  | None => True
  | Some x => is_nan x = false
  end.

(** The events a run from [w] to [w'] added to the trace. *)
Definition new_events (w w' : Sys.World) : list Sys.event :=
  skipn (List.length (Sys.trace w)) (Sys.trace w').




(** What a scoring call reports as its score: the score and the
    probability flag of the response, or the exception raised. *)
Definition score_of (r : result Infer.Response) : result (float * bool) :=
  match r with
  | Ok resp => Ok (Infer.score resp, Infer.is_probability resp)
  | Raise e => Raise e
  end.

(** A run from [w] to [w'] reached the end of [_score] (which logs
    [prediction_complete]). *)
Definition scored (w w' : Sys.World) : Prop :=
  In (Sys.Log "info" "prediction_complete") (new_events w w').

(** What is claimed of a request for a light curve that is not on disk,
    with auto-fetch off: [predict_by_tic] raises
    [LightcurveNotFoundError] and does not score. *)
Definition missing_lightcurve_not_found
    (bls : Bls.BoxLeastSquares) (np_std np_mean : list float -> float)
    (settings : Config.Settings) (tic_id : Z) (w : Sys.World) : Prop :=
  Sys.lightcurve_files w tic_id = None ->
  Config.auto_fetch_missing settings = false ->
  let '(r, w') := Infer.predict_by_tic bls np_std np_mean settings tic_id w in
  Py.raises r Py.LightcurveNotFoundError = true /\ ~ scored w w'.


(** [quiet r]: [r] is not an exception that [except InsufficientDataError]
    would catch. *)
Definition quiet {A} (r : result A) : Prop :=
  Py.raises r Py.InsufficientDataError = false.

End Spec.

(* ================================================================== *)
(** * Sample data *)
(* ================================================================== *)

Module Demo.

#[local] Open Scope string_scope.

Definition settings : Config.Settings :=
  {| Config.model_dir := "/data/model";
     Config.processed_dir := "/data/processed";
     Config.interim_dir := "/data/interim";
     Config.period_min := 0.5;
     Config.period_max := 30.0;
     Config.n_periods := 100;
     Config.dur_min_hours := 0.5;
     Config.dur_max_hours := 10.0;
     Config.auto_fetch_missing := false;
     Config.auto_fetch_author := Some "SPOC";
     Config.auto_fetch_flux_column := "pdcsap_flux" |}.

(** [np.mean] and [np.std] by left-to-right summation. *)
Definition np_mean (a : list float) : float :=
  (fold_left PrimFloat.add a 0 / Py.float_of_nat (List.length a))%float.

Definition np_std (a : list float) : float :=
  let m := np_mean a in
  PrimFloat.sqrt (np_mean (map (fun x => (x - m) * (x - m))%float a)).

(** A search that reports one candidate per trial period, all of the same
    power, and no transit anywhere. *)
Definition bls : Bls.BoxLeastSquares :=
  {| Bls.bls_power := fun _ _ _ periods _ =>
       Py.Returned
         (map (fun p => {| Bls.power := 8.0; Bls.period := p;
                           Bls.duration := 0.125; Bls.transit_time := 1.0;
                           Bls.depth := 0.01 |}) periods);
     Bls.bls_compute_stats := fun _ _ _ _ _ _ =>
       Py.Returned (Bls.StatsDict (Bls.PSeq [0.01; 0.001]%float)
                                  (Bls.PSeq [12.5; 0]%float) None None);
     Bls.bls_transit_mask := fun time _ _ _ =>
       Py.Returned (map (fun _ => false) time) |}.

(** Seven samples, one of them an outlier in flux. *)
Definition time7 : list float := [0; 1; 2; 3; 4; 5; 6]%float.
Definition flux7 : list float := [1.0; 1.01; 0.99; 1.0; 5.0; 1.02; 0.98]%float.

(** The same with a NaN and an infinity among the flux values. *)
Definition flux7_bad : list float := [1.0; nan; 0.99; 1.0; infinity; 1.02; 0.98]%float.

(** A best fit with a zero period, and one with period 2. *)
Definition fit_zero_period : Bls.BestFit :=
  {| Bls.powers := [8.0]%float;
     Bls.best_power := 8.0;
     Bls.best_period := 0;
     Bls.best_duration := 0.125;
     Bls.best_t0 := 1.0;
     Bls.depth_value := 0.01;
     Bls.depth_snr := 12.5;
     Bls.transit_mask_array := [false; true; false; true; false; true; false] |}.

Definition fit_period_two : Bls.BestFit :=
  {| Bls.powers := [8.0; 3.0]%float;
     Bls.best_power := 8.0;
     Bls.best_period := 2.0;
     Bls.best_duration := 0.125;
     Bls.best_t0 := 1.0;
     Bls.depth_value := 0.01;
     Bls.depth_snr := 12.5;
     Bls.transit_mask_array := [false; true; false; true; false; true; false] |}.

(** The model directory of the specification's scenario: the pointer
    names [model_iso_v2.pkl]; its feature names and scaler are there, a
    calibrator is not. *)
Definition newline : string := String (ascii_of_nat 10) EmptyString.

Definition iso_dir : Loader.ModelDir :=
  {| Loader.latest_txt := Some ("model_iso_v2.pkl" ++ newline, 1000.0%float);
     Loader.files :=
       [ ("model_iso_v2.pkl",
          Loader.PickleFile
            (Loader.Estimator (fun X => (nth 0 X 0 / 100 - 0.25)%float)));
         ("feature_names_v2.json",
          Loader.JsonFile (Loader.JArray ["period_days"; "snr"; "tmag"]));
         ("scaler_v2.pkl",
          Loader.PickleFile
            (Loader.Transformer (map (fun x => (x * 2)%float)))) ];
     Loader.xgboost_installed := true |}.

(** A supervised bundle in the booster's native format, with a calibrator. *)
Definition xgb_dir : Loader.ModelDir :=
  {| Loader.latest_txt := Some ("model_xgb_v3.json", 2000.0%float);
     Loader.files :=
       [ ("model_xgb_v3.json",
          Loader.BoosterFile (fun _ X => (nth 1 X 0 / 16)%float));
         ("feature_names_v3.json",
          Loader.JsonFile (Loader.JObject (Some ["period_days"; "snr"])));
         ("calibrator_v3.pkl",
          Loader.PickleFile
            (Loader.Classifier
               (fun X => (1 - nth 1 X 0 / 32, nth 1 X 0 / 32)%float))) ];
     Loader.xgboost_installed := true |}.

(** A pointer that names a file of neither prefix (the file is there). *)
Definition other_dir : Loader.ModelDir :=
  {| Loader.latest_txt := Some ("weights_v1.pkl", 3000.0%float);
     Loader.files :=
       [ ("weights_v1.pkl", Loader.PickleFile Loader.Opaque);
         ("feature_names_v1.json", Loader.JsonFile (Loader.JArray ["snr"])) ];
     Loader.xgboost_installed := true |}.

(** A directory without [latest.txt]. *)
Definition no_pointer_dir : Loader.ModelDir :=
  {| Loader.latest_txt := None;
     Loader.files := Loader.files iso_dir;
     Loader.xgboost_installed := true |}.

Definition no_mast : Sys.Mast :=
  {| Sys.lightkurve_installed := false;
     Sys.search_lightcurve := fun _ _ => None |}.

(** A world with the given model directory, no light curves, no cache, and
    a clock that advances 7 ms per reading. *)
Definition world_of (dir : Loader.ModelDir) (state : option Loader.State)
  : Sys.World :=
  {| Sys.model_files := dir;
     Sys.lightcurve_files := fun _ => None;
     Sys.feature_cache_files := fun _ => None;
     Sys.mast := no_mast;
     Sys._state := state;
     Sys.clock := fun n => (7 * Z.of_nat n)%Z;
     Sys.ticks := 0;
     Sys.trace := [] |}.

Definition state_of (dir : Loader.ModelDir) : option Loader.State :=
  match Loader.load_state settings dir with
  | Ok st => Some st
  | Raise _ => None
  end.

(** The state loaded from [iso_dir]. *)
Definition iso_state : Loader.State :=
  match state_of iso_dir with
  | Some st => st
  | None =>
      {| Loader.mode := Loader.one_class; Loader.feature_names := [];
         Loader.model := Loader.Opaque; Loader.scaler := None;
         Loader.calibrator := None; Loader.xgb := None;
         Loader.latest := ""; Loader.model_path := "";
         Loader.feature_names_path := ""; Loader.feature_names_version := "";
         Loader.latest_mtime := 0 |}
  end.

(** The state loaded from [xgb_dir]. *)
Definition xgb_state : Loader.State :=
  match state_of xgb_dir with
  | Some st => st
  | None => iso_state
  end.

(** A feature vector whose odd/even depth ratio overflowed to infinity and
    whose [rms_before] is NaN. *)
Definition features_inf : Py.dict float :=
  [ ("period_days", 3.5); ("snr", 12.5);
    ("odd_even_depth_ratio", infinity); ("rms_before", nan) ]%float.

Definition summary_inf : Py.dict (option float) :=
  [ ("period_days", Some 3.5); ("snr", Some infinity); ("depth_ppm", Some nan) ]%float.

(** An archive that delivers, for author SPOC and column [pdcsap_flux],
    200 clean samples. *)
Definition lc200 : Sys.LightCurve :=
  {| Sys.lc_time := map (fun i => (Py.float_of_nat i / 8)%float) (seq 0 200);
     Sys.lc_flux :=
       map (fun i => (1 + Py.float_of_nat (i mod 5) / 1024)%float) (seq 0 200);
     Sys.lc_flux_err := None |}.

Definition mast_spoc : Sys.Mast :=
  {| Sys.lightkurve_installed := true;
     Sys.search_lightcurve := fun _ author =>
       match author with
       | Some a =>
           if String.eqb a "SPOC"
           then Some (fun column =>
                        if String.eqb column "pdcsap_flux"
                        then Sys.Collection lc200 else Sys.NoCollection)
           else None
       | None => None
       end |}.

Definition table200 : Sys.Table :=
  match LcStore.clean_frame lc200 with
  | Ok t => t
  | Raise _ => {| Sys.col_time := None; Sys.col_flux := None;
                  Sys.col_flux_err := None |}
  end.

Definition settings_auto_fetch : Config.Settings :=
  {| Config.model_dir := "/data/model";
     Config.processed_dir := "/data/processed";
     Config.interim_dir := "/data/interim";
     Config.period_min := 0.5;
     Config.period_max := 30.0;
     Config.n_periods := 100;
     Config.dur_min_hours := 0.5;
     Config.dur_max_hours := 10.0;
     Config.auto_fetch_missing := true;
     Config.auto_fetch_author := Some "SPOC";
     Config.auto_fetch_flux_column := "pdcsap_flux" |}.

(** A world with no light curve on disk, a reachable archive, and a
    feature cache that already holds a row for every identifier. *)
Definition world_auto_fetch : Sys.World :=
  {| Sys.model_files := iso_dir;
     Sys.lightcurve_files := fun _ => None;
     Sys.feature_cache_files := fun _ => Some [features_inf];
     Sys.mast := mast_spoc;
     Sys._state := Some iso_state;
     Sys.clock := fun n => (7 * Z.of_nat n)%Z;
     Sys.ticks := 0;
     Sys.trace := [] |}.

End Demo.

(* ================================================================== *)
(** * More sample data *)
(* ================================================================== *)

Module Samples.

#[local] Open Scope string_scope.

(** The array [0.0, 1.0, ..., n - 1]. *)
Definition ramp (n : nat) : list float := map Py.float_of_nat (seq 0 n).

(** The 200 clean samples of [Demo.lc200], latest first. *)
Definition time200_reversed : list float := rev (Sys.lc_time Demo.lc200).
Definition flux200_reversed : list float := rev (Sys.lc_flux Demo.lc200).

(** 300 samples of which every fourth is a far outlier in flux. *)
Definition time300 : list float :=
  map (fun i => (Py.float_of_nat i / 8)%float) (seq 0 300).
Definition flux300_outliers : list float :=
  map (fun i => if (i mod 4 =? 3)%nat then 50%float
                else (1 + Py.float_of_nat (i mod 5) / 1024)%float)
      (seq 0 300).



(** A world in which the light curve of every identifier is on disk (the
    200 clean samples) and the feature cache holds a row for it. *)
Definition world_cached : Sys.World :=
  {| Sys.model_files := Demo.iso_dir;
     Sys.lightcurve_files := fun _ => Some Demo.table200;
     Sys.feature_cache_files := fun _ => Some [Demo.features_inf];
     Sys.mast := Demo.no_mast;
     Sys._state := Some Demo.iso_state;
     Sys.clock := fun n => (7 * Z.of_nat n)%Z;
     Sys.ticks := 0;
     Sys.trace := [] |}.

(** The same with an empty feature cache. *)
Definition world_uncached : Sys.World :=
  {| Sys.model_files := Demo.iso_dir;
     Sys.lightcurve_files := fun _ => Some Demo.table200;
     Sys.feature_cache_files := fun _ => None;
     Sys.mast := Demo.no_mast;
     Sys._state := Some Demo.iso_state;
     Sys.clock := fun n => (7 * Z.of_nat n)%Z;
     Sys.ticks := 0;
     Sys.trace := [] |}.

(** A world whose light-curve files have a [flux] column and no [time]
    column, with a reachable archive. *)
Definition table_without_time : Sys.Table :=
  {| Sys.col_time := None;
     Sys.col_flux := Some Demo.flux7;
     Sys.col_flux_err := None |}.

Definition world_without_time : Sys.World :=
  {| Sys.model_files := Demo.iso_dir;
     Sys.lightcurve_files := fun _ => Some table_without_time;
     Sys.feature_cache_files := fun _ => None;
     Sys.mast := Demo.mast_spoc;
     Sys._state := Some Demo.iso_state;
     Sys.clock := fun n => (7 * Z.of_nat n)%Z;
     Sys.ticks := 0;
     Sys.trace := [] |}.

(** A world whose light-curve files hold seven samples, and one whose
    files hold 200 samples of zero flux. *)
Definition table7 : Sys.Table :=
  {| Sys.col_time := Some Demo.time7;
     Sys.col_flux := Some Demo.flux7;
     Sys.col_flux_err := None |}.

Definition zero_flux200 : list float := map (fun _ => 0%float) (seq 0 200).

Definition table_zero_flux : Sys.Table :=
  {| Sys.col_time := Some (Sys.lc_time Demo.lc200);
     Sys.col_flux := Some zero_flux200;
     Sys.col_flux_err := None |}.

Definition world_with (t : Sys.Table) : Sys.World :=
  {| Sys.model_files := Demo.iso_dir;
     Sys.lightcurve_files := fun _ => Some t;
     Sys.feature_cache_files := fun _ => None;
     Sys.mast := Demo.no_mast;
     Sys._state := Some Demo.iso_state;
     Sys.clock := fun n => (7 * Z.of_nat n)%Z;
     Sys.ticks := 0;
     Sys.trace := [] |}.

End Samples.

(* ================================================================== *)
(** * Further notions the properties below are stated with *)
(* ================================================================== *)

Module Notions.

(** The entries of [a] never decrease from left to right. *)
Fixpoint non_decreasing (a : list float) : Prop :=
  match a with
  | [] => True
  | x :: rest =>
      Forall (fun y => (x <=? y)%float = true) rest /\ non_decreasing rest
  end.

(** The string [s] holds the character [c]. *)
Definition holds (c : ascii) (s : string) : bool :=
  existsb (Ascii.eqb c) (list_ascii_of_string s).

(** A table that [clean_frame] builds has a [time] and a [flux] column, and
    a [flux_err] column when the light curve has errors; the columns are of
    one length and hold finite values only. *)
Definition clean_table (df : Sys.Table) : Prop :=
  exists time flux,
    Sys.col_time df = Some time
    /\ Sys.col_flux df = Some flux
    /\ List.length flux = List.length time
    /\ Forall (fun t => is_finite t = true) time
    /\ Forall (fun f => is_finite f = true) flux
    /\ match Sys.col_flux_err df with
       | Some err =>
           List.length err = List.length time
           /\ Forall (fun e => is_finite e = true) err
       | None => True
       end.

End Notions.

(* ================================================================== *)
(** * backend/app/models/infer.py: the blocks of [predict_by_tic] *)
(* ================================================================== *)

Module Stages.

Import Config Sys Loader.
#[local] Open Scope string_scope.

Section Service.

Variable bls : Bls.BoxLeastSquares.
Variable np_std np_mean : list float -> float.
Variable settings : Settings.

(** infer.py:80-91: the light curve from the store, fetched from the
    archive when it is missing and auto-fetch is on; with the arrays comes
    the [auto_fetch] flag. *)
Definition acquire (tic_id : Z)
  : M (list float * list float * option (list float) * bool) :=
  try_except
    (arrays <- LcStore.get_lightcurve_by_tic settings tic_id ;;
     ret (arrays, false))
    (fun exc =>
       if Py.isinstance exc Py.FileNotFoundError then
         Some
           (if negb (auto_fetch_missing settings)
            then throw (Exn Py.LightcurveNotFoundError (Py.exn_str exc)
                            (Some exc))
            else
              try_except
                (LcStore.fetch_lightcurve_from_mast settings tic_id ;;;
                 arrays <- LcStore.get_lightcurve_by_tic settings tic_id ;;
                 ret (arrays, true))
                (fun fetch_exc =>
                   if Py.isinstance fetch_exc Py.Exception then
                     Some (emit (Log "warning" "auto_fetch_failed") ;;;
                           throw (Exn Py.LightcurveNotFoundError
                                      (Py.exn_str fetch_exc)
                                      (Some fetch_exc)))
                   else None))
       else None).

(** infer.py:93: the cache is consulted unless the light curve was just
    fetched. *)
Definition lookup (tic_id : Z) (auto_fetch : bool)
  : M (option (Py.dict float)) :=
  if auto_fetch then ret None
  else LcStore.read_cached_features settings tic_id.

(** infer.py:95-116: the cached vector, or a fresh extraction that is then
    written to the cache; with the features come the summary, the warnings
    and the [cache_hit] flag. *)
Definition featurize (tic_id : Z) (time_arr flux_arr : list float)
                     (flux_err_arr : option (list float))
                     (cached_features : option (Py.dict float))
  : M (Py.dict float * Py.dict (option float) * list string * bool) :=
  match cached_features with
  | Some cached =>
      ret (cached, Infer._summary_from_features cached, [], true)
  | None =>
      bls_result <-
        try_except
          (Infer._compute_features bls np_std np_mean settings
                                   time_arr flux_arr flux_err_arr None)
          (fun exc =>
             if Py.isinstance exc Py.InsufficientDataError
             then Some (throw exc)
             else if Py.isinstance exc Py.Exception then
               Some (emit (Log "exception"
                               "Unexpected failure during TIC prediction") ;;;
                     throw (Exn Py.FeatureExtractionError
                                (Py.exn_str exc) (Some exc)))
             else None) ;;
      LcStore.write_cached_features settings tic_id
                                    (Bls.features bls_result) ;;;
      ret (Bls.features bls_result, Bls.summary bls_result,
           Bls.warnings bls_result, false)
  end.

(** infer.py:74-131, block by block. *)
Definition predict_by_tic (tic_id : Z) : M Infer.Response :=
  state <- Infer.refresh settings false ;;
  start_ms <- monotonic_ms ;;
  '(arrays, auto_fetch) <- acquire tic_id ;;
  let '(time_arr, flux_arr, flux_err_arr) := arrays in
  cached_features <- lookup tic_id auto_fetch ;;
  '(features_series, summary, warnings, cache_hit) <-
    featurize tic_id time_arr flux_arr flux_err_arr cached_features ;;
  lightcurve_payload <-
    lift (Infer._prepare_lightcurve time_arr flux_arr flux_err_arr) ;;
  Infer._score settings features_series summary warnings
               (Some tic_id) start_ms state (Some cache_hit) auto_fetch
               (Some lightcurve_payload).

End Service.

End Stages.

(* ================================================================== *)
(** * backend/app/schemas.py *)
(* ================================================================== *)

Module Schemas.

#[local] Open Scope string_scope.

(** class LightcurvePayload(BaseModel) *)
Record LightcurvePayload : Type := {
  time : list float;
  flux : list float;
  flux_err : option (list float);
  meta : option (Py.dict float)
}.

(** LightcurvePayload._ensure_samples *)
Definition _ensure_samples (self : LightcurvePayload)
  : result LightcurvePayload :=
  if (List.length (time self) <? 2)%nat || (List.length (flux self) <? 2)%nat
  then Py.raise Py.ValueError "lightcurve must contain at least two samples"
  else Ok self.

(** LightcurveSeries._validate_lengths, on the light-curve part of a
    response. *)
Definition _validate_lengths (self : Infer.LightcurvePayload)
  : result Infer.LightcurvePayload :=
  if negb (List.length (Infer.lp_time self) =? List.length (Infer.lp_flux self))%nat
  then Py.raise Py.ValueError "time and flux must have identical lengths"
  else
    match Infer.lp_flux_err self with
    | Some e =>
        if negb (List.length e =? List.length (Infer.lp_time self))%nat
        then Py.raise Py.ValueError
               "flux_err must match time length when provided"
        else Ok self
    | None => Ok self
    end.

(** The fields [PredictionSummary] requires. *)
Definition SUMMARY_FIELDS : list string :=
  ["period_days"; "duration_hours"; "depth_ppm"; "snr"; "t0_btjd"].

(** The model [PredictionResponse] built from a response: the summary must hold the five required
    fields and the light curve, when there is one, must pass
    [_validate_lengths]; a failure is pydantic's [ValidationError], a
    [ValueError]. *)
Definition PredictionResponse (payload : Infer.Response)
  : result Infer.Response :=
  if negb (forallb (fun k => Py.contains k (Infer.summary payload))
                   SUMMARY_FIELDS)
  then Py.raise Py.ValueError "Field required"
  else
    match Infer.lightcurve payload with
    | Some lc => (_ <- _validate_lengths lc ;; Ok payload)%py
    | None => Ok payload
    end.

End Schemas.

(* ================================================================== *)
(** * backend/app/main.py: [/predict/from_lightcurve] *)
(* ================================================================== *)

Module MainPost.

Import Config Sys.
#[local] Open Scope string_scope.

(** The [except] clauses of the [/predict/from_lightcurve] handler, in
    order; an exception none of them catches is answered with the
    framework's 500. *)
Definition from_lightcurve_response (r : result Infer.Response)
  : Main.http_response :=
  match r with
  | Ok payload => Main.Http200 payload
  | Raise exc =>
      if Py.isinstance exc Py.InsufficientDataError
      then Main.HttpError 422 "insufficient_data"
      else if Py.isinstance exc Py.FeatureExtractionError
      then Main.HttpError 400 (Py.exn_str exc)
      else Main.HttpError 500 "Internal Server Error"
  end.

Section Endpoints.

Variable bls : Bls.BoxLeastSquares.
Variable np_std np_mean : list float -> float.
Variable settings : Settings.

(** @APP.post('/predict/from_lightcurve')
    def predict_from_lightcurve(payload: LightcurvePayload, ...) *)
Definition predict_from_lightcurve (payload : Schemas.LightcurvePayload)
  : World -> Main.http_response * World :=
  fun w =>
    if negb (List.length (Schemas.time payload)
             =? List.length (Schemas.flux payload))%nat
    then (Main.HttpError 400 "time and flux length mismatch", w)
    else if match Schemas.flux_err payload with
            | Some e =>
                negb (List.length e =? List.length (Schemas.time payload))%nat
            | None => false
            end
    then (Main.HttpError 400 "flux_err length mismatch", w)
    else
      let '(r, w') :=
        (response <- Infer.predict_from_arrays bls np_std np_mean settings
                       (Schemas.time payload) (Schemas.flux payload)
                       (Schemas.flux_err payload) (Schemas.meta payload) ;;
         lift (Schemas.PredictionResponse response))%io w in
      (from_lightcurve_response r, w').

(** The route: the request body is validated into a [LightcurvePayload]
    before the handler runs, and a body that fails validation is answered
    with 422. *)
Definition route_from_lightcurve (body : Schemas.LightcurvePayload)
  : World -> Main.http_response * World :=
  fun w =>
    match Schemas._ensure_samples body with
    | Raise exc => (Main.HttpError 422 (Py.exn_str exc), w)
    | Ok payload => predict_from_lightcurve payload w
    end.

End Endpoints.

End MainPost.


(* ================================================================== *)
(** * Properties *)
(* ================================================================== *)

(** ** Binary64 facts

    The primitive operations are specified by [Prim2SF] images
    ([FloatAxioms]); the facts below say when a result cannot be NaN and how
    [<=] and [<] relate away from NaN. *)

Lemma SFcompare_refl s : sf_nan s = false -> SFcompare s s = Some Eq.
Proof.
  destruct s as [[]|[]| |[] m e]; simpl; try discriminate; intros _; try reflexivity.
  - rewrite Z.compare_refl, Pos.compare_cont_refl. reflexivity.
  - rewrite Z.compare_refl, Pos.compare_cont_refl. reflexivity.
Qed.

Lemma is_nan_Prim2SF x : is_nan x = sf_nan (Prim2SF x).
Proof.
  unfold is_nan. rewrite eqb_spec. unfold SFeqb.
  destruct (sf_nan (Prim2SF x)) eqn:E.
  - destruct (Prim2SF x); try discriminate. reflexivity.
  - rewrite SFcompare_refl by assumption. reflexivity.
Qed.

Lemma SFcompare_antisym a b :
  SFcompare b a = option_map CompOpp (SFcompare a b).
Proof.
  destruct a as [[]|[]| |[] m e], b as [[]|[]| |[] m' e']; simpl; try reflexivity.
  all: rewrite (Z.compare_antisym e e');
       pose proof (Pos.compare_cont_antisym m m' Eq) as H; simpl in H;
       rewrite <- H;
       destruct (e ?= e')%Z; simpl; try reflexivity;
       destruct (Pos.compare_cont Eq m m'); reflexivity.
Qed.

Lemma leb_negb_ltb (a b : float) :
  is_nan a = false -> is_nan b = false -> (a <=? b)%float = negb (b <? a)%float.
Proof.
  rewrite !is_nan_Prim2SF, leb_spec, ltb_spec. unfold SFleb, SFltb.
  rewrite (SFcompare_antisym (Prim2SF a)). intros Ha Hb.
  destruct (Prim2SF a) as [[]|[]| |[] m e], (Prim2SF b) as [[]|[]| |[] m' e']; simpl in *; try discriminate; try reflexivity.
  all: destruct (e ?= e')%Z; simpl; try reflexivity; destruct (Pos.compare_cont Eq m m'); reflexivity.
Qed.

















(** ** The same facts on primitive floats *)

Lemma is_nan_false_iff x : is_nan x = false <-> sf_nan (Prim2SF x) = false.
Proof. rewrite is_nan_Prim2SF. reflexivity. Qed.

Lemma Prim2SF_infinity : Prim2SF infinity = S754_infinity false.
Proof. reflexivity. Qed.

Lemma is_infinity_Prim2SF x :
  is_infinity x = match Prim2SF x with S754_infinity _ => true | _ => false end.
Proof.
  unfold is_infinity. rewrite eqb_spec, abs_spec, Prim2SF_infinity.
  destruct (Prim2SF x) as [[]|[]| |[] m e]; reflexivity.
Qed.

Lemma is_finite_Prim2SF x : is_finite x = sf_finite (Prim2SF x).
Proof.
  unfold is_finite. rewrite is_nan_Prim2SF, is_infinity_Prim2SF.
  destruct (Prim2SF x) as [[]|[]| |[] m e]; reflexivity.
Qed.

Lemma finite_not_nan x : is_finite x = true -> is_nan x = false.
Proof.
  rewrite is_finite_Prim2SF, is_nan_Prim2SF.
  destruct (Prim2SF x); simpl; congruence.
Qed.








Lemma leb_true_ltb_false a b : (a <=? b)%float = true -> (b <? a)%float = false.
Proof.
  rewrite leb_spec, ltb_spec. unfold SFleb, SFltb.
  rewrite (SFcompare_antisym (Prim2SF a)).
  destruct (SFcompare (Prim2SF a) (Prim2SF b)) as [[]|]; simpl; congruence.
Qed.

(** ** NumPy helpers *)













Lemma compress_same_length {A} mask (a : list A) :
  List.length mask = List.length a -> Np.compress mask a = Ok (Np.select mask a).
Proof. intros H. unfold Np.compress. rewrite H, Nat.eqb_refl. reflexivity. Qed.

(** ** Five-sigma clipping *)



(** The outlier of the sample goes, six of seven samples stay. *)
Example five_sigma_clip_sample :
  Bls._five_sigma_clip Demo.time7 Demo.flux7 None
  = Ok ([0; 1; 2; 3; 5; 6]%float,
        [1.0; 1.01; 0.99; 1.0; 1.02; 0.98]%float, None, (6 / 7)%float).
Proof. vm_compute. reflexivity. Qed.

(** Constant flux has a zero MAD: nothing is clipped, the kept fraction is
    1.0. *)
Example five_sigma_clip_constant_flux :
  Bls._five_sigma_clip Demo.time7 (map (fun _ => 1.0%float) Demo.time7) None
  = Ok (Demo.time7, map (fun _ => 1.0%float) Demo.time7, None, 1.0%float).
Proof. vm_compute. reflexivity. Qed.

(** ** Conditioning: masks, ordering, and the two sample-count checks *)

Lemma logical_and_same a b :
  List.length a = List.length b ->
  Np.logical_and a b = Ok (map (fun p => fst p && snd p) (combine a b)).
Proof. intros H. unfold Np.logical_and. rewrite H, Nat.eqb_refl. reflexivity. Qed.

Lemma logical_and_inplace_same a b :
  List.length a = List.length b ->
  Np.logical_and_inplace a b = Ok (map (fun p => fst p && snd p) (combine a b)).
Proof.
  intros H. unfold Np.logical_and_inplace. rewrite H, Nat.eqb_refl. reflexivity.
Qed.

Lemma and_combine_length (a b : list bool) :
  List.length a = List.length b ->
  List.length (map (fun p => fst p && snd p) (combine a b)) = List.length a.
Proof. intros H. rewrite length_map, length_combine, H. apply Nat.min_id. Qed.

Lemma all_finite_mask_length time flux flux_err :
  List.length time = List.length flux ->
  Spec.same_length_opt flux_err (List.length flux) ->
  List.length (Spec.all_finite_mask time flux flux_err) = List.length time.
Proof.
  intros Ht He. unfold Spec.all_finite_mask.
  assert (Hb : List.length (map (fun p : bool * bool => fst p && snd p)
                 (combine (map Np.isfinite time) (map Np.isfinite flux)))
               = List.length time).
  { rewrite and_combine_length; rewrite !length_map; congruence. }
  destruct flux_err as [e|]; [|exact Hb].
  simpl in He. rewrite and_combine_length; [exact Hb|].
  rewrite Hb, length_map. congruence.
Qed.

Lemma finite_mask_eq time flux flux_err :
  List.length time = List.length flux ->
  Spec.same_length_opt flux_err (List.length flux) ->
  Bls.finite_mask time flux flux_err
  = Ok (Spec.all_finite_mask time flux flux_err).
Proof.
  intros Ht He. unfold Bls.finite_mask, Spec.all_finite_mask.
  rewrite logical_and_same by (rewrite !length_map; exact Ht). cbn [Py.bind].
  destruct flux_err as [e|]; [|reflexivity].
  simpl in He. apply logical_and_inplace_same.
  rewrite and_combine_length; rewrite !length_map; congruence.
Qed.

Lemma select_length {A} mask (a : list A) :
  List.length mask = List.length a ->
  List.length (Np.select mask a) = Np.count_nonzero mask.
Proof.
  unfold Np.count_nonzero. revert a.
  induction mask as [|m mask IH]; intros [|x a] H; simpl in *; try discriminate;
    try reflexivity.
  injection H as H. destruct m; simpl; rewrite IH by assumption; reflexivity.
Qed.

Lemma select_all_true {A} (f : list float) (a : list A) :
  List.length f = List.length a -> Np.select (map (fun _ => true) f) a = a.
Proof.
  revert a. induction f as [|x f IH]; intros [|y a] H; simpl in *;
    try discriminate; try reflexivity.
  injection H as H. rewrite IH by assumption. reflexivity.
Qed.

Lemma count_all_true (f : list float) :
  Np.count_nonzero (map (fun _ => true) f) = List.length f.
Proof.
  unfold Np.count_nonzero. induction f; simpl; congruence.
Qed.

(** [np.argsort] returns a rearrangement of the positions. *)
Lemma insert_keyed_In x y l :
  In y (Np.insert_keyed x l) -> y = x \/ In y l.
Proof.
  induction l as [|z l IH]; simpl.
  - intros [H|[]]; left; congruence.
  - destruct (Np.sort_le (snd x) (snd z)); simpl.
    + intros [H|[H|H]]; auto.
    + intros [H|H]; auto. destruct (IH H); auto.
Qed.

Lemma insert_keyed_length x l :
  List.length (Np.insert_keyed x l) = S (List.length l).
Proof.
  induction l as [|z l IH]; simpl; [reflexivity|].
  destruct (Np.sort_le (snd x) (snd z)); simpl; congruence.
Qed.

Lemma sort_keyed_In y l :
  In y (fold_right Np.insert_keyed [] l) -> In y l.
Proof.
  induction l as [|x l IH]; simpl; [tauto|].
  intros H. apply insert_keyed_In in H. destruct H; auto.
Qed.

Lemma sort_keyed_length l :
  List.length (fold_right Np.insert_keyed [] l) = List.length l.
Proof.
  induction l as [|x l IH]; simpl; [reflexivity|].
  rewrite insert_keyed_length. congruence.
Qed.

Lemma argsort_length keys :
  List.length (Np.argsort keys) = List.length keys.
Proof.
  unfold Np.argsort.
  rewrite length_map, sort_keyed_length, length_combine, length_seq.
  apply Nat.min_id.
Qed.

Lemma argsort_bound keys :
  Forall (fun i => (i < List.length keys)%nat) (Np.argsort keys).
Proof.
  unfold Np.argsort. rewrite Forall_map, Forall_forall. intros [i k] H.
  apply sort_keyed_In, in_combine_l, in_seq in H. simpl. lia.
Qed.

Lemma take_in_bounds idx (a : list float) :
  Forall (fun i => (i < List.length a)%nat) idx ->
  Np.take idx a = Ok (Spec.reorder idx a).
Proof.
  induction 1 as [|i idx Hi _ IH]; simpl; [reflexivity|].
  destruct (nth_error a i) as [x|] eqn:E.
  - rewrite IH. simpl. rewrite (nth_error_nth _ _ _ E). reflexivity.
  - apply nth_error_None in E. lia.
Qed.

Lemma reorder_length idx a : List.length (Spec.reorder idx a) = List.length idx.
Proof. apply length_map. Qed.

Lemma clip_keep_length flux :
  List.length (Spec.clip_keep flux) = List.length flux.
Proof.
  unfold Spec.clip_keep. destruct (_ =? _)%float; apply length_map.
Qed.

(** The clipping step, on parallel arrays, returns what [clip_keep] keeps. *)
Lemma five_sigma_clip_keeps time flux flux_err :
  List.length time = List.length flux ->
  Spec.same_length_opt flux_err (List.length flux) ->
  flux <> [] ->
  exists fraction,
    Bls._five_sigma_clip time flux flux_err
    = Ok (Np.select (Spec.clip_keep flux) time,
          Np.select (Spec.clip_keep flux) flux,
          option_map (Np.select (Spec.clip_keep flux)) flux_err,
          fraction).
Proof.
  intros Ht He Hne. unfold Bls._five_sigma_clip, Spec.clip_keep.
  destruct (Bls._mad flux =? 0)%float.
  - exists 1.0%float. rewrite !select_all_true by congruence.
    destruct flux_err as [e|]; simpl in *; [|reflexivity].
    rewrite select_all_true by congruence. reflexivity.
  - set (keep := map _ flux).
    assert (Hk : List.length keep = List.length flux) by apply length_map.
    rewrite !compress_same_length by congruence. cbn [Py.bind].
    assert (Herr : Bls.compress_opt keep flux_err
                   = Ok (option_map (Np.select keep) flux_err)).
    { destruct flux_err as [e|]; simpl in *; [|reflexivity].
      rewrite compress_same_length by congruence. reflexivity. }
    rewrite Herr. cbn [Py.bind]. unfold Py.truediv.
    destruct (Z.of_nat (List.length flux) =? 0)%Z eqn:E.
    { apply Z.eqb_eq in E. destruct flux; [congruence | simpl in E; lia]. }
    eexists. reflexivity.
Qed.

(** The conditioning stage on parallel arrays: the first check fails on
    fewer than 200 finite samples, the second on fewer than 200 samples kept
    by the clip, and with both passed the stage returns. *)
Lemma condition_checks time flux flux_err :
  List.length time = List.length flux ->
  Spec.same_length_opt flux_err (List.length flux) ->
  let n1 := Spec.n_finite time flux flux_err in
  let n2 := Spec.n_after_clip time flux flux_err in
  ((n1 <? 200)%nat = true ->
   Bls.condition time flux flux_err
   = Py.raise Py.InsufficientDataError
       "insufficient samples after removing non-finite values")
  /\ ((n1 <? 200)%nat = false -> (n2 <? 200)%nat = true ->
      Bls.condition time flux flux_err
      = Py.raise Py.InsufficientDataError "insufficient samples after clipping")
  /\ ((n1 <? 200)%nat = false -> (n2 <? 200)%nat = false ->
      Py.is_ok (Bls.condition time flux flux_err) = true).
Proof.
  intros Ht He n1 n2. unfold Bls.condition.
  rewrite finite_mask_eq by assumption. cbn [Py.bind].
  pose proof (all_finite_mask_length time flux flux_err Ht He) as Hm.
  set (mask := Spec.all_finite_mask time flux flux_err) in *.
  rewrite !compress_same_length by congruence. cbn [Py.bind].
  assert (Herr : Bls.compress_opt mask flux_err
                 = Ok (option_map (Np.select mask) flux_err)).
  { destruct flux_err as [e|]; simpl in *; [|reflexivity].
    rewrite compress_same_length by congruence. reflexivity. }
  rewrite Herr. cbn [Py.bind].
  assert (Hn1 : List.length (Np.select mask time) = n1)
    by (apply select_length; exact Hm).
  rewrite Hn1. unfold Bls.MIN_SAMPLES.
  destruct (n1 <? 200)%nat eqn:E1;
    [repeat split; intros; try discriminate; reflexivity|].
  apply Nat.ltb_ge in E1.
  set (tsel := Np.select mask time) in *.
  set (fsel := Np.select mask flux).
  assert (Hfsel : List.length fsel = n1)
    by (unfold fsel, n1; apply select_length; congruence).
  set (order := Np.argsort tsel).
  assert (Hord : List.length order = n1)
    by (unfold order; rewrite argsort_length; exact Hn1).
  pose proof (argsort_bound tsel) as Hb. fold order in Hb.
  rewrite (take_in_bounds order tsel) by exact Hb.
  rewrite (take_in_bounds order fsel)
    by (rewrite Hfsel, <- Hn1; exact Hb).
  cbn [Py.bind].
  assert (Herr2 : Bls.take_opt order (option_map (Np.select mask) flux_err)
                  = Ok (option_map (Spec.reorder order)
                                   (option_map (Np.select mask) flux_err))).
  { destruct flux_err as [e|]; simpl in He; simpl; [|reflexivity].
    rewrite take_in_bounds; [reflexivity|].
    rewrite select_length by congruence.
    rewrite <- (select_length mask time) by exact Hm. exact Hb. }
  rewrite Herr2. cbn [Py.bind].
  set (t2 := Spec.reorder order tsel).
  set (f2 := Spec.reorder order fsel).
  assert (Hf2 : f2 = Spec.flux_before_clip time flux flux_err) by reflexivity.
  assert (Hlt2 : List.length t2 = List.length f2)
    by (unfold t2, f2; rewrite !reorder_length; reflexivity).
  assert (Hlf2 : List.length f2 = n1)
    by (unfold f2; rewrite reorder_length; exact Hord).
  destruct (five_sigma_clip_keeps t2 f2
              (option_map (Spec.reorder order)
                          (option_map (Np.select mask) flux_err)))
    as [fraction Hclip].
  { exact Hlt2. }
  { destruct flux_err as [e|]; simpl; [|exact I].
    rewrite reorder_length. congruence. }
  { intros E. rewrite E in Hlf2. simpl in Hlf2. lia. }
  rewrite Hclip. cbn [Py.bind].
  assert (Hn2 : List.length (Np.select (Spec.clip_keep f2) t2) = n2).
  { rewrite select_length by (rewrite clip_keep_length; congruence).
    unfold n2, Spec.n_after_clip. rewrite <- Hf2. reflexivity. }
  rewrite Hn2.
  destruct (n2 <? 200)%nat; repeat split; intros; try discriminate;
    reflexivity.
Qed.

(** The conditioner establishes what the clipping step relies on: the mask
    keeps an entry only when its flux is finite, reordering keeps the
    entries, and so the flux handed to the clip is finite and has as many
    entries as there are finite samples (200 or more past the first
    check). *)
Lemma base_mask_finite time flux :
  List.length time = List.length flux ->
  Forall2 (fun (m : bool) f => m = true -> is_finite f = true)
          (map (fun p => fst p && snd p)
               (combine (map Np.isfinite time) (map Np.isfinite flux)))
          flux.
Proof.
  revert flux. induction time as [|t time IH]; intros [|f flux] H;
    simpl in *; try discriminate; constructor.
  - intros Hm. apply andb_true_iff in Hm. exact (proj2 Hm).
  - apply IH. congruence.
Qed.

Lemma and_mask_finite (base : list bool) (extra : list bool) flux :
  Forall2 (fun (m : bool) f => m = true -> is_finite f = true) base flux ->
  List.length extra = List.length flux ->
  Forall2 (fun (m : bool) f => m = true -> is_finite f = true)
          (map (fun p => fst p && snd p) (combine base extra)) flux.
Proof.
  intros H. revert extra.
  induction H as [|m f base flux Hm _ IH]; intros [|x extra] He;
    simpl in *; try discriminate; constructor.
  - intros Hmx. apply andb_true_iff in Hmx. apply Hm, Hmx.
  - apply IH. congruence.
Qed.

Lemma all_finite_mask_finite time flux flux_err :
  List.length time = List.length flux ->
  Spec.same_length_opt flux_err (List.length flux) ->
  Forall2 (fun (m : bool) f => m = true -> is_finite f = true)
          (Spec.all_finite_mask time flux flux_err) flux.
Proof.
  intros Ht He. unfold Spec.all_finite_mask.
  destruct flux_err as [e|]; [|apply base_mask_finite, Ht].
  apply and_mask_finite; [apply base_mask_finite, Ht|].
  rewrite length_map. exact He.
Qed.

Lemma select_finite mask flux :
  Forall2 (fun (m : bool) f => m = true -> is_finite f = true) mask flux ->
  Forall (fun f => is_finite f = true) (Np.select mask flux).
Proof.
  induction 1 as [|m f mask flux Hm _ IH]; simpl; [constructor|].
  destruct m; [constructor; auto | exact IH].
Qed.

Lemma reorder_Forall (P : float -> Prop) idx a :
  Forall P a -> Forall (fun i => (i < List.length a)%nat) idx ->
  Forall P (Spec.reorder idx a).
Proof.
  intros Ha Hidx. unfold Spec.reorder. rewrite Forall_map.
  rewrite Forall_forall in *. intros i Hi.
  apply Ha, nth_In, Hidx, Hi.
Qed.

Lemma flux_before_clip_finite time flux flux_err :
  List.length time = List.length flux ->
  Spec.same_length_opt flux_err (List.length flux) ->
  Forall (fun f => is_finite f = true)
         (Spec.flux_before_clip time flux flux_err)
  /\ List.length (Spec.flux_before_clip time flux flux_err)
     = Spec.n_finite time flux flux_err.
Proof.
  intros Ht He. unfold Spec.flux_before_clip.
  pose proof (all_finite_mask_length time flux flux_err Ht He) as Hm.
  set (mask := Spec.all_finite_mask time flux flux_err) in *.
  assert (Hlen : List.length (Np.select mask time)
                 = List.length (Np.select mask flux))
    by (rewrite !select_length by congruence; reflexivity).
  split.
  - apply reorder_Forall.
    + apply select_finite, all_finite_mask_finite; assumption.
    + rewrite <- Hlen. apply argsort_bound.
  - rewrite reorder_length, argsort_length.
    apply select_length. exact Hm.
Qed.

(** ** Which stages can raise [InsufficientDataError] *)

Import Spec(quiet).

Lemma quiet_bind {A B} (r : result A) (k : A -> result B) :
  quiet r -> (forall a, quiet (k a)) -> quiet (Py.bind r k).
Proof. unfold quiet. destruct r; simpl; auto. Qed.

Lemma quiet_ok {A} (a : A) : quiet (Ok a).
Proof. reflexivity. Qed.

Lemma quiet_compress {A} mask (a : list A) : quiet (Np.compress mask a).
Proof. unfold quiet, Np.compress. destruct (_ =? _)%nat; reflexivity. Qed.

Lemma quiet_logical_and a b : quiet (Np.logical_and a b).
Proof.
  unfold quiet, Np.logical_and. destruct (_ =? _)%nat; [reflexivity|].
  destruct a as [|x [|? ?]]; try reflexivity; destruct b as [|y [|? ?]]; reflexivity.
Qed.

Lemma quiet_fdiv a b : quiet (Bls.fdiv a b).
Proof. unfold quiet, Bls.fdiv. destruct (_ =? _)%float; reflexivity. Qed.

Lemma quiet_of_foreign {A} (f : Py.foreign A) : quiet (Py.of_foreign f).
Proof. destruct f; reflexivity. Qed.

Lemma quiet_nanargmax a : quiet (Np.nanargmax a).
Proof.
  unfold quiet, Np.nanargmax. destruct a; [reflexivity|].
  destruct (forallb _ _); reflexivity.
Qed.

Create HintDb quiet.
#[local] Hint Resolve quiet_ok quiet_compress quiet_logical_and quiet_fdiv
  quiet_of_foreign quiet_nanargmax : quiet.

Ltac quiet_step :=
  match goal with
  | |- quiet (Py.bind _ _) => apply quiet_bind; [|intros]
  | |- quiet (if ?c then _ else _) => destruct c
  | |- quiet (match ?x with _ => _ end) => destruct x
  | |- quiet (let '_ := ?x in _) => destruct x
  | |- _ => solve [auto with quiet | exact eq_refl]
  end.

Lemma quiet_normalize c : quiet (Bls.normalize c).
Proof. unfold Bls.normalize. repeat quiet_step. Qed.

Lemma quiet_search bls settings time_arr norm_flux norm_flux_err :
  quiet (Bls.search bls settings time_arr norm_flux norm_flux_err).
Proof. unfold Bls.search. repeat quiet_step. Qed.

Lemma quiet_derive np_std np_mean time_arr norm_flux fraction_kept meta fit :
  quiet (Bls.derive np_std np_mean time_arr norm_flux fraction_kept meta fit).
Proof. unfold Bls.derive. repeat quiet_step. Qed.

(** C3. On a light-curve sample (parallel arrays) feature extraction raises
    [InsufficientDataError] exactly when fewer than 200 finite samples
    remain before the clipping stage or fewer than 200 samples remain after
    it; in those cases [InsufficientDataError] itself is what is raised, and
    with at least 200 samples past both stages it is not raised. *)
Theorem insufficient_data_exactly_below_200
    (bls : Bls.BoxLeastSquares) (np_std np_mean : list float -> float)
    (settings : Config.Settings) (time flux : list float)
    (flux_err : option (list float)) (meta : option (Py.dict float)) :
  List.length time = List.length flux ->
  Spec.same_length_opt flux_err (List.length flux) ->
  let r := Bls.build_bls_features bls np_std np_mean settings
                                  time flux flux_err meta in
  let n_before := Spec.n_finite time flux flux_err in
  let n_after := Spec.n_after_clip time flux flux_err in
  (Py.raises r Py.InsufficientDataError = true
   <-> (n_before < 200 \/ n_after < 200)%nat)
  /\ ((n_before < 200 \/ n_after < 200)%nat ->
      exists msg, r = Raise (Exn Py.InsufficientDataError msg None))
  /\ ((200 <= n_before)%nat -> (200 <= n_after)%nat ->
      Py.raises r Py.InsufficientDataError = false).
Proof.
  intros Ht He r n_before n_after.
  destruct (condition_checks time flux flux_err Ht He) as (G1 & G2 & G3).
  fold n_before n_after in G1, G2, G3.
  assert (Hlow : (n_before < 200 \/ n_after < 200)%nat ->
                 exists msg, r = Raise (Exn Py.InsufficientDataError msg None)).
  { intros Hn. unfold r, Bls.build_bls_features.
    destruct (n_before <? 200)%nat eqn:E1.
    - rewrite G1 by reflexivity. eexists. reflexivity.
    - destruct (n_after <? 200)%nat eqn:E2.
      + rewrite G2 by reflexivity. eexists. reflexivity.
      + apply Nat.ltb_ge in E1, E2. lia. }
  assert (Hhigh : (200 <= n_before)%nat -> (200 <= n_after)%nat ->
                  Py.raises r Py.InsufficientDataError = false).
  { intros H1 H2. apply Nat.ltb_ge in H1, H2. specialize (G3 H1 H2).
    unfold r, Bls.build_bls_features.
    destruct (Bls.condition time flux flux_err) as [c|e]; [|discriminate].
    cbn [Py.bind]. apply quiet_bind; [apply quiet_normalize|].
    intros [norm_flux norm_flux_err].
    apply quiet_bind; [apply quiet_search|]. intros fit.
    apply quiet_bind; [apply quiet_derive|]. intros [features summary].
    reflexivity. }
  split; [|split; assumption].
  split.
  - intros Hr.
    destruct (Nat.lt_ge_cases n_before 200) as [|H1]; [left; assumption|].
    destruct (Nat.lt_ge_cases n_after 200) as [|H2]; [right; assumption|].
    rewrite (Hhigh H1 H2) in Hr. discriminate.
  - intros Hn. destruct (Hlow Hn) as [msg ->]. reflexivity.
Qed.

Lemma insufficient_data_exactly_below_200_witness :
  let r := Bls.build_bls_features Demo.bls Demo.np_std Demo.np_mean
             Demo.settings Demo.time7 Demo.flux7_bad None None in
  (Py.raises r Py.InsufficientDataError = true
   <-> (Spec.n_finite Demo.time7 Demo.flux7_bad None < 200
        \/ Spec.n_after_clip Demo.time7 Demo.flux7_bad None < 200)%nat)
  /\ ((Spec.n_finite Demo.time7 Demo.flux7_bad None < 200
       \/ Spec.n_after_clip Demo.time7 Demo.flux7_bad None < 200)%nat ->
      exists msg, r = Raise (Exn Py.InsufficientDataError msg None))
  /\ ((200 <= Spec.n_finite Demo.time7 Demo.flux7_bad None)%nat ->
      (200 <= Spec.n_after_clip Demo.time7 Demo.flux7_bad None)%nat ->
      Py.raises r Py.InsufficientDataError = false).
Proof.
  apply (insufficient_data_exactly_below_200 Demo.bls Demo.np_std Demo.np_mean
           Demo.settings Demo.time7 Demo.flux7_bad None None);
    [reflexivity | exact I].
Defined.

(** Five finite samples out of seven: the first check fails. *)
Example insufficient_data_sample :
  Spec.n_finite Demo.time7 Demo.flux7_bad None = 5%nat
  /\ Bls.build_bls_features Demo.bls Demo.np_std Demo.np_mean
       Demo.settings Demo.time7 Demo.flux7_bad None None
     = Py.raise Py.InsufficientDataError
         "insufficient samples after removing non-finite values".
Proof. split; vm_compute; reflexivity. Qed.

(** ** Derived diagnostics *)

Lemma get_set_other {V} k k' (v : V) d :
  String.eqb k k' = false -> Py.get k (Py.set k' v d) = Py.get k d.
Proof.
  intros Hk. induction d as [|[k0 v0] d IH]; simpl.
  - rewrite Hk. reflexivity.
  - destruct (String.eqb k' k0) eqn:E; simpl.
    + apply String.eqb_eq in E. subst k0. rewrite Hk. reflexivity.
    + destruct (String.eqb k k0); [reflexivity | exact IH].
Qed.

Lemma get_set_same {V} k (v : V) d : Py.get k (Py.set k v d) = Some v.
Proof.
  induction d as [|[k0 v0] d IH]; simpl.
  - rewrite String.eqb_refl. reflexivity.
  - destruct (String.eqb k k0) eqn:E; simpl.
    + rewrite String.eqb_refl. reflexivity.
    + rewrite E. exact IH.
Qed.

Lemma ltb_zero_nonzero p : (0 <? p)%float = true -> (p =? 0)%float = false.
Proof.
  rewrite ltb_spec, eqb_spec. unfold SFltb, SFeqb.
  rewrite (SFcompare_antisym (Prim2SF 0)).
  destruct (SFcompare (Prim2SF 0) (Prim2SF p)) as [[]|]; simpl; congruence.
Qed.

Lemma fdiv_guarded a p : (0 <? p)%float = true -> Bls.fdiv a p = Ok (a / p)%float.
Proof. intros H. unfold Bls.fdiv. rewrite (ltb_zero_nonzero p H). reflexivity. Qed.

Lemma fdiv_truthy a b : Py.truthy b = true -> Bls.fdiv a b = Ok (a / b)%float.
Proof.
  unfold Py.truthy, Bls.fdiv. destruct (b =? 0)%float; [discriminate | reflexivity].
Qed.

Lemma last_default_irrelevant {A} (x : A) l d d' : last (x :: l) d = last (x :: l) d'.
Proof.
  revert x. induction l as [|y l IH]; intros x; [reflexivity|].
  change (last (y :: l) d = last (y :: l) d'). apply IH.
Qed.

Lemma get_fold_meta (k : string) (m : Py.dict float) keys base :
  existsb (String.eqb k) keys = false ->
  Py.get k (fold_left (fun acc key =>
                         match Py.get key m with
                         | Some v => Py.set key v acc
                         | None => acc
                         end) keys base)
  = Py.get k base.
Proof.
  revert base. induction keys as [|key keys IH]; intros base H; simpl in *.
  - reflexivity.
  - apply orb_false_iff in H. destruct H as [Hk Hrest].
    rewrite IH by exact Hrest.
    destruct (Py.get key m); [apply get_set_other, Hk | reflexivity].
Qed.

Ltac len :=
  repeat first
    [ rewrite and_combine_length by (rewrite ?length_map; congruence)
    | rewrite length_map ];
  try congruence.

(** With a transit mask and a flux array as long as the time array, the
    derivation returns, and its duty cycle and transit count are the
    guarded quotients of the source. *)
Lemma derive_returns np_std np_mean time_arr norm_flux fraction_kept meta fit :
  time_arr <> [] ->
  List.length norm_flux = List.length time_arr ->
  List.length (Bls.transit_mask_array fit) = List.length time_arr ->
  exists features summary,
    Bls.derive np_std np_mean time_arr norm_flux fraction_kept meta fit
    = Ok (features, summary)
    /\ Py.get "duty_cycle" features
       = Some (if (0 <? Bls.best_period fit)%float
               then (Bls.best_duration fit / Bls.best_period fit)%float
               else 0.0%float)
    /\ Py.get "n_transits" features
       = Some (Py.max (if (0 <? Bls.best_period fit)%float
                       then (Spec.baseline_span time_arr / Bls.best_period fit)%float
                       else 0.0%float) 1.0).
Proof.
  intros Hne Hflux Hmask. unfold Bls.derive. cbv zeta.
  rewrite !compress_same_length by len. cbn [Py.bind].
  set (p := Bls.best_period fit).
  set (baseline := match time_arr with [] => _ | _ => _ end).
  assert (Hbase : baseline = Spec.baseline_span time_arr).
  { unfold baseline, Spec.baseline_span.
    destruct time_arr as [|t0 rest]; [congruence|].
    simpl hd. f_equal. apply last_default_irrelevant. }
  rewrite Hbase. clear Hbase baseline.
  assert (Hnt : (if (0 <? p)%float
                 then Bls.fdiv (Spec.baseline_span time_arr) p
                 else Ok 0.0%float)
                = Ok (if (0 <? p)%float
                      then (Spec.baseline_span time_arr / p)%float else 0.0%float)).
  { destruct (0 <? p)%float eqn:E; [apply fdiv_guarded, E | reflexivity]. }
  rewrite Hnt. cbn [Py.bind]. clear Hnt.
  set (numbers := if (0 <? p)%float then _ else _).
  assert (Hnum : List.length numbers = List.length time_arr)
    by (unfold numbers; destruct (0 <? p)%float; apply length_map).
  rewrite !logical_and_same by len. cbn [Py.bind].
  set (odd_mask := map _ (combine _ (map (fun k => (k mod 2 =? 0)%Z) numbers))).
  set (even_mask := map _ (combine _ (map (fun k => (k mod 2 =? 1)%Z) numbers))).
  assert (Hodd : List.length odd_mask = List.length norm_flux)
    by (unfold odd_mask; len).
  assert (Heven : List.length even_mask = List.length norm_flux)
    by (unfold even_mask; len).
  rewrite !compress_same_length by assumption. cbn [Py.bind].
  set (ratio := if Np.any odd_mask && Np.any even_mask then _ else _).
  assert (Hratio : exists v, ratio = Ok v).
  { unfold ratio. destruct (Np.any odd_mask && Np.any even_mask); [|eauto].
    destruct (Py.truthy _) eqn:E; [|eauto].
    rewrite fdiv_truthy by exact E. eauto. }
  destruct Hratio as [v ->]. cbn [Py.bind].
  set (before := if Np.any (map (fun t => (t <? _)%float) time_arr) then _ else _).
  assert (Hbefore : exists v, before = Ok v)
    by (unfold before; destruct (Np.any _); eauto).
  destruct Hbefore as [vb ->]. cbn [Py.bind].
  set (after := if Np.any _ then _ else _).
  assert (Hafter : exists v, after = Ok v)
    by (unfold after; destruct (Np.any _); eauto).
  destruct Hafter as [va ->]. cbn [Py.bind].
  assert (Hdc : (if (0 <? p)%float
                 then Bls.fdiv (Bls.best_duration fit) p else Ok 0.0%float)
                = Ok (if (0 <? p)%float
                      then (Bls.best_duration fit / p)%float else 0.0%float)).
  { destruct (0 <? p)%float eqn:E; [apply fdiv_guarded, E | reflexivity]. }
  rewrite Hdc. cbn [Py.bind]. clear Hdc.
  eexists. eexists. split; [reflexivity|].
  destruct meta as [[|kv m]|]; split;
    try rewrite get_fold_meta by reflexivity; reflexivity.
Qed.

(** C6. For a conditioned sample (non-empty, flux and transit mask as long
    as the time array) and a best fit, the feature derivation returns
    without an exception; with a best period [<= 0] it reports
    [duty_cycle = 0] and [n_transits = 1.0], and with a best period [> 0]
    it reports [n_transits = max(baseline_span / period, 1.0)], the
    baseline span being the last time minus the first. *)
Theorem duty_cycle_and_transit_count
    (np_std np_mean : list float -> float) (time_arr norm_flux : list float)
    (fraction_kept : float) (meta : option (Py.dict float))
    (fit : Bls.BestFit) :
  time_arr <> [] ->
  List.length norm_flux = List.length time_arr ->
  List.length (Bls.transit_mask_array fit) = List.length time_arr ->
  exists features summary,
    Bls.derive np_std np_mean time_arr norm_flux fraction_kept meta fit
    = Ok (features, summary)
    /\ ((Bls.best_period fit <=? 0)%float = true ->
        Py.get "duty_cycle" features = Some 0.0%float
        /\ Py.get "n_transits" features = Some 1.0%float)
    /\ ((0 <? Bls.best_period fit)%float = true ->
        Py.get "n_transits" features
        = Some (Py.max (Spec.baseline_span time_arr / Bls.best_period fit) 1.0)).
Proof.
  intros Hne Hflux Hmask.
  destruct (derive_returns np_std np_mean time_arr norm_flux fraction_kept
              meta fit Hne Hflux Hmask) as (features & summary & Hok & Hdc & Hnt).
  exists features, summary. split; [exact Hok|]. split.
  - intros Hle. apply leb_true_ltb_false in Hle.
    rewrite Hle in Hdc, Hnt. split; assumption.
  - intros Hgt. rewrite Hgt in Hnt. exact Hnt.
Qed.

Lemma duty_cycle_and_transit_count_witness :
  exists features summary,
    Bls.derive Demo.np_std Demo.np_mean Demo.time7 Demo.flux7 1.0 None
               Demo.fit_zero_period
    = Ok (features, summary)
    /\ ((Bls.best_period Demo.fit_zero_period <=? 0)%float = true ->
        Py.get "duty_cycle" features = Some 0.0%float
        /\ Py.get "n_transits" features = Some 1.0%float)
    /\ ((0 <? Bls.best_period Demo.fit_zero_period)%float = true ->
        Py.get "n_transits" features
        = Some (Py.max (Spec.baseline_span Demo.time7
                        / Bls.best_period Demo.fit_zero_period) 1.0)).
Proof.
  apply (duty_cycle_and_transit_count Demo.np_std Demo.np_mean Demo.time7
           Demo.flux7 1.0 None Demo.fit_zero_period);
    [discriminate | reflexivity | reflexivity].
Defined.

(** Six days of baseline at a period of two days: three transits, and a
    duty cycle of 0.0625. *)
Example derive_sample_period_two :
  exists features summary,
    Bls.derive Demo.np_std Demo.np_mean Demo.time7 Demo.flux7 1.0 None
               Demo.fit_period_two
    = Ok (features, summary)
    /\ Py.get "n_transits" features = Some 3.0%float
    /\ Py.get "duty_cycle" features = Some 0.0625%float.
Proof. eexists. eexists. split; [vm_compute; reflexivity|]. split; reflexivity. Qed.

(** ** The output boundary: serialising features and summary *)

Lemma set_values_satisfy {V} (P : V -> Prop) k v d :
  P v -> Spec.values_satisfy P d -> Spec.values_satisfy P (Py.set k v d).
Proof.
  intros Hv. induction 1 as [|[k0 v0] d H0 Hd IH]; simpl.
  - repeat constructor. exact Hv.
  - destruct (String.eqb k k0); constructor; assumption.
Qed.

Lemma get_values_satisfy {V} (P : V -> Prop) k v d :
  Spec.values_satisfy P d -> Py.get k d = Some v -> P v.
Proof.
  induction 1 as [|[k0 v0] d H0 Hd IH]; simpl; [discriminate|].
  destruct (String.eqb k k0); [intros [= <-]; exact H0 | exact IH].
Qed.

Lemma fold_left_pointwise {A B} (f g : A -> B -> A) l a :
  (forall a b, f a b = g a b) -> fold_left f l a = fold_left g l a.
Proof.
  intros H. revert a. induction l as [|b l IH]; intros a; simpl; [reflexivity|].
  rewrite H. apply IH.
Qed.

Lemma fold_set_values_satisfy {V W} (P : W -> Prop)
      (step : string * V -> string * W) (l : list (string * V)) acc :
  (forall kv, P (snd (step kv))) ->
  Spec.values_satisfy P acc ->
  Spec.values_satisfy P
    (fold_left (fun payload kv =>
                  Py.set (fst (step kv)) (snd (step kv)) payload) l acc).
Proof.
  intros Hstep. revert acc. induction l as [|kv l IH]; intros acc Hacc; simpl.
  - exact Hacc.
  - apply IH, set_values_satisfy; [apply Hstep | exact Hacc].
Qed.

(** The summary payload never holds a NaN or an infinity. *)
Lemma serialize_summary_clean summary :
  Spec.values_satisfy Spec.null_or_finite (Infer._serialize_summary summary).
Proof.
  unfold Infer._serialize_summary.
  set (step := fun kv : string * option float =>
                 (fst kv,
                  match snd kv with
                  | None => None
                  | Some x => if is_nan x || is_infinity x then None else Some x
                  end)).
  erewrite fold_left_pointwise.
  - apply (fold_set_values_satisfy Spec.null_or_finite step); [|constructor].
    intros [k [x|]]; simpl; [|exact I].
    destruct (is_nan x || is_infinity x) eqn:E; simpl; [exact I|].
    unfold is_finite. rewrite E. reflexivity.
  - intros payload [k [x|]]; simpl; [|reflexivity].
    destruct (is_nan x || is_infinity x); reflexivity.
Qed.

(** The feature payload never holds a NaN ... *)
Lemma serialize_series_no_nan series :
  Spec.values_satisfy Spec.null_or_not_nan (Infer._serialize_series series).
Proof.
  unfold Infer._serialize_series.
  set (step := fun kv : string * float =>
                 (fst kv, if is_nan (snd kv) then None else Some (snd kv))).
  erewrite fold_left_pointwise.
  - apply (fold_set_values_satisfy Spec.null_or_not_nan step); [|constructor].
    intros [k x]; simpl. destruct (is_nan x) eqn:E; simpl; [exact I | exact E].
  - intros payload [k x]; simpl. destruct (is_nan x); reflexivity.
Qed.

(** ... but an infinity passes [pd.isna] and is copied to the payload. *)
Lemma serialize_series_keeps_infinity k :
  Infer._serialize_series [(k, infinity)] = [(k, Some infinity)]
  /\ Infer._serialize_series [(k, neg_infinity)] = [(k, Some neg_infinity)].
Proof. split; reflexivity. Qed.

(** C1 (at the failing input). A feature vector with an infinite entry and
    a NaN entry is scored: the response is produced, its summary payload
    turns NaN and infinity into the null sentinel, its feature payload
    turns the NaN into the null sentinel, and the infinity of the feature
    vector appears in the feature payload as a raw number. *)
Theorem score_feature_payload_leaks_infinity :
  exists resp w',
    Infer._score Demo.settings Demo.features_inf Demo.summary_inf []
                 None 0 Demo.iso_state None false None
                 (Demo.world_of Demo.iso_dir (Some Demo.iso_state))
    = (Ok resp, w')
    /\ Py.get "snr" (Infer.summary resp) = Some None
    /\ Py.get "depth_ppm" (Infer.summary resp) = Some None
    /\ Py.get "rms_before" (Infer.features resp) = Some None
    /\ Py.get "odd_even_depth_ratio" (Infer.features resp) = Some (Some infinity)
    /\ is_finite infinity = false.
Proof.
  eexists. eexists. split; [vm_compute; reflexivity|].
  repeat split; reflexivity.
Qed.

(** ** Hot reload *)


Lemma new_events_app w w' evs :
  Sys.trace w' = (Sys.trace w ++ evs)%list -> Spec.new_events w w' = evs.
Proof.
  intros H. unfold Spec.new_events. rewrite H, skipn_app, skipn_all.
  rewrite Nat.sub_diag. reflexivity.
Qed.

(** [refresh] over an existing pointer file, by cases: a due reload calls
    the loader (and installs its state when it returns one); otherwise the
    cached state comes back and the world is the same. *)
Lemma refresh_cases settings force w text mtime :
  Loader.latest_txt (Sys.model_files w) = Some (text, mtime) ->
  let due :=
    force || match Sys._state w with
             | None => true
             | Some st => (Loader.latest_mtime st <? mtime)%float
             end in
  let w1 := Sys.with_trace w (Sys.trace w ++ [Sys.LoadState])%list in
  Infer.refresh settings force w =
    if due then
      match Loader.load_state settings (Sys.model_files w) with
      | Ok st => (Ok st, Sys.with_state w1 (Some st))
      | Raise e => (Raise e, w1)
      end
    else
      match Sys._state w with
      | Some st => (Ok st, w)
      | None => (Raise (Exn Py.AssertionError "" None), w)
      end.
Proof.
  intros Hptr. cbv zeta. unfold Infer.refresh, Sys.bind, Sys.get_world.
  rewrite Hptr.
  destruct (force || _)%bool.
  - unfold Sys.emit, Sys.lift. cbn [Sys.model_files Sys.with_trace].
    destruct (Loader.load_state settings (Sys.model_files w)); reflexivity.
  - unfold Sys.ret. destruct (Sys._state w); reflexivity.
Qed.




(** A pointer file touched after the load triggers the reload; one as old
    as the cached state does not. *)
Example refresh_on_newer_pointer :
  let fresh := Demo.world_of Demo.iso_dir (Some Demo.iso_state) in
  let stale := Demo.world_of Demo.xgb_dir (Some Demo.iso_state) in
  Sys.trace (snd (Infer.refresh Demo.settings false fresh)) = []
  /\ Sys.trace (snd (Infer.refresh Demo.settings false stale)) = [Sys.LoadState]
  /\ option_map Loader.mode
       (Sys._state (snd (Infer.refresh Demo.settings false stale)))
     = Some Loader.supervised.
Proof. repeat split; vm_compute; reflexivity. Qed.

(** ** Scoring *)

(** A scoring call, run: the score comes from [compute_score] alone; the
    clock is read once, one log record is written, and nothing else of the
    world changes. *)
Lemma score_run settings features summary warnings tic_id start_ms state
      cache_hit auto_fetch lightcurve w :
  Infer._score settings features summary warnings tic_id start_ms state
               cache_hit auto_fetch lightcurve w
  = match Infer.compute_score state features with
    | Raise e => (Raise e, w)
    | Ok (score, is_probability) =>
        let w1 := Sys.with_ticks w (S (Sys.ticks w)) in
        (Ok {| Infer.tic_id := tic_id;
               Infer.resp_mode := Loader.mode state;
               Infer.is_probability := is_probability;
               Infer.score := score;
               Infer.summary := Infer._serialize_summary summary;
               Infer.features := Infer._serialize_series features;
               Infer.warnings := warnings;
               Infer.meta :=
                 {| Infer.artifact_dir := Config.model_dir settings;
                    Infer.meta_feature_names_version :=
                      Loader.feature_names_version state;
                    Infer.runtime_ms :=
                      Z.max 0 (Sys.clock w (Sys.ticks w) - start_ms);
                    Infer.cache_hit := cache_hit;
                    Infer.auto_fetch := auto_fetch |};
               Infer.lightcurve := lightcurve |},
         Sys.with_trace w1
           (Sys.trace w1 ++ [Sys.Log "info" "prediction_complete"])%list)
    end.
Proof.
  unfold Infer._score, Sys.bind, Sys.lift.
  destruct (Infer.compute_score state features) as [[score is_probability]|e];
    reflexivity.
Qed.



(** C5. In supervised mode (booster and XGBoost module loaded, model input
    [X_model] built from the feature vector) the scoring path takes the
    booster's raw prediction; with no calibrator that raw value is the base
    score, with a calibrator the base score is the calibrator's
    positive-class probability (evaluated on [X_model]) instead; the
    response carries the base score clipped to [0, 1], flagged as a
    probability. *)
Theorem supervised_score_is_clipped_calibration
    (settings : Config.Settings) (features : Py.dict float)
    (summary : Py.dict (option float)) (warnings : list string)
    (tic_id : option Z) (start_ms : Z) (state : Loader.State)
    (cache_hit : option bool) (auto_fetch : bool)
    (lightcurve : option Infer.LightcurvePayload) (w : Sys.World)
    (predict : list string -> list float -> float) (X_model : list float) :
  Loader.mode state = Loader.supervised ->
  Loader.xgb state = Some Loader.XGBoost ->
  Loader.model state = Loader.Booster predict ->
  Infer.model_input state features = Ok X_model ->
  let run := Infer._score settings features summary warnings tic_id start_ms
                          state cache_hit auto_fetch lightcurve w in
  let raw := predict (Loader.feature_names state) X_model in
  (Loader.calibrator state = None ->
   exists resp, fst run = Ok resp
     /\ Infer.score resp = Np.clip raw 0 1
     /\ Infer.is_probability resp = true)
  /\ (forall predict_proba,
        Loader.calibrator state = Some (Loader.Classifier predict_proba) ->
        exists resp, fst run = Ok resp
          /\ Infer.score resp = Np.clip (snd (predict_proba X_model)) 0 1
          /\ Infer.is_probability resp = true).
Proof.
  intros Hmode Hxgb Hmodel Hinput. cbv zeta. rewrite score_run.
  unfold Infer.compute_score. rewrite Hinput, Hmode, Hxgb, Hmodel.
  cbn [Py.bind]. split.
  - intros Hcal. rewrite Hcal. cbn. eexists. repeat split.
  - intros predict_proba Hcal. rewrite Hcal. cbn. eexists. repeat split.
Qed.

Lemma supervised_score_is_clipped_calibration_witness :
  let run := Infer._score Demo.settings Demo.features_inf Demo.summary_inf []
                          (Some 42%Z) 0 Demo.xgb_state (Some false) false None
                          (Demo.world_of Demo.xgb_dir (Some Demo.xgb_state)) in
  let raw := (12.5 / 16)%float in
  (Loader.calibrator Demo.xgb_state = None ->
   exists resp, fst run = Ok resp
     /\ Infer.score resp = Np.clip raw 0 1
     /\ Infer.is_probability resp = true)
  /\ (forall predict_proba,
        Loader.calibrator Demo.xgb_state = Some (Loader.Classifier predict_proba) ->
        exists resp, fst run = Ok resp
          /\ Infer.score resp = Np.clip (snd (predict_proba [3.5; 12.5]%float)) 0 1
          /\ Infer.is_probability resp = true).
Proof.
  apply (supervised_score_is_clipped_calibration Demo.settings Demo.features_inf
           Demo.summary_inf [] (Some 42%Z) 0 Demo.xgb_state (Some false) false
           None (Demo.world_of Demo.xgb_dir (Some Demo.xgb_state))
           (fun _ X => (nth 1 X 0 / 16)%float) [3.5; 12.5]%float);
    reflexivity.
Defined.

(** The demo bundle has a calibrator: the raw prediction 12.5/16 gives way
    to the calibrated 12.5/32. *)
Example supervised_score_sample :
  Spec.score_of
    (fst (Infer._score Demo.settings Demo.features_inf Demo.summary_inf []
                       (Some 42%Z) 0 Demo.xgb_state (Some false) false None
                       (Demo.world_of Demo.xgb_dir (Some Demo.xgb_state))))
  = Ok (0.390625%float, true).
Proof. vm_compute. reflexivity. Qed.


(** The two responses differ in their run time, not in their score. *)
Example consecutive_scores_sample :
  let w := Demo.world_of Demo.iso_dir (Some Demo.iso_state) in
  let first := Infer._score Demo.settings Demo.features_inf Demo.summary_inf []
                            None 0 Demo.iso_state None false None w in
  let second := Infer._score Demo.settings Demo.features_inf Demo.summary_inf []
                             None 0 Demo.iso_state None false None (snd first) in
  match fst first, fst second with
  | Ok a, Ok b =>
      Infer.score a = Infer.score b
      /\ Infer.runtime_ms (Infer.meta a) = 0%Z
      /\ Infer.runtime_ms (Infer.meta b) = 7%Z
  | _, _ => False
  end.
Proof. vm_compute. repeat split. Qed.

(** Whatever is scored, a response's summary payload holds no NaN and no
    infinity, and its feature payload holds no NaN. *)
Lemma score_payload_hygiene settings features summary warnings tic_id start_ms
      state cache_hit auto_fetch lightcurve w resp w' :
  Infer._score settings features summary warnings tic_id start_ms state
               cache_hit auto_fetch lightcurve w = (Ok resp, w') ->
  Spec.values_satisfy Spec.null_or_finite (Infer.summary resp)
  /\ Spec.values_satisfy Spec.null_or_not_nan (Infer.features resp).
Proof.
  rewrite score_run.
  destruct (Infer.compute_score state features) as [[score is_probability]|e];
    [|discriminate].
  intros [= <- _]. split; [apply serialize_summary_clean|].
  apply serialize_series_no_nan.
Qed.

(** ** Artifact loading *)

Ltac innermost_bind :=
  match goal with
  | |- context [Py.bind ?r _] =>
      lazymatch r with
      | Py.bind _ _ => fail
      | (if _ then _ else _) => fail
      | match _ with _ => _ end => fail
      | _ => destruct r eqn:?; cbn [Py.bind]
      end
  end.

(** Walk through [load_state] until it returns or raises. *)
Ltac walk_load :=
  repeat first
    [ discriminate
    | innermost_bind
    | match goal with
      | |- context [if ?c then _ else _] => destruct c eqn:?
      | |- context [match ?x with _ => _ end] => destruct x eqn:?
      end ].







(** The specification's scenario: [model_iso_v2.pkl] with
    [feature_names_v2.json] and [scaler_v2.pkl] present and no calibrator
    file loads, as the unsupervised mode, with a scaler and without a
    calibrator; the supervised bundle loads as the supervised mode; a
    pointer of another prefix is refused. *)
Example load_state_scenarios :
  Loader.load_state Demo.settings Demo.iso_dir = Ok Demo.iso_state
  /\ Infer.mi_mode (Infer.model_info_of Demo.settings Demo.iso_state)
     = Loader.one_class
  /\ Infer.mi_has_scaler (Infer.model_info_of Demo.settings Demo.iso_state) = true
  /\ Infer.mi_has_calibrator (Infer.model_info_of Demo.settings Demo.iso_state)
     = false
  /\ Loader.feature_names_version Demo.iso_state = "v2"%string
  /\ Loader.load_state Demo.settings Demo.xgb_dir = Ok Demo.xgb_state
  /\ Loader.mode Demo.xgb_state = Loader.supervised
  /\ Loader.load_state Demo.settings Demo.other_dir
     = Py.raise Py.ValueError "Unsupported latest artifact name: weights_v1.pkl".
Proof. repeat split; reflexivity. Qed.

(** ** Prediction by TIC identifier *)

(** [refresh] touches the cached state and the trace only, and adds at most
    the loader call to the trace. *)
Lemma refresh_frame settings force w r w1 :
  Infer.refresh settings force w = (r, w1) ->
  Sys.model_files w1 = Sys.model_files w
  /\ Sys.lightcurve_files w1 = Sys.lightcurve_files w
  /\ Sys.feature_cache_files w1 = Sys.feature_cache_files w
  /\ Sys.mast w1 = Sys.mast w
  /\ Sys.clock w1 = Sys.clock w
  /\ Sys.ticks w1 = Sys.ticks w
  /\ (Sys.trace w1 = Sys.trace w
      \/ Sys.trace w1 = (Sys.trace w ++ [Sys.LoadState])%list).
Proof.
  destruct (Loader.latest_txt (Sys.model_files w)) as [[text mtime]|] eqn:Hptr.
  - rewrite (refresh_cases settings force w text mtime Hptr).
    destruct (force || _)%bool.
    + destruct (Loader.load_state settings (Sys.model_files w));
        intros [= <- <-]; cbn; repeat split; auto.
    + destruct (Sys._state w); intros [= <- <-]; repeat split; auto.
  - unfold Infer.refresh, Sys.bind, Sys.get_world. rewrite Hptr.
    cbn. intros [= <- <-]. repeat split; auto.
Qed.

(** A request for a light curve that is not on disk, with auto-fetch off
    and the artifacts refreshed: the store is asked once, and its
    [FileNotFoundError] comes back as a [LightcurveNotFoundError] with the
    same message. *)
Lemma predict_missing_lightcurve bls np_std np_mean settings tic_id w state w1 :
  Infer.refresh settings false w = (Ok state, w1) ->
  Sys.lightcurve_files w tic_id = None ->
  Config.auto_fetch_missing settings = false ->
  exists msg,
    Infer.predict_by_tic bls np_std np_mean settings tic_id w
    = (Raise (Exn Py.LightcurveNotFoundError msg
                  (Some (Exn Py.FileNotFoundError msg None))),
       Sys.with_trace (Sys.with_ticks w1 (S (Sys.ticks w1)))
                      (Sys.trace w1 ++ [Sys.GetLightcurve tic_id])%list).
Proof.
  intros Href Hnone Hauto.
  destruct (refresh_frame _ _ _ _ _ Href) as (_ & Hlc & _).
  unfold Infer.predict_by_tic. unfold Sys.bind at 1. rewrite Href.
  unfold Sys.bind at 1. unfold Sys.monotonic_ms at 1.
  unfold Sys.bind at 1. unfold Sys.try_except at 1.
  unfold LcStore.get_lightcurve_by_tic at 1.
  unfold Sys.bind, Sys.emit, Sys.get_world. cbn [Sys.lightcurve_files Sys.with_trace Sys.with_ticks].
  rewrite Hlc, Hnone. cbn [Sys.throw].
  change (Py.isinstance (Exn Py.FileNotFoundError _ None) Py.FileNotFoundError)
    with true. cbv iota.
  rewrite Hauto. cbn. eexists. reflexivity.
Qed.

Lemma not_in_new_events w w1 w2 (e extra : Sys.event) :
  (Sys.trace w1 = Sys.trace w
   \/ Sys.trace w1 = (Sys.trace w ++ [Sys.LoadState])%list) ->
  Sys.trace w2 = (Sys.trace w1 ++ [extra])%list ->
  e <> Sys.LoadState -> e <> extra ->
  ~ In e (Spec.new_events w w2).
Proof.
  intros [H1|H1] H2 Hl He.
  - rewrite H1 in H2. rewrite (new_events_app w w2 _ H2).
    intros [H|[]]. congruence.
  - rewrite H1, <- app_assoc in H2. rewrite (new_events_app w w2 _ H2).
    intros [H|[H|[]]]; congruence.
Qed.

(** The [/predict/by_tic] handler answers 404 for a
    [LightcurveNotFoundError] and for nothing else. *)
Lemma by_tic_404_iff r :
  Main.status_code_of (Main.by_tic_response r) = 404%Z
  <-> Py.raises r Py.LightcurveNotFoundError = true.
Proof.
  destruct r as [resp|e]; simpl.
  - split; discriminate.
  - destruct (Py.isinstance e Py.LightcurveNotFoundError); [split; reflexivity|].
    destruct (Py.isinstance e Py.InsufficientDataError);
      [split; discriminate|].
    destruct (Py.isinstance e Py.FeatureExtractionError); split; discriminate.
Qed.

(** C9 (amended). When the artifact refresh that opens the request
    succeeds, a request for a TIC identifier whose light-curve file does not
    exist, with auto-fetch disabled, raises [LightcurveNotFoundError]
    (caused by the store's [FileNotFoundError]; the class is a subclass of
    [FileNotFoundError] and differs from it) and never reaches scoring; the
    HTTP handler answers it with 404, and answers 404 for this error
    only. *)
Theorem missing_lightcurve_is_not_found
    (bls : Bls.BoxLeastSquares) (np_std np_mean : list float -> float)
    (settings : Config.Settings) (tic_id : Z) (w : Sys.World) :
  Py.is_ok (fst (Infer.refresh settings false w)) = true ->
  Sys.lightcurve_files w tic_id = None ->
  Config.auto_fetch_missing settings = false ->
  let '(r, w') := Infer.predict_by_tic bls np_std np_mean settings tic_id w in
  (exists msg cause,
     r = Raise (Exn Py.LightcurveNotFoundError msg (Some cause))
     /\ Py.exn_class cause = Py.FileNotFoundError)
  /\ Py.issubclass Py.LightcurveNotFoundError Py.FileNotFoundError = true
  /\ Py.LightcurveNotFoundError <> Py.FileNotFoundError
  /\ ~ Spec.scored w w'
  /\ ((1 <= tic_id)%Z ->
      Main.status_code_of
        (fst (Main.predict_by_tic bls np_std np_mean settings tic_id w))
      = 404%Z)
  /\ (forall r0 : result Infer.Response,
        Main.status_code_of (Main.by_tic_response r0) = 404%Z
        <-> Py.raises r0 Py.LightcurveNotFoundError = true).
Proof.
  intros Hok Hnone Hauto.
  destruct (Infer.refresh settings false w) as [[state|e] w1] eqn:Href;
    [|discriminate].
  destruct (predict_missing_lightcurve bls np_std np_mean settings tic_id w
              state w1 Href Hnone Hauto) as [msg Hrun].
  destruct (refresh_frame _ _ _ _ _ Href) as (_ & _ & _ & _ & _ & _ & Htrace).
  unfold Main.predict_by_tic. rewrite Hrun.
  split; [eexists; eexists; split; reflexivity|].
  split; [reflexivity|]. split; [discriminate|]. split.
  - unfold Spec.scored.
    eapply not_in_new_events; [exact Htrace | reflexivity | |]; discriminate.
  - split; [|apply by_tic_404_iff].
    intros Hge. apply Z.ltb_ge in Hge. rewrite Hge. reflexivity.
Qed.

Lemma missing_lightcurve_is_not_found_witness :
  let w := Demo.world_of Demo.iso_dir None in
  let '(r, w') := Infer.predict_by_tic Demo.bls Demo.np_std Demo.np_mean
                                       Demo.settings 42 w in
  (exists msg cause,
     r = Raise (Exn Py.LightcurveNotFoundError msg (Some cause))
     /\ Py.exn_class cause = Py.FileNotFoundError)
  /\ Py.issubclass Py.LightcurveNotFoundError Py.FileNotFoundError = true
  /\ Py.LightcurveNotFoundError <> Py.FileNotFoundError
  /\ ~ Spec.scored w w'
  /\ ((1 <= 42)%Z ->
      Main.status_code_of
        (fst (Main.predict_by_tic Demo.bls Demo.np_std Demo.np_mean
                                  Demo.settings 42 w))
      = 404%Z)
  /\ (forall r0 : result Infer.Response,
        Main.status_code_of (Main.by_tic_response r0) = 404%Z
        <-> Py.raises r0 Py.LightcurveNotFoundError = true).
Proof.
  apply (missing_lightcurve_is_not_found Demo.bls Demo.np_std Demo.np_mean
           Demo.settings 42 (Demo.world_of Demo.iso_dir None));
    reflexivity.
Defined.

(** C9 (as stated) fails when the refresh that opens the request raises:
    with [latest.txt] gone, the request for a missing light curve ends in
    a plain [FileNotFoundError]. *)
Lemma missing_lightcurve_behind_failed_refresh :
  ~ Spec.missing_lightcurve_not_found Demo.bls Demo.np_std Demo.np_mean
      Demo.settings 42 (Demo.world_of Demo.no_pointer_dir (Some Demo.iso_state)).
Proof.
  unfold Spec.missing_lightcurve_not_found. intros H.
  specialize (H eq_refl eq_refl).
  change (Infer.predict_by_tic Demo.bls Demo.np_std Demo.np_mean Demo.settings 42
            (Demo.world_of Demo.no_pointer_dir (Some Demo.iso_state)))
    with (@Raise Infer.Response
            (Exn Py.FileNotFoundError "latest.txt not found in /data/model" None),
          Demo.world_of Demo.no_pointer_dir (Some Demo.iso_state)) in H.
  destruct H as [H _]. discriminate H.
Qed.

(** The handler has no clause for that error: the answer is a 500. *)
Example failed_refresh_is_a_500 :
  Main.status_code_of
    (fst (Main.predict_by_tic Demo.bls Demo.np_std Demo.np_mean Demo.settings
            42 (Demo.world_of Demo.no_pointer_dir (Some Demo.iso_state))))
  = 500%Z.
Proof. reflexivity. Qed.

(** ** Auto-fetch *)




Lemma isinstance_same c msg cause : Py.isinstance (Exn c msg cause) c = true.
Proof. destruct c; reflexivity. Qed.



(** The events of a run that started with a refresh and then added
    [evs]. *)
Lemma new_events_after_refresh w w1 w' evs :
  (Sys.trace w1 = Sys.trace w
   \/ Sys.trace w1 = (Sys.trace w ++ [Sys.LoadState])%list) ->
  Sys.trace w' = (Sys.trace w1 ++ evs)%list ->
  Spec.new_events w w' = evs
  \/ Spec.new_events w w' = Sys.LoadState :: evs.
Proof.
  intros [H1|H1] H2; rewrite H1 in H2.
  - left. exact (new_events_app w w' _ H2).
  - right. rewrite <- app_assoc in H2. exact (new_events_app w w' _ H2).
Qed.





(** The sample request, run: the archive is asked, the cache (which holds a
    row) is not read, the response is flagged accordingly, and the freshly
    computed features replace the cached row. *)
Example auto_fetch_sample :
  let '(r, w') := Infer.predict_by_tic Demo.bls Demo.np_std Demo.np_mean
                    Demo.settings_auto_fetch 42 Demo.world_auto_fetch in
  Sys.trace w'
  = [ Sys.GetLightcurve 42; Sys.FetchFromMast 42; Sys.GetLightcurve 42;
      Sys.WriteCachedFeatures 42; Sys.Log "info" "prediction_complete" ]
  /\ match r with
     | Ok resp =>
         Infer.cache_hit (Infer.meta resp) = Some false
         /\ Infer.auto_fetch (Infer.meta resp) = true
         /\ Py.get "period_days" (Infer.features resp) = Some (Some 0.5%float)
         /\ Py.get "data_fraction_kept" (Infer.features resp) = Some (Some 1.0%float)
     | Raise _ => False
     end.
Proof. vm_compute. repeat split. Qed.

(** ** More on scoring *)

Lemma ltb_false_leb (a b : float) :
  is_nan a = false -> is_nan b = false ->
  (a <? b)%float = false -> (b <=? a)%float = true.
Proof.
  intros Ha Hb H. rewrite (leb_negb_ltb b a Hb Ha), H. reflexivity.
Qed.

(** [np.clip(x, 0, 1)] is NaN for a NaN and lies in [0, 1] otherwise. *)
Lemma clip_unit_range x :
  (is_nan x = true /\ is_nan (Np.clip x 0 1) = true)
  \/ (is_nan x = false
      /\ (0 <=? Np.clip x 0 1)%float = true
      /\ (Np.clip x 0 1 <=? 1)%float = true).
Proof.
  unfold Np.clip, Np.maximum, Np.minimum.
  destruct (is_nan x) eqn:Hx.
  - left. rewrite Hx. auto.
  - right. split; [reflexivity|].
    change (is_nan 0) with false. change (is_nan 1) with false. cbv iota.
    destruct (x <? 0)%float eqn:Hneg.
    + change (is_nan 0) with false. change (1 <? 0)%float with false.
      cbv iota. split; reflexivity.
    + rewrite Hx.
      assert (H0 : (0 <=? x)%float = true)
        by (apply ltb_false_leb; [exact Hx | reflexivity | exact Hneg]).
      destruct (1 <? x)%float eqn:Hbig.
      * split; reflexivity.
      * split; [exact H0|].
        apply ltb_false_leb; [reflexivity | exact Hx | exact Hbig].
Qed.

(** X1. Whatever the mode and whatever the model returns, the score a
    response carries is NaN or lies in [0, 1], and the response is flagged
    as a probability exactly in supervised mode (the flag [version_info]
    and [model_info] report for the same state). *)
Theorem score_is_nan_or_in_unit_interval
    (settings : Config.Settings) (features : Py.dict float)
    (summary : Py.dict (option float)) (warnings : list string)
    (tic_id : option Z) (start_ms : Z) (state : Loader.State)
    (cache_hit : option bool) (auto_fetch : bool)
    (lightcurve : option Infer.LightcurvePayload) (w w' : Sys.World)
    (resp : Infer.Response) :
  Infer._score settings features summary warnings tic_id start_ms state
               cache_hit auto_fetch lightcurve w = (Ok resp, w') ->
  (is_nan (Infer.score resp) = true
   \/ ((0 <=? Infer.score resp)%float = true
       /\ (Infer.score resp <=? 1)%float = true))
  /\ Infer.is_probability resp
     = Loader.mode_eqb (Loader.mode state) Loader.supervised
  /\ Infer.is_probability resp
     = Infer.mi_is_probability (Infer.model_info_of settings state)
  /\ Infer.resp_mode resp = Loader.mode state.
Proof.
  rewrite score_run. unfold Infer.compute_score.
  destruct (Infer.model_input state features) as [X|e]; [|discriminate].
  cbn [Py.bind].
  assert (Hclip : forall x,
             is_nan (Np.clip x 0 1) = true
             \/ ((0 <=? Np.clip x 0 1)%float = true
                 /\ (Np.clip x 0 1 <=? 1)%float = true)).
  { intros x. destruct (clip_unit_range x) as [[_ H]|[_ H]]; auto. }
  destruct (Loader.mode state) eqn:Hmode.
  - destruct (Loader.model state); try discriminate.
    intros [= <- _]. cbn. rewrite ?Hmode.
    repeat split; try reflexivity. apply Hclip.
  - destruct (Loader.xgb state); [|discriminate].
    destruct (Loader.model state); try discriminate. cbn [Py.bind].
    destruct (Loader.calibrator state) as [[]|]; try discriminate;
      cbn [Py.bind]; intros [= <- _]; cbn; rewrite ?Hmode;
      (repeat split; try reflexivity); apply Hclip.
Qed.

Lemma score_is_nan_or_in_unit_interval_witness :
  exists resp,
    (is_nan (Infer.score resp) = true
     \/ ((0 <=? Infer.score resp)%float = true
         /\ (Infer.score resp <=? 1)%float = true))
    /\ Infer.is_probability resp
       = Loader.mode_eqb (Loader.mode Demo.iso_state) Loader.supervised
    /\ Infer.is_probability resp
       = Infer.mi_is_probability (Infer.model_info_of Demo.settings Demo.iso_state)
    /\ Infer.resp_mode resp = Loader.mode Demo.iso_state.
Proof.
  eexists.
  eapply (score_is_nan_or_in_unit_interval Demo.settings Demo.features_inf
            Demo.summary_inf [] None 0 Demo.iso_state None false None
            (Demo.world_of Demo.iso_dir (Some Demo.iso_state))).
  vm_compute. reflexivity.
Defined.

(** The model input has one entry per canonical feature name. *)
Lemma reindex_length features names :
  List.length (Infer.reindex features names) = List.length names.
Proof. apply length_map. Qed.

Lemma reindex_agree f1 f2 names :
  (forall n, In n names -> Py.get n f1 = Py.get n f2) ->
  Infer.reindex f1 names = Infer.reindex f2 names.
Proof.
  intros H. unfold Infer.reindex. apply map_ext_in. intros n Hn.
  rewrite (H n Hn). reflexivity.
Qed.

(** X2. The score depends on the feature vector only through the entries
    under the artifact's canonical feature names: two vectors that agree
    there (whatever else they hold, in whatever order) get the same score,
    and the model input always has exactly one entry per canonical name. *)
Theorem score_reads_canonical_features_only
    (state : Loader.State) (f1 f2 : Py.dict float) :
  (forall n, In n (Loader.feature_names state) -> Py.get n f1 = Py.get n f2) ->
  Infer.compute_score state f1 = Infer.compute_score state f2
  /\ List.length (Infer.reindex f1 (Loader.feature_names state))
     = List.length (Loader.feature_names state).
Proof.
  intros H. split; [|apply reindex_length].
  unfold Infer.compute_score, Infer.model_input.
  rewrite (reindex_agree f1 f2 _ H). reflexivity.
Qed.

Lemma score_reads_canonical_features_only_witness :
  Infer.compute_score Demo.iso_state Demo.features_inf
  = Infer.compute_score Demo.iso_state
      (("rms_after", 7.5%float) :: rev Demo.features_inf)
  /\ List.length (Infer.reindex Demo.features_inf
                                (Loader.feature_names Demo.iso_state))
     = List.length (Loader.feature_names Demo.iso_state).
Proof.
  apply (score_reads_canonical_features_only Demo.iso_state Demo.features_inf
           (("rms_after", 7.5%float) :: rev Demo.features_inf)).
  intros n Hn. simpl in Hn.
  destruct Hn as [<-|[<-|[<-|[]]]]; reflexivity.
Defined.

(** ** The payloads *)

Lemma get_app {V} k (a b : Py.dict V) :
  Py.get k (a ++ b)
  = match Py.get k a with Some v => Some v | None => Py.get k b end.
Proof.
  induction a as [|[k0 v0] a IH]; simpl; [reflexivity|].
  destruct (String.eqb k k0); [reflexivity | exact IH].
Qed.

Lemma get_None_not_In {V} k (d : Py.dict V) :
  Py.get k d = None <-> ~ In k (map fst d).
Proof.
  induction d as [|[k0 v0] d IH]; simpl.
  - split; [intros _ [] | reflexivity].
  - destruct (String.eqb k k0) eqn:E.
    + apply String.eqb_eq in E. subst k0. split; [discriminate|].
      intros H. exfalso. apply H. left. reflexivity.
    + apply String.eqb_neq in E. rewrite IH. split.
      * intros H [H1|H1]; [congruence | exact (H H1)].
      * intros H H1. apply H. right. exact H1.
Qed.

(** Assigning to a key the dictionary lacks appends the entry. *)
Lemma set_fresh {V} k (v : V) d :
  ~ In k (map fst d) -> Py.set k v d = d ++ [(k, v)].
Proof.
  induction d as [|[k0 v0] d IH]; simpl; intros H; [reflexivity|].
  destruct (String.eqb k k0) eqn:E.
  - apply String.eqb_eq in E. exfalso. apply H. left. congruence.
  - rewrite IH; [reflexivity|]. intros H1. apply H. right. exact H1.
Qed.

Lemma fold_set_fresh {V W} (step : V -> W) (l : Py.dict V) (acc : Py.dict W) :
  NoDup (map fst l) ->
  (forall k, In k (map fst l) -> ~ In k (map fst acc)) ->
  fold_left (fun payload kv => Py.set (fst kv) (step (snd kv)) payload) l acc
  = acc ++ map (fun kv => (fst kv, step (snd kv))) l.
Proof.
  revert acc. induction l as [|[k v] l IH]; intros acc Hnd Hfresh; simpl.
  - rewrite app_nil_r. reflexivity.
  - simpl in Hnd. inversion Hnd as [|? ? Hk Hl]; subst.
    rewrite set_fresh by (apply Hfresh; left; reflexivity).
    rewrite IH; [rewrite <- app_assoc; reflexivity | exact Hl |].
    intros k' Hk'. rewrite map_app, in_app_iff. simpl.
    intros [H|[H|[]]].
    + exact (Hfresh k' (or_intror Hk') H).
    + subst k'. exact (Hk Hk').
Qed.

(** X3. On a feature vector and a summary with distinct labels (as a
    [pandas.Series] or a [dict] built from a [dict] has them), the two
    serialisers keep every label, in order, and change the values only
    where they say: [_serialize_series] turns a NaN into the null sentinel
    and copies everything else, the infinities included;
    [_serialize_summary] turns a missing value, a NaN and an infinity into
    the null sentinel and copies every finite number. *)
Theorem serializers_keep_labels_and_order
    (series : Py.dict float) (summary : Py.dict (option float)) :
  NoDup (map fst series) ->
  NoDup (map fst summary) ->
  Infer._serialize_series series
  = map (fun kv => (fst kv, if is_nan (snd kv) then None else Some (snd kv)))
        series
  /\ Infer._serialize_summary summary
     = map (fun kv =>
              (fst kv,
               match snd kv with
               | Some x => if is_finite x then Some x else None
               | None => None
               end))
           summary.
Proof.
  intros Hs Hm. split.
  - unfold Infer._serialize_series.
    erewrite fold_left_pointwise.
    + rewrite (fold_set_fresh
                 (fun v : float => if is_nan v then None else Some v)
                 series []); [reflexivity | exact Hs | intros k _ []].
    + intros payload [k x]; simpl. destruct (is_nan x); reflexivity.
  - unfold Infer._serialize_summary.
    erewrite fold_left_pointwise.
    + rewrite (fold_set_fresh
                 (fun v : option float =>
                    match v with
                    | Some x => if is_finite x then Some x else None
                    | None => None
                    end)
                 summary []); [reflexivity | exact Hm | intros k _ []].
    + intros payload [k [x|]]; simpl; [|reflexivity].
      unfold is_finite. destruct (is_nan x || is_infinity x); reflexivity.
Qed.

Lemma serializers_keep_labels_and_order_witness :
  Infer._serialize_series Demo.features_inf
  = map (fun kv => (fst kv, if is_nan (snd kv) then None else Some (snd kv)))
        Demo.features_inf
  /\ Infer._serialize_summary Demo.summary_inf
     = map (fun kv =>
              (fst kv,
               match snd kv with
               | Some x => if is_finite x then Some x else None
               | None => None
               end))
           Demo.summary_inf.
Proof.
  apply (serializers_keep_labels_and_order Demo.features_inf Demo.summary_inf).
  - simpl. repeat constructor; simpl; intuition discriminate.
  - simpl. repeat constructor; simpl; intuition discriminate.
Defined.

(** ** The light-curve payload *)

Lemma removelast_length {A} (l : list A) :
  List.length (removelast l) = pred (List.length l).
Proof.
  rewrite removelast_firstn_len, length_firstn. lia.
Qed.

(** [np.linspace(start, stop, num)] has [num] entries. *)
Lemma linspace_length start stop num :
  List.length (Np.linspace start stop num) = num.
Proof.
  unfold Np.linspace.
  destruct num as [|[|n]]; cbv zeta iota beta.
  - reflexivity.
  - reflexivity.
  - rewrite length_app, removelast_length.
    destruct (_ =? 0)%float; rewrite !length_map, length_seq; simpl; lia.
Qed.

Lemma take_length {A} idx (a r : list A) :
  Np.take idx a = Ok r -> List.length r = List.length idx.
Proof.
  revert r. induction idx as [|i idx IH]; intros r; simpl.
  - intros [= <-]. reflexivity.
  - destruct (nth_error a i); [|discriminate].
    destruct (Np.take idx a) as [rest|e]; [|discriminate].
    simpl. intros [= <-]. simpl. rewrite (IH rest eq_refl). reflexivity.
Qed.

(** X4. The payload [_prepare_lightcurve] returns never holds more than 5000
    time stamps: a light curve of at most 5000 points is passed on as it
    is (an empty error array being dropped), a longer one is sampled down
    to exactly 5000 points of time, of flux and of the errors; and an empty
    time or flux array gives the empty payload, whatever the other arrays
    hold. *)
Theorem lightcurve_payload_at_most_5000_points
    (time flux : list float) (flux_err : option (list float))
    (p : Infer.LightcurvePayload) :
  Infer._prepare_lightcurve time flux flux_err = Ok p ->
  (List.length (Infer.lp_time p) <= 5000)%nat
  /\ (time = [] \/ flux = [] ->
      p = {| Infer.lp_time := []; Infer.lp_flux := [];
             Infer.lp_flux_err := None |})
  /\ (time <> [] -> flux <> [] -> (List.length time <= 5000)%nat ->
      p = {| Infer.lp_time := time; Infer.lp_flux := flux;
             Infer.lp_flux_err :=
               match flux_err with
               | Some (_ :: _) => flux_err
               | _ => None
               end |})
  /\ (flux <> [] -> (5000 < List.length time)%nat ->
      List.length (Infer.lp_time p) = 5000%nat
      /\ List.length (Infer.lp_flux p) = 5000%nat
      /\ match flux_err, Infer.lp_flux_err p with
         | Some (_ :: _), Some e => List.length e = 5000%nat
         | Some (_ :: _), None => False
         | _, o => o = None
         end).
Proof.
  unfold Infer._prepare_lightcurve.
  remember 5000%nat as max_points eqn:Hmax. clear Hmax.
  destruct time as [|t time].
  { intros [= <-]. cbn [Infer.lp_time Infer.lp_flux Infer.lp_flux_err List.length].
    repeat split; try lia; intros; congruence. }
  destruct flux as [|f flux].
  { intros [= <-]. cbn [Infer.lp_time Infer.lp_flux Infer.lp_flux_err List.length].
    repeat split; try lia; intros; congruence. }
  cbv zeta.
  destruct (max_points <? List.length (t :: time))%nat eqn:Hbig.
  - apply Nat.ltb_lt in Hbig.
    set (idx := map Z.to_nat _).
    assert (Hidx : List.length idx = max_points)
      by (unfold idx; rewrite !length_map; apply linspace_length).
    destruct (Np.take idx (t :: time)) as [ts|e] eqn:Ets; [|discriminate].
    destruct (Np.take idx (f :: flux)) as [fs|e] eqn:Efs; [|discriminate].
    apply take_length in Ets. apply take_length in Efs.
    cbn [Py.bind].
    destruct flux_err as [[|e0 err]|].
    + intros [= <-]. cbn [Infer.lp_time Infer.lp_flux Infer.lp_flux_err].
      repeat split; try lia; try (intros [H|H]; discriminate H);
        intros _ _ H; lia.
    + destruct (Np.take idx (e0 :: err)) as [es|e] eqn:Ees; [|discriminate].
      apply take_length in Ees. cbn [Py.bind].
      intros [= <-]. cbn [Infer.lp_time Infer.lp_flux Infer.lp_flux_err].
      repeat split; try lia; try (intros [H|H]; discriminate H);
        intros _ _ H; lia.
    + intros [= <-]. cbn [Infer.lp_time Infer.lp_flux Infer.lp_flux_err].
      repeat split; try lia; try (intros [H|H]; discriminate H);
        intros _ _ H; lia.
  - apply Nat.ltb_ge in Hbig. cbn [Py.bind].
    destruct flux_err as [[|e0 err]|]; cbn [Py.bind];
      intros [= <-]; cbn [Infer.lp_time Infer.lp_flux Infer.lp_flux_err];
      (repeat split; try lia; try (intros [H|H]; discriminate H);
       try (intros _ H; lia)).
Qed.

Lemma lightcurve_payload_at_most_5000_points_witness :
  exists p,
    (List.length (Infer.lp_time p) <= 5000)%nat
    /\ (Demo.time7 = [] \/ Demo.flux7 = [] ->
        p = {| Infer.lp_time := []; Infer.lp_flux := [];
               Infer.lp_flux_err := None |})
    /\ (Demo.time7 <> [] -> Demo.flux7 <> [] ->
        (List.length Demo.time7 <= 5000)%nat ->
        p = {| Infer.lp_time := Demo.time7; Infer.lp_flux := Demo.flux7;
               Infer.lp_flux_err := None |})
    /\ (Demo.flux7 <> [] -> (5000 < List.length Demo.time7)%nat ->
        List.length (Infer.lp_time p) = 5000%nat
        /\ List.length (Infer.lp_flux p) = 5000%nat
        /\ match Some (@nil float), Infer.lp_flux_err p with
           | Some (_ :: _), Some e => List.length e = 5000%nat
           | Some (_ :: _), None => False
           | _, o => o = None
           end).
Proof.
  eexists.
  eapply (lightcurve_payload_at_most_5000_points Demo.time7 Demo.flux7 (Some [])).
  reflexivity.
Defined.

(** Six thousand points are sampled down to 5000, the first and the last
    point kept. *)
Example lightcurve_payload_sample :
  match Infer._prepare_lightcurve (Samples.ramp (6 * 1000)) (Samples.ramp (6 * 1000)) None with
  | Ok p =>
      List.length (Infer.lp_time p) = 5000%nat
      /\ hd nan (Infer.lp_time p) = 0%float
      /\ last (Infer.lp_flux p) nan = 5999%float
  | Raise _ => False
  end.
Proof. vm_compute. repeat split. Qed.

(** ** Arrays of unequal length *)

Lemma logical_and_inplace_length a b m :
  Np.logical_and_inplace a b = Ok m -> List.length m = List.length a.
Proof.
  unfold Np.logical_and_inplace.
  destruct (Nat.eqb (List.length a) (List.length b)) eqn:E.
  - apply Nat.eqb_eq in E. intros [= <-]. apply and_combine_length, E.
  - destruct b as [|y [|? ?]]; try discriminate.
    intros [= <-]. apply length_map.
Qed.

Lemma compress_mismatch {A} mask (a : list A) :
  List.length mask <> List.length a ->
  exists msg, Np.compress mask a = Py.raise Py.IndexError msg.
Proof.
  intros H. unfold Np.compress. apply Nat.eqb_neq in H. rewrite H.
  eexists. reflexivity.
Qed.

(** What the finite mask of arrays of unequal length is: a [ValueError]
    where NumPy cannot broadcast, or a mask that fits one array and not
    another. *)
Lemma finite_mask_mismatch time flux flux_err :
  List.length time <> List.length flux
  \/ (exists e, flux_err = Some e /\ List.length e <> List.length time) ->
  (exists msg, Bls.finite_mask time flux flux_err = Py.raise Py.ValueError msg)
  \/ (exists mask,
        Bls.finite_mask time flux flux_err = Ok mask
        /\ (List.length mask <> List.length time
            \/ List.length mask <> List.length flux
            \/ exists e, flux_err = Some e
                         /\ List.length mask <> List.length e)).
Proof.
  intros H. unfold Bls.finite_mask.
  destruct (Np.logical_and (map Np.isfinite time) (map Np.isfinite flux))
    as [m|e0] eqn:Eand.
  - cbn [Py.bind].
    assert (Hm : List.length time = List.length flux
                 /\ List.length m = List.length time
                 \/ List.length time <> List.length flux
                    /\ (List.length m = List.length time
                        \/ List.length m = List.length flux)).
    { unfold Np.logical_and in Eand. rewrite !length_map in Eand.
      destruct (Nat.eqb (List.length time) (List.length flux)) eqn:E.
      - apply Nat.eqb_eq in E. left. split; [exact E|].
        injection Eand as <-. rewrite and_combine_length; rewrite !length_map;
          congruence.
      - apply Nat.eqb_neq in E. right. split; [exact E|].
        destruct (map Np.isfinite time) as [|x [|? ?]] eqn:Et.
        + destruct (map Np.isfinite flux) as [|y [|? ?]] eqn:Ef;
            try discriminate.
          injection Eand as <-. left.
          apply (f_equal (@List.length bool)) in Et.
          rewrite length_map in Et. simpl in *. congruence.
        + injection Eand as <-. right. rewrite !length_map. reflexivity.
        + destruct (map Np.isfinite flux) as [|y [|? ?]] eqn:Ef;
            try discriminate.
          injection Eand as <-. left.
          apply (f_equal (@List.length bool)) in Et.
          rewrite length_map in Et. rewrite Et. simpl.
          rewrite length_map. reflexivity. }
    destruct flux_err as [err|].
    + destruct (Np.logical_and_inplace m (map Np.isfinite err)) as [m'|e1] eqn:Ein.
      * right. exists m'. split; [reflexivity|].
        pose proof (logical_and_inplace_length _ _ _ Ein) as Hlen.
        destruct Hm as [[Heq Hmt]|[Hne [Hmt|Hmf]]].
        -- destruct H as [H|(e & [= <-] & He)]; [congruence|].
           right. right. exists err. split; [reflexivity|]. congruence.
        -- right. left. congruence.
        -- left. congruence.
      * left. unfold Np.logical_and_inplace in Ein.
        destruct (Nat.eqb _ _); [discriminate|].
        destruct (map Np.isfinite err) as [|y [|? ?]]; try discriminate;
          injection Ein as <-; eexists; reflexivity.
    + right. exists m. split; [reflexivity|].
      destruct Hm as [[Heq Hmt]|[Hne [Hmt|Hmf]]].
      * destruct H as [H|(e & [=] & _)]. congruence.
      * right. left. congruence.
      * left. congruence.
  - left. cbn [Py.bind]. unfold Np.logical_and in Eand.
    destruct (Nat.eqb _ _); [discriminate|].
    destruct (map Np.isfinite time) as [|x [|? ?]];
      destruct (map Np.isfinite flux) as [|y [|? ?]]; try discriminate;
      injection Eand as <-; eexists; reflexivity.
Qed.

Lemma condition_mismatch time flux flux_err :
  List.length time <> List.length flux
  \/ (exists e, flux_err = Some e /\ List.length e <> List.length time) ->
  exists e,
    Bls.condition time flux flux_err = Raise e
    /\ (Py.exn_class e = Py.ValueError \/ Py.exn_class e = Py.IndexError).
Proof.
  intros H. unfold Bls.condition.
  destruct (finite_mask_mismatch time flux flux_err H)
    as [[msg ->]|(mask & -> & Hmask)].
  - eexists. split; [reflexivity|]. left. reflexivity.
  - cbn [Py.bind].
    destruct (Nat.eq_dec (List.length mask) (List.length time)) as [Ht|Ht].
    2:{ destruct (compress_mismatch mask time Ht) as [msg ->].
        eexists. split; [reflexivity|]. right. reflexivity. }
    rewrite compress_same_length by exact Ht. cbn [Py.bind].
    destruct (Nat.eq_dec (List.length mask) (List.length flux)) as [Hf|Hf].
    2:{ destruct (compress_mismatch mask flux Hf) as [msg ->].
        eexists. split; [reflexivity|]. right. reflexivity. }
    rewrite compress_same_length by exact Hf. cbn [Py.bind].
    destruct Hmask as [Hm|[Hm|(err & -> & Hm)]]; try congruence.
    simpl. destruct (compress_mismatch mask err Hm) as [msg ->].
    eexists. split; [reflexivity|]. right. reflexivity.
Qed.

(** X5. Parallel arrays that are not parallel are refused before any sample is
    counted: when [time] and [flux], or [flux_err] and [time], differ in
    length, [build_bls_features] raises a [ValueError] (NumPy cannot
    broadcast the masks) or an [IndexError] (a mask does not fit an array),
    never [InsufficientDataError]; [_compute_features] logs the failure
    once and raises a [FeatureExtractionError] caused by it, with its
    message. *)
Theorem unequal_lengths_fail_feature_extraction
    (bls : Bls.BoxLeastSquares) (np_std np_mean : list float -> float)
    (settings : Config.Settings) (time flux : list float)
    (flux_err : option (list float)) (meta : option (Py.dict float))
    (w : Sys.World) :
  List.length time <> List.length flux
  \/ (exists e, flux_err = Some e /\ List.length e <> List.length time) ->
  exists e,
    Bls.build_bls_features bls np_std np_mean settings time flux flux_err meta
    = Raise e
    /\ (Py.exn_class e = Py.ValueError \/ Py.exn_class e = Py.IndexError)
    /\ Infer._compute_features bls np_std np_mean settings
                               time flux flux_err meta w
       = (Raise (Exn Py.FeatureExtractionError (Py.exn_str e) (Some e)),
          Sys.with_trace w
            (Sys.trace w ++ [Sys.Log "exception" "Failed to compute BLS features"])).
Proof.
  intros H. destruct (condition_mismatch time flux flux_err H) as (e & He & Hcls).
  assert (Hb : Bls.build_bls_features bls np_std np_mean settings
                                      time flux flux_err meta = Raise e)
    by (unfold Bls.build_bls_features; rewrite He; reflexivity).
  exists e. split; [exact Hb|]. split; [exact Hcls|].
  unfold Infer._compute_features, Sys.try_except, Sys.lift. rewrite Hb.
  destruct e as [cls msg cause]. simpl in Hcls.
  destruct Hcls as [-> | ->]; reflexivity.
Qed.

Lemma unequal_lengths_fail_feature_extraction_witness :
  exists e,
    Bls.build_bls_features Demo.bls Demo.np_std Demo.np_mean Demo.settings
                           Demo.time7 [1.0; 2.0]%float None None
    = Raise e
    /\ (Py.exn_class e = Py.ValueError \/ Py.exn_class e = Py.IndexError)
    /\ Infer._compute_features Demo.bls Demo.np_std Demo.np_mean Demo.settings
                               Demo.time7 [1.0; 2.0]%float None None
                               (Demo.world_of Demo.iso_dir None)
       = (Raise (Exn Py.FeatureExtractionError (Py.exn_str e) (Some e)),
          Sys.with_trace (Demo.world_of Demo.iso_dir None)
            (Sys.trace (Demo.world_of Demo.iso_dir None)
             ++ [Sys.Log "exception" "Failed to compute BLS features"])).
Proof.
  apply (unequal_lengths_fail_feature_extraction Demo.bls Demo.np_std
           Demo.np_mean Demo.settings Demo.time7 [1.0; 2.0]%float None None
           (Demo.world_of Demo.iso_dir None)).
  left. simpl. lia.
Defined.

(** A flux array of one entry is broadcast against the time array, and the
    mask then fails to index it. *)
Example broadcast_then_index_error :
  Bls.build_bls_features Demo.bls Demo.np_std Demo.np_mean Demo.settings
                         Demo.time7 [1.0]%float None None
  = Py.raise Py.IndexError
      "boolean index did not match indexed array along axis 0".
Proof. reflexivity. Qed.

(** ** The conditioned sample *)

(** What a conditioning that returns has produced: the finite samples, in
    the order [np.argsort] gives their times, with the samples the clip
    rejects left out. *)
Lemma condition_shape time flux flux_err c :
  List.length time = List.length flux ->
  Spec.same_length_opt flux_err (List.length flux) ->
  Bls.condition time flux flux_err = Ok c ->
  let mask := Spec.all_finite_mask time flux flux_err in
  let order := Np.argsort (Np.select mask time) in
  let keep := Spec.clip_keep (Spec.flux_before_clip time flux flux_err) in
  Bls.time_arr c = Np.select keep (Spec.reorder order (Np.select mask time))
  /\ Bls.flux_arr c = Np.select keep (Spec.reorder order (Np.select mask flux))
  /\ Bls.flux_err_arr c
     = option_map (fun e => Np.select keep
                              (Spec.reorder order (Np.select mask e))) flux_err
  /\ (200 <= List.length (Bls.time_arr c))%nat
  /\ List.length keep = Np.count_nonzero mask
  /\ List.length order = Np.count_nonzero mask.
Proof.
  intros Ht He. cbv zeta. unfold Bls.condition.
  rewrite finite_mask_eq by assumption. cbn [Py.bind].
  pose proof (all_finite_mask_length time flux flux_err Ht He) as Hm.
  set (mask := Spec.all_finite_mask time flux flux_err) in *.
  rewrite !compress_same_length by congruence. cbn [Py.bind].
  assert (Herr : Bls.compress_opt mask flux_err
                 = Ok (option_map (Np.select mask) flux_err)).
  { destruct flux_err as [e|]; simpl in *; [|reflexivity].
    rewrite compress_same_length by congruence. reflexivity. }
  rewrite Herr. cbn [Py.bind].
  pose proof (select_length mask time Hm) as Hn1.
  set (n1 := Np.count_nonzero mask) in *.
  unfold Bls.MIN_SAMPLES.
  destruct (List.length (Np.select mask time) <? 200)%nat eqn:E1;
    [discriminate|].
  set (tsel := Np.select mask time) in *.
  set (fsel := Np.select mask flux).
  assert (Hfsel : List.length fsel = n1)
    by (unfold fsel, n1; apply select_length; congruence).
  set (order := Np.argsort tsel).
  assert (Hord : List.length order = n1)
    by (unfold order; rewrite argsort_length; exact Hn1).
  pose proof (argsort_bound tsel) as Hb. fold order in Hb.
  rewrite (take_in_bounds order tsel) by exact Hb.
  rewrite (take_in_bounds order fsel)
    by (rewrite Hfsel, <- Hn1; exact Hb).
  cbn [Py.bind].
  assert (Herr2 : Bls.take_opt order (option_map (Np.select mask) flux_err)
                  = Ok (option_map (Spec.reorder order)
                                   (option_map (Np.select mask) flux_err))).
  { destruct flux_err as [e|]; simpl in He; simpl; [|reflexivity].
    rewrite take_in_bounds; [reflexivity|].
    rewrite select_length by congruence. fold n1. rewrite <- Hn1. exact Hb. }
  rewrite Herr2. cbn [Py.bind].
  set (t2 := Spec.reorder order tsel).
  set (f2 := Spec.reorder order fsel).
  assert (Hf2 : f2 = Spec.flux_before_clip time flux flux_err) by reflexivity.
  assert (Hlt2 : List.length t2 = List.length f2)
    by (unfold t2, f2; rewrite !reorder_length; reflexivity).
  assert (Hlf2 : List.length f2 = n1)
    by (unfold f2; rewrite reorder_length; exact Hord).
  apply Nat.ltb_ge in E1.
  destruct (five_sigma_clip_keeps t2 f2
              (option_map (Spec.reorder order)
                          (option_map (Np.select mask) flux_err)))
    as [fraction Hclip].
  { exact Hlt2. }
  { destruct flux_err as [e|]; simpl; [|exact I].
    rewrite reorder_length. congruence. }
  { intros E. rewrite E in Hlf2. simpl in Hlf2. lia. }
  rewrite Hclip. cbn [Py.bind]. rewrite <- Hf2.
  destruct (List.length (Np.select (Spec.clip_keep f2) t2) <? 200)%nat eqn:E2;
    [discriminate|].
  apply Nat.ltb_ge in E2.
  intros [= <-]. cbn [Bls.time_arr Bls.flux_arr Bls.flux_err_arr].
  repeat split.
  - destruct flux_err as [e|]; reflexivity.
  - exact E2.
  - rewrite clip_keep_length. exact Hlf2.
  - exact Hord.
Qed.

Lemma base_mask_finite_time time flux :
  List.length time = List.length flux ->
  Forall2 (fun (m : bool) t => m = true -> is_finite t = true)
          (map (fun p => fst p && snd p)
               (combine (map Np.isfinite time) (map Np.isfinite flux)))
          time.
Proof.
  revert flux. induction time as [|t time IH]; intros [|f flux] H;
    simpl in *; try discriminate; constructor.
  - intros Hm. apply andb_true_iff in Hm. exact (proj1 Hm).
  - apply IH. congruence.
Qed.

Lemma and_mask_finite_extra (base : list bool) (err : list float) :
  List.length base = List.length err ->
  Forall2 (fun (m : bool) e => m = true -> is_finite e = true)
          (map (fun p => fst p && snd p) (combine base (map Np.isfinite err)))
          err.
Proof.
  revert err. induction base as [|b base IH]; intros [|e err] H;
    simpl in *; try discriminate; constructor.
  - intros Hm. apply andb_true_iff in Hm. exact (proj2 Hm).
  - apply IH. congruence.
Qed.

Lemma all_finite_mask_finite_time time flux flux_err :
  List.length time = List.length flux ->
  Spec.same_length_opt flux_err (List.length flux) ->
  Forall2 (fun (m : bool) t => m = true -> is_finite t = true)
          (Spec.all_finite_mask time flux flux_err) time.
Proof.
  intros Ht He. unfold Spec.all_finite_mask.
  destruct flux_err as [e|]; [|apply base_mask_finite_time, Ht].
  apply and_mask_finite; [apply base_mask_finite_time, Ht|].
  rewrite length_map. simpl in He. congruence.
Qed.

Lemma select_Forall {A} (P : A -> Prop) mask (a : list A) :
  Forall P a -> Forall P (Np.select mask a).
Proof.
  intros H. revert mask. induction H as [|x a Hx _ IH]; intros [|m mask];
    simpl; try constructor.
  destruct m; [constructor; [exact Hx | apply IH] | apply IH].
Qed.

(** Masks and index arrays act on pairs as they act on the two columns. *)
Lemma select_combine {A B} mask (a : list A) (b : list B) :
  Np.select mask (combine a b) = combine (Np.select mask a) (Np.select mask b).
Proof.
  revert a b. induction mask as [|m mask IH]; intros [|x a] [|y b];
    simpl; try reflexivity.
  - destruct m; [|destruct (Np.select mask a)]; reflexivity.
  - destruct m; simpl; rewrite IH; reflexivity.
Qed.

Lemma select_In {A} mask (a : list A) x : In x (Np.select mask a) -> In x a.
Proof.
  revert a. induction mask as [|m mask IH]; intros [|y a]; simpl; try tauto.
  destruct m; simpl; [intros [H|H]; auto | auto].
Qed.

Lemma reorder_combine_In idx (a b : list float) p :
  List.length a = List.length b ->
  Forall (fun i => (i < List.length a)%nat) idx ->
  In p (combine (Spec.reorder idx a) (Spec.reorder idx b)) ->
  In p (combine a b).
Proof.
  intros Hab Hidx. unfold Spec.reorder.
  induction Hidx as [|i idx Hi _ IH]; simpl; [tauto|].
  intros [<-|H]; [|exact (IH H)].
  rewrite <- (combine_nth a b i nan nan Hab).
  apply nth_In. rewrite length_combine. lia.
Qed.

(** X6. A light curve that passes conditioning is fit for the search: at
    least 200 samples, never more than were supplied; time, flux and error
    arrays of one length; every value finite; and every (time, flux) pair
    one of the pairs supplied, so that masking, sorting and clipping never
    pair a time with another sample's flux. *)
Theorem conditioned_sample_is_aligned_and_finite
    (time flux : list float) (flux_err : option (list float))
    (c : Bls.Conditioned) :
  List.length time = List.length flux ->
  Spec.same_length_opt flux_err (List.length flux) ->
  Bls.condition time flux flux_err = Ok c ->
  (200 <= List.length (Bls.time_arr c) <= List.length time)%nat
  /\ List.length (Bls.flux_arr c) = List.length (Bls.time_arr c)
  /\ Spec.same_length_opt (Bls.flux_err_arr c) (List.length (Bls.time_arr c))
  /\ Forall (fun t => is_finite t = true) (Bls.time_arr c)
  /\ Forall (fun f => is_finite f = true) (Bls.flux_arr c)
  /\ match Bls.flux_err_arr c with
     | Some e => Forall (fun x => is_finite x = true) e
     | None => flux_err = None
     end
  /\ Forall (fun p => In p (combine time flux))
            (combine (Bls.time_arr c) (Bls.flux_arr c)).
Proof.
  intros Ht He Hc.
  destruct (condition_shape time flux flux_err c Ht He Hc)
    as (Etime & Eflux & Eerr & H200 & Hkeep & Hord).
  pose proof (all_finite_mask_length time flux flux_err Ht He) as Hm.
  set (mask := Spec.all_finite_mask time flux flux_err) in *.
  set (order := Np.argsort (Np.select mask time)) in *.
  set (keep := Spec.clip_keep _) in *.
  assert (Hst : List.length (Np.select mask time) = Np.count_nonzero mask)
    by (apply select_length; exact Hm).
  assert (Hsf : List.length (Np.select mask flux) = Np.count_nonzero mask)
    by (apply select_length; congruence).
  assert (Hb : Forall (fun i => (i < List.length (Np.select mask time))%nat) order)
    by apply argsort_bound.
  assert (Hcount : (Np.count_nonzero mask <= List.length time)%nat).
  { rewrite <- Hm. unfold Np.count_nonzero. apply filter_length_le. }
  assert (Hlt : List.length (Bls.time_arr c) = Np.count_nonzero keep).
  { rewrite Etime. apply select_length. rewrite reorder_length. congruence. }
  assert (Hkc : (Np.count_nonzero keep <= List.length keep)%nat)
    by (unfold Np.count_nonzero; apply filter_length_le).
  split; [lia|]. split.
  { rewrite Eflux, Hlt. apply select_length. rewrite reorder_length. congruence. }
  split.
  { rewrite Eerr. destruct flux_err as [e|]; simpl; [|exact I].
    rewrite Hlt. apply select_length. rewrite reorder_length. congruence. }
  split.
  { rewrite Etime. apply select_Forall, reorder_Forall; [|exact Hb].
    apply select_finite, all_finite_mask_finite_time; assumption. }
  split.
  { rewrite Eflux. apply select_Forall, reorder_Forall.
    - apply select_finite, all_finite_mask_finite; assumption.
    - rewrite Hsf, <- Hst. exact Hb. }
  split.
  { rewrite Eerr. destruct flux_err as [e|]; simpl; [|reflexivity].
    simpl in He. apply select_Forall, reorder_Forall.
    - apply select_finite. unfold mask, Spec.all_finite_mask.
      apply and_mask_finite_extra.
      rewrite and_combine_length; rewrite !length_map; congruence.
    - rewrite select_length by congruence. rewrite <- Hst. exact Hb. }
  rewrite Etime, Eflux, <- select_combine.
  apply select_Forall. rewrite Forall_forall. intros p Hp.
  apply reorder_combine_In in Hp; [|congruence|exact Hb].
  rewrite <- select_combine in Hp. exact (select_In _ _ _ Hp).
Qed.

(** ** The order of the floats *)

Lemma SFleb_trans x y z :
  SFleb x y = true -> SFleb y z = true -> SFleb x z = true.
Proof.
  unfold SFleb.
  destruct x as [sx|sx| |sx mx ex], y as [sy|sy| |sy my ey],
           z as [sz|sz| |sz mz ez]; simpl;
    repeat match goal with s : bool |- _ => destruct s end;
    simpl; try discriminate; try reflexivity; try (intros; assumption).
  all: fold (Pos.compare mx my); fold (Pos.compare my mz);
       fold (Pos.compare mx mz);
       destruct (Z.compare_spec ex ey), (Z.compare_spec ey ez),
                (Z.compare_spec ex ez); try discriminate; try reflexivity;
       try lia; subst;
       destruct (Pos.compare_spec mx my), (Pos.compare_spec my mz),
                (Pos.compare_spec mx mz); simpl;
       try discriminate; try reflexivity; lia.
Qed.

Lemma leb_trans (x y z : float) :
  (x <=? y)%float = true -> (y <=? z)%float = true -> (x <=? z)%float = true.
Proof. rewrite !leb_spec. apply SFleb_trans. Qed.

Lemma leb_total (x y : float) :
  is_nan x = false -> is_nan y = false ->
  (x <=? y)%float = false -> (y <=? x)%float = true.
Proof.
  intros Hx Hy H. rewrite (leb_negb_ltb x y Hx Hy) in H.
  apply negb_false_iff in H.
  rewrite ltb_spec in H. rewrite leb_spec. unfold SFltb, SFleb in *.
  destruct (SFcompare (Prim2SF y) (Prim2SF x)) as [[]|]; congruence.
Qed.

Lemma sort_le_finite a b :
  is_nan b = false -> Np.sort_le a b = (a <=? b)%float.
Proof. intros H. unfold Np.sort_le. rewrite H. reflexivity. Qed.

Lemma insert_keyed_sorted x l :
  is_nan (snd x) = false ->
  Forall (fun y => is_nan (snd y) = false) l ->
  Notions.non_decreasing (map snd l) ->
  Notions.non_decreasing (map snd (Np.insert_keyed x l)).
Proof.
  intros Hx Hl. induction Hl as [|y l Hy Hl IH]; simpl.
  - intros _. split; [constructor | exact I].
  - intros [Hle Hs]. rewrite (sort_le_finite _ _ Hy).
    destruct (snd x <=? snd y)%float eqn:E; simpl.
    + split; [|split; assumption]. constructor; [exact E|].
      rewrite Forall_forall in *. intros z Hz.
      exact (leb_trans _ _ _ E (Hle z Hz)).
    + split; [|apply IH, Hs].
      rewrite Forall_forall in *. intros z Hz.
      apply in_map_iff in Hz. destruct Hz as (p & <- & Hp).
      apply insert_keyed_In in Hp. destruct Hp as [-> | Hp].
      * apply leb_total; assumption.
      * apply Hle, in_map, Hp.
Qed.

Lemma sort_keyed_sorted l :
  Forall (fun y => is_nan (snd y) = false) l ->
  Notions.non_decreasing (map snd (fold_right Np.insert_keyed [] l))
  /\ Forall (fun y => is_nan (snd y) = false) (fold_right Np.insert_keyed [] l).
Proof.
  induction 1 as [|x l Hx Hl [IH1 IH2]]; simpl.
  - split; [exact I | constructor].
  - split; [apply insert_keyed_sorted; assumption|].
    rewrite Forall_forall in *. intros z Hz.
    apply insert_keyed_In in Hz. destruct Hz as [-> | Hz]; auto.
Qed.

Lemma combine_seq_nth (keys : list float) start i k :
  In (i, k) (combine (seq start (List.length keys)) keys) ->
  nth (i - start) keys nan = k /\ (start <= i)%nat.
Proof.
  revert start. induction keys as [|x keys IH]; intros start; simpl; [tauto|].
  intros [[= <- <-]|H].
  - rewrite Nat.sub_diag. split; [reflexivity | lia].
  - apply IH in H. destruct H as [H Hle].
    replace (i - start)%nat with (S (i - S start)) by lia. split; [exact H | lia].
Qed.

(** Reordering an array without NaN by its own [np.argsort] sorts it. *)
Lemma argsort_sorts keys :
  Forall (fun k => is_nan k = false) keys ->
  Notions.non_decreasing (Spec.reorder (Np.argsort keys) keys).
Proof.
  intros Hk. unfold Spec.reorder, Np.argsort. rewrite map_map.
  set (pairs := combine (seq 0 (List.length keys)) keys).
  assert (Hp : Forall (fun y => is_nan (snd y) = false) pairs).
  { rewrite Forall_forall in *. intros [i k] H.
    apply in_combine_r in H. exact (Hk k H). }
  destruct (sort_keyed_sorted pairs Hp) as [Hs _].
  erewrite map_ext_in; [exact Hs|].
  intros [i k] H. apply sort_keyed_In in H.
  apply combine_seq_nth in H. simpl. rewrite Nat.sub_0_r in H. apply H.
Qed.

Lemma select_non_decreasing mask a :
  Notions.non_decreasing a -> Notions.non_decreasing (Np.select mask a).
Proof.
  revert mask. induction a as [|x a IH]; intros [|m mask]; simpl; try tauto.
  intros [Hle Hs]. destruct m; simpl; [|apply IH, Hs].
  split; [apply select_Forall, Hle | apply IH, Hs].
Qed.

(** X7. The time stamps of a conditioned sample never decrease: the samples
    reach the search in time order, whatever order they were supplied
    in. *)
Theorem conditioned_times_never_decrease
    (time flux : list float) (flux_err : option (list float))
    (c : Bls.Conditioned) :
  List.length time = List.length flux ->
  Spec.same_length_opt flux_err (List.length flux) ->
  Bls.condition time flux flux_err = Ok c ->
  Notions.non_decreasing (Bls.time_arr c).
Proof.
  intros Ht He Hc.
  destruct (condition_shape time flux flux_err c Ht He Hc) as (-> & _).
  apply select_non_decreasing, argsort_sorts.
  eapply Forall_impl; [intros t; apply finite_not_nan|].
  apply select_finite, all_finite_mask_finite_time; assumption.
Qed.

Lemma conditioned_sample_is_aligned_and_finite_witness :
  exists c,
    Bls.condition Samples.time200_reversed Samples.flux200_reversed None = Ok c
    /\ (200 <= List.length (Bls.time_arr c)
        <= List.length Samples.time200_reversed)%nat
    /\ List.length (Bls.flux_arr c) = List.length (Bls.time_arr c)
    /\ Spec.same_length_opt (Bls.flux_err_arr c) (List.length (Bls.time_arr c))
    /\ Forall (fun t => is_finite t = true) (Bls.time_arr c)
    /\ Forall (fun f => is_finite f = true) (Bls.flux_arr c)
    /\ match Bls.flux_err_arr c with
       | Some e => Forall (fun x => is_finite x = true) e
       | None => @None (list float) = None
       end
    /\ Forall (fun p => In p (combine Samples.time200_reversed
                                      Samples.flux200_reversed))
              (combine (Bls.time_arr c) (Bls.flux_arr c)).
Proof.
  eexists. split; [vm_compute; reflexivity|].
  apply (conditioned_sample_is_aligned_and_finite
           Samples.time200_reversed Samples.flux200_reversed None);
    [reflexivity | exact I | vm_compute; reflexivity].
Defined.

Lemma conditioned_times_never_decrease_witness :
  exists c,
    Bls.condition Samples.time200_reversed Samples.flux200_reversed None = Ok c
    /\ Notions.non_decreasing (Bls.time_arr c)
    /\ hd nan (Bls.time_arr c) = 0%float
    /\ hd nan Samples.time200_reversed = 24.875%float.
Proof.
  eexists. split; [vm_compute; reflexivity|].
  split; [|split; reflexivity].
  apply (conditioned_times_never_decrease
           Samples.time200_reversed Samples.flux200_reversed None);
    [reflexivity | exact I | vm_compute; reflexivity].
Defined.

(** ** Catalogue metadata and the summary *)

(** The feature vector with catalogue metadata is the one without, with
    the catalogue keys assigned on top. *)
Lemma derive_meta np_std np_mean time_arr norm_flux fraction_kept meta fit :
  Bls.derive np_std np_mean time_arr norm_flux fraction_kept meta fit
  = Py.bind (Bls.derive np_std np_mean time_arr norm_flux fraction_kept None fit)
      (fun '(features, _) =>
         let features :=
           match meta with
           | Some ((_ :: _) as m) =>
               fold_left (fun acc key =>
                            match Py.get key m with
                            | Some v => Py.set key v acc
                            | None => acc
                            end)
                         Bls.META_FEATURE_KEYS features
           | _ => features
           end in
         Ok (features, Infer._summary_from_features features)).
Proof.
  unfold Bls.derive. cbv zeta.
  repeat match goal with
         | |- context [Py.bind ?r _] =>
             lazymatch r with
             | Py.bind _ _ => fail
             | _ => destruct r; cbn [Py.bind]; try reflexivity
             end
         end.
Qed.

Lemma get_fold_meta_keys (k : string) (m : Py.dict float) keys base :
  Py.get k (fold_left (fun acc key =>
                         match Py.get key m with
                         | Some v => Py.set key v acc
                         | None => acc
                         end) keys base)
  = if Str.mem k keys
    then match Py.get k m with Some v => Some v | None => Py.get k base end
    else Py.get k base.
Proof.
  revert base. induction keys as [|key keys IH]; intros base; simpl.
  - reflexivity.
  - rewrite IH. unfold Str.mem in *. simpl.
    destruct (String.eqb k key) eqn:E.
    + apply String.eqb_eq in E. subst key. simpl.
      destruct (Py.get k m) as [v|] eqn:Em.
      * rewrite get_set_same. destruct (existsb _ keys); reflexivity.
      * destruct (existsb _ keys); reflexivity.
    + simpl. destruct (Py.get key m) as [v|]; [|reflexivity].
      rewrite (get_set_other _ _ _ _ E). reflexivity.
Qed.

(** The summary of an extraction is read off its feature vector, label by
    label, exactly as the cache-hit path of [predict_by_tic] rebuilds
    it. *)
Lemma build_summary_from_features bls np_std np_mean settings time flux
      flux_err meta b :
  Bls.build_bls_features bls np_std np_mean settings time flux flux_err meta
  = Ok b ->
  Bls.summary b = Infer._summary_from_features (Bls.features b).
Proof.
  unfold Bls.build_bls_features.
  destruct (Bls.condition time flux flux_err) as [c|e]; [|discriminate].
  cbn [Py.bind].
  destruct (Bls.normalize c) as [[norm_flux norm_flux_err]|e]; [|discriminate].
  cbn [Py.bind].
  destruct (Bls.search bls settings (Bls.time_arr c) norm_flux norm_flux_err)
    as [fit|e]; [|discriminate].
  cbn [Py.bind]. rewrite derive_meta.
  destruct (Bls.derive np_std np_mean (Bls.time_arr c) norm_flux
                       (Bls.fraction_kept c) None fit)
    as [[features summary]|e]; [|discriminate].
  cbn [Py.bind]. intros [= <-]. reflexivity.
Qed.

(** X8. Catalogue metadata only adds to the feature vector: with a [meta]
    mapping the extraction returns what it returns without one (the same
    summary, the same warnings, every feature the search produced
    unchanged), plus one entry for each of the keys [tmag], [teff], [rad],
    [crowdsap], [contratio] that [meta] holds; any other key of [meta] is
    ignored, and [meta] never makes an extraction fail or succeed. *)
Theorem metadata_only_adds_catalogue_keys
    (bls : Bls.BoxLeastSquares) (np_std np_mean : list float -> float)
    (settings : Config.Settings) (time flux : list float)
    (flux_err : option (list float)) (m : Py.dict float) :
  match Bls.build_bls_features bls np_std np_mean settings
                               time flux flux_err None with
  | Raise e =>
      Bls.build_bls_features bls np_std np_mean settings
                             time flux flux_err (Some m) = Raise e
  | Ok b0 =>
      exists b,
        Bls.build_bls_features bls np_std np_mean settings
                               time flux flux_err (Some m) = Ok b
        /\ Bls.summary b = Bls.summary b0
        /\ Bls.warnings b = Bls.warnings b0
        /\ forall k,
             Py.get k (Bls.features b)
             = if Str.mem k Bls.META_FEATURE_KEYS
               then match Py.get k m with
                    | Some v => Some v
                    | None => Py.get k (Bls.features b0)
                    end
               else Py.get k (Bls.features b0)
  end.
Proof.
  unfold Bls.build_bls_features.
  destruct (Bls.condition time flux flux_err) as [c|e]; [|reflexivity].
  cbn [Py.bind].
  destruct (Bls.normalize c) as [[norm_flux norm_flux_err]|e]; [|reflexivity].
  cbn [Py.bind].
  destruct (Bls.search bls settings (Bls.time_arr c) norm_flux norm_flux_err)
    as [fit|e]; [|reflexivity].
  cbn [Py.bind].
  rewrite (derive_meta np_std np_mean _ _ _ (Some m)).
  destruct (Bls.derive np_std np_mean (Bls.time_arr c) norm_flux
                       (Bls.fraction_kept c) None fit)
    as [[features summary]|e] eqn:Hd; [|reflexivity].
  cbn [Py.bind].
  assert (Hsum : summary = Infer._summary_from_features features).
  { rewrite (derive_meta np_std np_mean _ _ _ None) in Hd.
    destruct (Bls.derive np_std np_mean (Bls.time_arr c) norm_flux
                         (Bls.fraction_kept c) None fit)
      as [[f0 s0]|e0]; [|discriminate].
    cbn [Py.bind] in Hd. injection Hd as <- <-. reflexivity. }
  eexists. split; [reflexivity|].
  cbn [Bls.summary Bls.warnings Bls.features].
  assert (Hget : forall k,
             Py.get k match m with
                      | [] => features
                      | _ :: _ =>
                          fold_left (fun acc key =>
                                       match Py.get key m with
                                       | Some v => Py.set key v acc
                                       | None => acc
                                       end) Bls.META_FEATURE_KEYS features
                      end
             = if Str.mem k Bls.META_FEATURE_KEYS
               then match Py.get k m with
                    | Some v => Some v
                    | None => Py.get k features
                    end
               else Py.get k features).
  { intros k. destruct m as [|kv m'].
    - destruct (Str.mem k Bls.META_FEATURE_KEYS); reflexivity.
    - apply get_fold_meta_keys. }
  split; [|split; [reflexivity | exact Hget]].
  rewrite Hsum. unfold Infer._summary_from_features.
  rewrite !Hget. reflexivity.
Qed.

(** 200 samples with catalogue metadata: [tmag] is added, a key outside
    the catalogue list is not, and the period is the one found without
    metadata. *)
Example metadata_sample :
  match Bls.build_bls_features Demo.bls Demo.np_std Demo.np_mean Demo.settings
          (Sys.lc_time Demo.lc200) (Sys.lc_flux Demo.lc200) None
          (Some [("tmag", 9.5%float); ("vmag", 10.0%float)]) with
  | Ok b =>
      Py.get "tmag" (Bls.features b) = Some 9.5%float
      /\ Py.get "vmag" (Bls.features b) = None
      /\ Py.get "period_days" (Bls.features b) = Some 0.5%float
      /\ List.length (Bls.features b) = 14%nat
  | Raise _ => False
  end.
Proof. vm_compute. repeat split. Qed.

(** ** Degenerate fits *)

Lemma any_and_false (mask : list bool) {A} (l : list A) :
  Np.any (map (fun p : bool * bool => fst p && snd p)
              (combine mask (map (fun _ => false) l))) = false.
Proof.
  unfold Np.any. revert l. induction mask as [|m mask IH]; intros [|x l];
    simpl; try reflexivity.
  rewrite andb_false_r. apply IH.
Qed.

Lemma any_and_none (mask other : list bool) :
  Np.any mask = false ->
  Np.any (map (fun p : bool * bool => fst p && snd p) (combine mask other))
  = false.
Proof.
  unfold Np.any. revert other. induction mask as [|m mask IH]; intros [|x l];
    simpl; try reflexivity.
  intros H. apply orb_false_iff in H. destruct H as [-> H]. simpl.
  apply IH, H.
Qed.

Lemma select_none_of {A} (mask : list bool) (a : list A) :
  Np.any mask = false -> Np.select mask a = [].
Proof.
  unfold Np.any. revert a. induction mask as [|m mask IH]; intros [|x a];
    simpl; try reflexivity.
  intros H. apply orb_false_iff in H. destruct H as [-> H]. apply IH, H.
Qed.

Lemma any_negb_all (mask : list bool) :
  forallb (fun b => b) mask = true -> Np.any (map negb mask) = false.
Proof.
  unfold Np.any. induction mask as [|m mask IH]; simpl; [reflexivity|].
  intros H. apply andb_true_iff in H. destruct H as [-> H]. simpl.
  apply IH, H.
Qed.

(** The diagnostics of a derivation on a conditioned sample, as the source
    computes them. *)
Lemma derive_diagnostics np_std np_mean time_arr norm_flux fraction_kept
      meta fit :
  List.length norm_flux = List.length time_arr ->
  List.length (Bls.transit_mask_array fit) = List.length time_arr ->
  let mask := Bls.transit_mask_array fit in
  let p := Bls.best_period fit in
  let t0 := Bls.best_t0 fit in
  let numbers :=
    if (0 <? p)%float
    then map (fun t => Np.floor_astype_int ((t - t0) / p + 1e-6)%float) time_arr
    else map (fun _ => 0%Z) time_arr in
  let odd_mask := map (fun q : bool * bool => fst q && snd q)
                      (combine mask (map (fun k => (k mod 2 =? 0)%Z) numbers)) in
  let even_mask := map (fun q : bool * bool => fst q && snd q)
                       (combine mask (map (fun k => (k mod 2 =? 1)%Z) numbers)) in
  let before := map (fun t => t <? t0)%float time_arr in
  let after := map (fun t => t0 <? t)%float time_arr in
  let out_std := Bls.std_or_zero np_std (Np.select (map negb mask) norm_flux) in
  let in_std := Bls.std_or_zero np_std (Np.select mask norm_flux) in
  exists features summary,
    Bls.derive np_std np_mean time_arr norm_flux fraction_kept meta fit
    = Ok (features, summary)
    /\ Py.get "in_vs_out_rms" features
       = Some (if Py.truthy out_std then (in_std / out_std)%float else 1.0%float)
    /\ Py.get "odd_even_depth_ratio" features
       = Some (if Np.any odd_mask && Np.any even_mask
               then
                 let odd_depth := abs (np_mean (Np.select odd_mask norm_flux)) in
                 let even_depth := abs (np_mean (Np.select even_mask norm_flux)) in
                 if Py.truthy even_depth then (odd_depth / even_depth)%float
                 else 1.0%float
               else 1.0%float)
    /\ Py.get "rms_before" features
       = Some (if Np.any before then np_std (Np.select before norm_flux) else nan)
    /\ Py.get "rms_after" features
       = Some (if Np.any after then np_std (Np.select after norm_flux) else nan)
    /\ (Py.truthy (Bls.best_power fit) = false ->
        Py.get "secondary_snr" features = Some 0.0%float)
    /\ Py.get "data_fraction_kept" features = Some fraction_kept.
Proof.
  intros Hflux Hmask. cbv zeta. unfold Bls.derive. cbv zeta.
  rewrite !compress_same_length by len. cbn [Py.bind].
  set (p := Bls.best_period fit).
  assert (Hnt : forall a,
             (if (0 <? p)%float then Bls.fdiv a p else Ok 0.0%float)
             = Ok (if (0 <? p)%float then (a / p)%float else 0.0%float)).
  { intros a. destruct (0 <? p)%float eqn:E; [apply fdiv_guarded, E | reflexivity]. }
  rewrite !Hnt. cbn [Py.bind].
  set (numbers := if (0 <? p)%float then _ else _).
  assert (Hnum : List.length numbers = List.length time_arr)
    by (unfold numbers; destruct (0 <? p)%float; apply length_map).
  rewrite !logical_and_same by len. cbn [Py.bind].
  set (odd_mask := map _ (combine _ (map (fun k => (k mod 2 =? 0)%Z) numbers))).
  set (even_mask := map _ (combine _ (map (fun k => (k mod 2 =? 1)%Z) numbers))).
  assert (Hodd : List.length odd_mask = List.length norm_flux)
    by (unfold odd_mask; len).
  assert (Heven : List.length even_mask = List.length norm_flux)
    by (unfold even_mask; len).
  rewrite !compress_same_length by assumption. cbn [Py.bind].
  set (even_depth := abs (np_mean (Np.select even_mask norm_flux))).
  assert (Hratio :
            (if Np.any odd_mask && Np.any even_mask
             then if Py.truthy even_depth
                  then Bls.fdiv (abs (np_mean (Np.select odd_mask norm_flux)))
                                even_depth
                  else Ok 1.0%float
             else Ok 1.0%float)
            = Ok (if Np.any odd_mask && Np.any even_mask
                  then if Py.truthy even_depth
                       then (abs (np_mean (Np.select odd_mask norm_flux))
                             / even_depth)%float
                       else 1.0%float
                  else 1.0%float)).
  { destruct (Np.any odd_mask && Np.any even_mask); [|reflexivity].
    destruct (Py.truthy even_depth) eqn:E; [|reflexivity].
    rewrite fdiv_truthy by exact E. reflexivity. }
  rewrite Hratio. cbn [Py.bind].
  set (before := map (fun t => (t <? _)%float) time_arr).
  set (after := map (fun t => (_ <? t)%float) time_arr).
  cbn [Py.bind].
  assert (Hrb : (if Np.any before
                 then Ok (np_std (Np.select before norm_flux)) else Ok nan)
                = Ok (if Np.any before
                      then np_std (Np.select before norm_flux) else nan))
    by (destruct (Np.any before); reflexivity).
  assert (Hra : (if Np.any after
                 then Ok (np_std (Np.select after norm_flux)) else Ok nan)
                = Ok (if Np.any after
                      then np_std (Np.select after norm_flux) else nan))
    by (destruct (Np.any after); reflexivity).
  rewrite Hrb, Hra. cbn [Py.bind].
  eexists. eexists. split; [reflexivity|].
  destruct meta as [[|kv m]|];
    repeat split; try rewrite get_fold_meta by reflexivity; try reflexivity;
    intros ->; reflexivity.
Qed.

(** X9. Where a fit leaves a diagnostic without data, the derivation falls
    back on a neutral value instead of dividing by zero or averaging
    nothing: the odd/even depth ratio is 1.0 when the best period is not
    positive and when no sample is in transit; the in/out scatter ratio is
    1.0 when every sample is in transit; the scatter before (after) the
    transit time is NaN when no sample lies before (after) it; and the
    secondary signal-to-noise ratio is 0.0 when the best power is zero. *)
Theorem degenerate_fits_get_neutral_diagnostics
    (np_std np_mean : list float -> float) (time_arr norm_flux : list float)
    (fraction_kept : float) (meta : option (Py.dict float))
    (fit : Bls.BestFit) :
  List.length norm_flux = List.length time_arr ->
  List.length (Bls.transit_mask_array fit) = List.length time_arr ->
  exists features summary,
    Bls.derive np_std np_mean time_arr norm_flux fraction_kept meta fit
    = Ok (features, summary)
    /\ ((0 <? Bls.best_period fit)%float = false ->
        Py.get "odd_even_depth_ratio" features = Some 1.0%float)
    /\ (Np.any (Bls.transit_mask_array fit) = false ->
        Py.get "odd_even_depth_ratio" features = Some 1.0%float)
    /\ (forallb (fun b => b) (Bls.transit_mask_array fit) = true ->
        Py.get "in_vs_out_rms" features = Some 1.0%float)
    /\ (Np.any (map (fun t => t <? Bls.best_t0 fit)%float time_arr) = false ->
        Py.get "rms_before" features = Some nan)
    /\ (Np.any (map (fun t => Bls.best_t0 fit <? t)%float time_arr) = false ->
        Py.get "rms_after" features = Some nan)
    /\ (Py.truthy (Bls.best_power fit) = false ->
        Py.get "secondary_snr" features = Some 0.0%float).
Proof.
  intros Hflux Hmask.
  destruct (derive_diagnostics np_std np_mean time_arr norm_flux fraction_kept
              meta fit Hflux Hmask)
    as (features & summary & Hok & Hrms & Hratio & Hbefore & Hafter & Hsec & _).
  exists features, summary. split; [exact Hok|].
  split; [|split; [|split; [|split; [|split; [|exact Hsec]]]]].
  - intros Hp.
    assert (E : map (fun k => (k mod 2 =? 1)%Z) (map (fun _ => 0%Z) time_arr)
                = map (fun _ => false) time_arr)
      by (rewrite map_map; reflexivity).
    rewrite Hratio, Hp. cbv iota.
    rewrite E, any_and_false, andb_false_r. reflexivity.
  - intros Hnone. rewrite Hratio, (any_and_none _ _ Hnone). reflexivity.
  - intros Hall. rewrite Hrms.
    rewrite (select_none_of _ norm_flux (any_negb_all _ Hall)). reflexivity.
  - intros Hnone. rewrite Hbefore, Hnone. reflexivity.
  - intros Hnone. rewrite Hafter, Hnone. reflexivity.
Qed.

Lemma degenerate_fits_get_neutral_diagnostics_witness :
  exists features summary,
    Bls.derive Demo.np_std Demo.np_mean Demo.time7 Demo.flux7 1.0 None
               Demo.fit_zero_period
    = Ok (features, summary)
    /\ ((0 <? Bls.best_period Demo.fit_zero_period)%float = false ->
        Py.get "odd_even_depth_ratio" features = Some 1.0%float)
    /\ (Np.any (Bls.transit_mask_array Demo.fit_zero_period) = false ->
        Py.get "odd_even_depth_ratio" features = Some 1.0%float)
    /\ (forallb (fun b => b) (Bls.transit_mask_array Demo.fit_zero_period) = true ->
        Py.get "in_vs_out_rms" features = Some 1.0%float)
    /\ (Np.any (map (fun t => t <? Bls.best_t0 Demo.fit_zero_period)%float
                    Demo.time7) = false ->
        Py.get "rms_before" features = Some nan)
    /\ (Np.any (map (fun t => Bls.best_t0 Demo.fit_zero_period <? t)%float
                    Demo.time7) = false ->
        Py.get "rms_after" features = Some nan)
    /\ (Py.truthy (Bls.best_power Demo.fit_zero_period) = false ->
        Py.get "secondary_snr" features = Some 0.0%float).
Proof.
  apply (degenerate_fits_get_neutral_diagnostics Demo.np_std Demo.np_mean
           Demo.time7 Demo.flux7 1.0 None Demo.fit_zero_period);
    reflexivity.
Defined.

(** ** The clipping warning *)

Lemma condition_warning time flux flux_err c :
  Bls.condition time flux flux_err = Ok c ->
  Bls.clip_warnings c
  = if (Bls.fraction_kept c <? 0.8)%float then ["aggressive_clipping"] else [].
Proof.
  unfold Bls.condition.
  repeat match goal with
         | |- context [Py.bind ?r _] =>
             lazymatch r with
             | Py.bind _ _ => fail
             | _ => destruct r as [?|?]; cbn [Py.bind]; [|discriminate]
             end
         | |- context [if ?c then Py.raise _ _ else _] =>
             destruct c; [discriminate|]
         | |- context [match ?x with pair _ _ => _ end] =>
             is_var x; destruct x as [[[? ?] ?] ?]
         end.
  intros [= <-]. reflexivity.
Qed.

Lemma derive_fraction np_std np_mean time_arr norm_flux fraction_kept meta fit
      features summary :
  Bls.derive np_std np_mean time_arr norm_flux fraction_kept meta fit
  = Ok (features, summary) ->
  Py.get "data_fraction_kept" features = Some fraction_kept.
Proof.
  rewrite derive_meta. unfold Bls.derive. cbv zeta.
  repeat match goal with
         | |- context [Py.bind ?r _] =>
             lazymatch r with
             | Py.bind _ _ => fail
             | _ => destruct r as [?|?]; cbn [Py.bind]; [|discriminate]
             end
         end.
  intros H.
  match type of H with
  | Ok (?f, _) = _ =>
      assert (Hf : Py.get "data_fraction_kept" f = Some fraction_kept)
  end.
  { destruct meta as [[|kv m]|];
      try rewrite get_fold_meta by reflexivity; reflexivity. }
  injection H as <- _. exact Hf.
Qed.

(** X10. The only warning an extraction ever attaches is
    [aggressive_clipping], and it attaches it exactly when the feature
    [data_fraction_kept] it reports is below 0.8. *)
Theorem clipping_warning_iff_kept_fraction_below_080
    (bls : Bls.BoxLeastSquares) (np_std np_mean : list float -> float)
    (settings : Config.Settings) (time flux : list float)
    (flux_err : option (list float)) (meta : option (Py.dict float))
    (b : Bls.BLSResult) :
  Bls.build_bls_features bls np_std np_mean settings time flux flux_err meta
  = Ok b ->
  exists kept,
    Py.get "data_fraction_kept" (Bls.features b) = Some kept
    /\ Bls.warnings b
       = if (kept <? 0.8)%float then ["aggressive_clipping"] else [].
Proof.
  unfold Bls.build_bls_features.
  destruct (Bls.condition time flux flux_err) as [c|e] eqn:Hc; [|discriminate].
  cbn [Py.bind].
  destruct (Bls.normalize c) as [[norm_flux norm_flux_err]|e]; [|discriminate].
  cbn [Py.bind].
  destruct (Bls.search bls settings (Bls.time_arr c) norm_flux norm_flux_err)
    as [fit|e]; [|discriminate].
  cbn [Py.bind].
  destruct (Bls.derive np_std np_mean (Bls.time_arr c) norm_flux
                       (Bls.fraction_kept c) meta fit)
    as [[features summary]|e] eqn:Hd; [|discriminate].
  cbn [Py.bind]. intros [= <-]. exists (Bls.fraction_kept c).
  cbn [Bls.features Bls.warnings]. split.
  - exact (derive_fraction _ _ _ _ _ _ _ _ _ Hd).
  - exact (condition_warning _ _ _ _ Hc).
Qed.

Lemma clipping_warning_iff_kept_fraction_below_080_witness :
  exists b,
    Bls.build_bls_features Demo.bls Demo.np_std Demo.np_mean Demo.settings
                           Samples.time300 Samples.flux300_outliers None None
    = Ok b
    /\ exists kept,
         Py.get "data_fraction_kept" (Bls.features b) = Some kept
         /\ Bls.warnings b
            = if (kept <? 0.8)%float then ["aggressive_clipping"] else [].
Proof.
  eexists. split; [vm_compute; reflexivity|].
  eapply (clipping_warning_iff_kept_fraction_below_080 Demo.bls Demo.np_std
            Demo.np_mean Demo.settings Samples.time300
            Samples.flux300_outliers None None).
  vm_compute. reflexivity.
Defined.

(** Every fourth sample is clipped: three quarters are kept, and the
    warning is attached. *)
Example aggressive_clipping_sample :
  match Bls.build_bls_features Demo.bls Demo.np_std Demo.np_mean Demo.settings
          Samples.time300 Samples.flux300_outliers None None with
  | Ok b =>
      Py.get "data_fraction_kept" (Bls.features b) = Some 0.75%float
      /\ Bls.warnings b = ["aggressive_clipping"]
  | Raise _ => False
  end.
Proof. vm_compute. split; reflexivity. Qed.

(** ** What a loaded state holds *)

Lemma load_state_invariants settings md st :
  Loader.load_state settings md = Ok st ->
  exists text mtime,
    Loader.latest_txt md = Some (text, mtime)
    /\ Loader.latest st = Str.strip text
    /\ Loader.latest st <> ""
    /\ Loader.latest_mtime st = mtime
    /\ Loader.path_exists md (Loader.latest st) = true
    /\ Loader.feature_names st <> []
    /\ Loader.model_path st
       = (Config.model_dir settings ++ "/" ++ Loader.latest st)%string
    /\ match Loader.mode st with
       | Loader.one_class =>
           Py.startswith (Loader.latest st) "model_iso_" = true
           /\ Loader.calibrator st = None
           /\ Loader.xgb st = None
       | Loader.supervised =>
           Py.startswith (Loader.latest st) "model_xgb_" = true
           /\ Loader.xgb st = Some Loader.XGBoost
           /\ (exists predict, Loader.model st = Loader.Booster predict)
           /\ Loader.xgboost_installed md = true
       end.
Proof.
  match goal with |- _ -> ?G => set (Claim := G) end.
  unfold Loader.load_state.
  destruct (Loader.latest_txt md) as [[text mtime]|] eqn:Hptr; [|discriminate].
  destruct (String.eqb (Str.strip text) "") eqn:Hempty; [discriminate|].
  destruct (negb (Loader.path_exists md (Str.strip text))) eqn:Hexists;
    [discriminate|].
  apply String.eqb_neq in Hempty. apply negb_false_iff in Hexists.
  destruct (Py.startswith (Str.strip text) "model_iso_") eqn:Hiso.
  - walk_load; intros H; subst Claim; injection H as <-;
      exists text, mtime; cbn; rewrite ?Hiso;
      repeat split; try assumption; discriminate.
  - destruct (Py.startswith (Str.strip text) "model_xgb_") eqn:Hxgb;
      [|discriminate].
    walk_load; intros H; subst Claim; injection H as <-;
      exists text, mtime; cbn; rewrite ?Hxgb;
      repeat split; try assumption; try discriminate;
      try (eexists; reflexivity);
      try match goal with
          | Hinst : negb (Loader.xgboost_installed md) = false |- _ =>
              apply negb_false_iff in Hinst; exact Hinst
          end;
      repeat match goal with
             | H : Ok _ = Ok _ |- _ => injection H as <-
             end;
      subst; eexists; reflexivity.
Qed.



(** A hand-made supervised state without the XGBoost module does reach the
    guard. *)
Example unloaded_state_reaches_the_guard :
  Infer.compute_score
    {| Loader.mode := Loader.supervised;
       Loader.feature_names := ["snr"];
       Loader.model := Loader.Booster (fun _ _ => 0.5%float);
       Loader.scaler := None; Loader.calibrator := None; Loader.xgb := None;
       Loader.latest := "model_xgb_v1.json"; Loader.model_path := "";
       Loader.feature_names_path := ""; Loader.feature_names_version := "v1";
       Loader.latest_mtime := 0 |}
    Demo.features_inf
  = Py.raise Py.RuntimeError "XGBoost module not loaded for supervised mode".
Proof. reflexivity. Qed.

(** ** The pointer file *)






Lemma lstrip_fixed s :
  Str.lstrip s = s \/ Str.lstrip s <> s.
Proof. destruct (string_dec (Str.lstrip s) s); auto. Qed.





(** ** Refreshing twice *)

Lemma ltb_irrefl (x : float) : (x <? x)%float = false.
Proof.
  rewrite ltb_spec. unfold SFltb.
  destruct (sf_nan (Prim2SF x)) eqn:E.
  - destruct (Prim2SF x); try discriminate. reflexivity.
  - rewrite SFcompare_refl by exact E. reflexivity.
Qed.

(** X13. The outcome of a refresh is stable.  After a refresh that returned a
    state, an unforced refresh returns the same state without calling the
    loader and without changing anything; in particular a state that was
    just loaded is not loaded again.  After a refresh that raised, the
    cached state is the one that was there before, and the same call
    raises the same exception again. *)
Theorem refresh_outcome_is_stable
    (settings : Config.Settings) (force : bool) (w w1 : Sys.World)
    (r : result Loader.State) :
  Infer.refresh settings force w = (r, w1) ->
  match r with
  | Ok st =>
      Sys._state w1 = Some st
      /\ Infer.refresh settings false w1 = (Ok st, w1)
  | Raise e =>
      Sys._state w1 = Sys._state w
      /\ fst (Infer.refresh settings force w1) = Raise e
  end.
Proof.
  destruct (Loader.latest_txt (Sys.model_files w)) as [[text mtime]|] eqn:Hptr.
  - rewrite (refresh_cases settings force w text mtime Hptr).
    destruct (force || _)%bool eqn:Hdue.
    + destruct (Loader.load_state settings (Sys.model_files w)) as [st|e] eqn:Hl.
      * intros [= <- <-]. split; [reflexivity|].
        destruct (load_state_invariants settings _ st Hl)
          as (text' & mtime' & Hptr' & _ & _ & Hm & _).
        assert (Emt : Loader.latest_mtime st = mtime) by congruence.
        rewrite (refresh_cases settings false _ text mtime)
          by (cbn; exact Hptr).
        cbn. rewrite Emt, ltb_irrefl. reflexivity.
      * intros [= <- <-]. split; [reflexivity|].
        rewrite (refresh_cases settings force _ text mtime)
          by (cbn; exact Hptr).
        cbn. rewrite Hdue, Hl. reflexivity.
    + destruct (Sys._state w) as [st|] eqn:Hst.
      * intros [= <- <-]. split; [exact Hst|].
        apply orb_false_iff in Hdue. destruct Hdue as [_ Hlt].
        rewrite (refresh_cases settings false w text mtime Hptr).
        rewrite Hst. cbn. rewrite Hlt. reflexivity.
      * apply orb_false_iff in Hdue. destruct Hdue as [_ Hlt]. discriminate.
  - unfold Infer.refresh, Sys.bind, Sys.get_world. rewrite Hptr.
    cbn. intros [= <- <-]. split; [reflexivity|].
    rewrite Hptr. reflexivity.
Qed.

Lemma refresh_outcome_is_stable_witness :
  match fst (Infer.refresh Demo.settings true (Demo.world_of Demo.iso_dir None)) with
  | Ok st =>
      Sys._state (snd (Infer.refresh Demo.settings true
                         (Demo.world_of Demo.iso_dir None))) = Some st
      /\ Infer.refresh Demo.settings false
           (snd (Infer.refresh Demo.settings true
                   (Demo.world_of Demo.iso_dir None)))
         = (Ok st, snd (Infer.refresh Demo.settings true
                          (Demo.world_of Demo.iso_dir None)))
  | Raise e =>
      Sys._state (snd (Infer.refresh Demo.settings true
                         (Demo.world_of Demo.iso_dir None)))
      = Sys._state (Demo.world_of Demo.iso_dir None)
      /\ fst (Infer.refresh Demo.settings true
                (snd (Infer.refresh Demo.settings true
                        (Demo.world_of Demo.iso_dir None)))) = Raise e
  end.
Proof.
  apply (refresh_outcome_is_stable Demo.settings true
           (Demo.world_of Demo.iso_dir None)).
  apply surjective_pairing.
Defined.

(** ** The feature cache and the light-curve store *)



Lemma pair_mask_finite (time flux : list float) :
  List.length time = List.length flux ->
  let base := map (fun p : float * float =>
                     Np.isfinite (fst p) && Np.isfinite (snd p))
                  (combine time flux) in
  List.length base = List.length time
  /\ Forall2 (fun (m : bool) t => m = true -> is_finite t = true) base time
  /\ Forall2 (fun (m : bool) f => m = true -> is_finite f = true) base flux.
Proof.
  cbv zeta. revert flux. induction time as [|t time IH]; intros [|f flux] H;
    simpl in *; try discriminate.
  - repeat split; constructor.
  - injection H as H. destruct (IH flux H) as (Hl & Ht & Hf).
    split; [congruence|].
    split; constructor; try assumption; intros Hm;
      apply andb_true_iff in Hm; apply Hm.
Qed.

Lemma keep_mask_finite (base : list bool) (err : list float) :
  List.length base = List.length err ->
  let keep := map (fun p : bool * float => fst p && Np.isfinite (snd p))
                  (combine base err) in
  List.length keep = List.length base
  /\ Forall2 (fun (k b : bool) => k = true -> b = true) keep base
  /\ Forall2 (fun (k : bool) e => k = true -> is_finite e = true) keep err.
Proof.
  cbv zeta. revert err. induction base as [|b base IH]; intros [|e err] H;
    simpl in *; try discriminate.
  - repeat split; constructor.
  - injection H as H. destruct (IH err H) as (Hl & Hb & He).
    split; [congruence|].
    split; constructor; try assumption; intros Hm;
      apply andb_true_iff in Hm; apply Hm.
Qed.

Lemma mask_weaken {A} (P : A -> Prop) (keep base : list bool) (a : list A) :
  Forall2 (fun (k b : bool) => k = true -> b = true) keep base ->
  Forall2 (fun (m : bool) x => m = true -> P x) base a ->
  Forall2 (fun (m : bool) x => m = true -> P x) keep a.
Proof.
  intros H. revert a. induction H as [|k b keep base Hkb _ IH];
    intros a Ha; inversion Ha; subst; constructor; auto.
Qed.

Lemma select_mask_Forall {A} (P : A -> Prop) mask (a : list A) :
  Forall2 (fun (m : bool) x => m = true -> P x) mask a ->
  Forall P (Np.select mask a).
Proof.
  induction 1 as [|m x mask a Hm _ IH]; simpl; [constructor|].
  destruct m; [constructor; auto | exact IH].
Qed.


Lemma clean_frame_clean lc df :
  LcStore.clean_frame lc = Ok df -> Notions.clean_table df.
Proof.
  unfold LcStore.clean_frame, Notions.clean_table.
  destruct (negb (List.length (Sys.lc_time lc) =? List.length (Sys.lc_flux lc))%nat)
    eqn:Hlen; [discriminate|].
  apply negb_false_iff, Nat.eqb_eq in Hlen.
  destruct (pair_mask_finite _ _ Hlen) as (Hbl & Hbt & Hbf).
  set (base := map _ (combine (Sys.lc_time lc) (Sys.lc_flux lc))) in *.
  destruct (Sys.lc_flux_err lc) as [err|].
  - destruct (negb (List.length err =? List.length (Sys.lc_time lc))%nat)
      eqn:Herr; [discriminate|].
    apply negb_false_iff, Nat.eqb_eq in Herr.
    assert (Hbe : List.length base = List.length err) by congruence.
    destruct (keep_mask_finite base err Hbe) as (Hkl & Hkb & Hke).
    set (keep := map _ (combine base err)) in *.
    intros [= <-]. cbn [Sys.col_time Sys.col_flux Sys.col_flux_err].
    eexists. eexists. split; [reflexivity|]. split; [reflexivity|].
    rewrite !select_length by congruence.
    split; [reflexivity|].
    split; [apply select_mask_Forall, (mask_weaken _ keep base); assumption|].
    split; [apply select_mask_Forall, (mask_weaken _ keep base); assumption|].
    split; [reflexivity|]. apply select_mask_Forall, Hke.
  - intros [= <-]. cbn [Sys.col_time Sys.col_flux Sys.col_flux_err].
    eexists. eexists. split; [reflexivity|]. split; [reflexivity|].
    rewrite !select_length by congruence.
    split; [reflexivity|].
    split; [apply select_mask_Forall, Hbt|].
    split; [apply select_mask_Forall, Hbf | exact I].
Qed.

Lemma try_flux_columns_stored dl columns last_exc df :
  LcStore.try_flux_columns dl columns last_exc = LcStore.Stored df ->
  Notions.clean_table df /\ (200 <= LcStore.frame_len df)%nat.
Proof.
  revert last_exc. induction columns as [|c columns IH]; intros last_exc; simpl.
  - discriminate.
  - destruct (dl c) as [msg| |lc]; [apply IH | apply IH |].
    destruct (LcStore.clean_frame lc) as [df'|e] eqn:E; [|discriminate].
    destruct (LcStore.frame_len df' <? 200)%nat eqn:Hn; [apply IH|].
    intros [= <-]. apply Nat.ltb_ge in Hn.
    split; [exact (clean_frame_clean lc df' E) | exact Hn].
Qed.

Lemma try_authors_stored search authors columns last_exc df :
  LcStore.try_authors search authors columns last_exc = LcStore.Stored df ->
  Notions.clean_table df /\ (200 <= LcStore.frame_len df)%nat.
Proof.
  revert last_exc. induction authors as [|a authors IH]; intros last_exc; simpl.
  - discriminate.
  - destruct (search a) as [dl|]; [|apply IH].
    destruct (LcStore.try_flux_columns dl columns last_exc) as [df'|e|l] eqn:E.
    + intros [= <-]. exact (try_flux_columns_stored dl columns last_exc df' E).
    + discriminate.
    + apply IH.
Qed.

(** X15. A fetch that returns has stored a light curve the service can use:
    the path returned is the one [get_lightcurve_by_tic] reads, the read
    that follows returns the stored columns, and these hold at least 200
    samples, time, flux and errors of one length, finite throughout; no
    other identifier's light curve and no cached feature vector is
    touched. *)
Theorem fetched_lightcurve_is_stored_clean
    (settings : Config.Settings) (tic_id : Z) (w w1 : Sys.World)
    (path : string) :
  LcStore.fetch_lightcurve_from_mast settings tic_id w = (Ok path, w1) ->
  path = LcStore._resolve_lightcurve_path settings tic_id
  /\ (exists time flux flux_err,
        fst (LcStore.get_lightcurve_by_tic settings tic_id w1)
        = Ok (time, flux, flux_err)
        /\ (200 <= List.length time)%nat
        /\ List.length flux = List.length time
        /\ Forall (fun t => is_finite t = true) time
        /\ Forall (fun f => is_finite f = true) flux
        /\ match flux_err with
           | Some err =>
               List.length err = List.length time
               /\ Forall (fun e => is_finite e = true) err
           | None => True
           end)
  /\ (forall other, other <> tic_id ->
        Sys.lightcurve_files w1 other = Sys.lightcurve_files w other)
  /\ Sys.feature_cache_files w1 = Sys.feature_cache_files w.
Proof.
  unfold LcStore.fetch_lightcurve_from_mast, Sys.bind, Sys.emit, Sys.get_world,
    Sys.throw, Sys.ret.
  cbn [Sys.mast Sys.with_trace].
  destruct (negb (Sys.lightkurve_installed (Sys.mast w))); [discriminate|].
  destruct (LcStore.try_authors _ _ _ None) as [df|e|[msg|]] eqn:Hfetch;
    try discriminate.
  intros [= <- <-].
  destruct (try_authors_stored _ _ _ _ _ Hfetch)
    as ((time & flux & Ht & Hf & Hlen & Hft & Hff & Herr) & H200).
  split; [reflexivity|]. split; [|split].
  - exists time, flux, (Sys.col_flux_err df).
    unfold LcStore.get_lightcurve_by_tic, Sys.bind, Sys.emit, Sys.get_world,
      Sys.ret.
    cbn [Sys.lightcurve_files Sys.with_trace Sys.with_lightcurve].
    rewrite Z.eqb_refl, Ht, Hf. cbn [fst].
    unfold LcStore.frame_len in H200. rewrite Ht in H200.
    repeat split; assumption.
  - intros other Hne. apply Z.eqb_neq in Hne. cbn. rewrite Hne. reflexivity.
  - reflexivity.
Qed.

Lemma fetched_lightcurve_is_stored_clean_witness :
  let w := Demo.world_auto_fetch in
  let w1 := snd (LcStore.fetch_lightcurve_from_mast Demo.settings_auto_fetch 42 w) in
  "/data/processed/lightcurves/TIC-42.parquet"
  = LcStore._resolve_lightcurve_path Demo.settings_auto_fetch 42
  /\ (exists time flux flux_err,
        fst (LcStore.get_lightcurve_by_tic Demo.settings_auto_fetch 42 w1)
        = Ok (time, flux, flux_err)
        /\ (200 <= List.length time)%nat
        /\ List.length flux = List.length time
        /\ Forall (fun t => is_finite t = true) time
        /\ Forall (fun f => is_finite f = true) flux
        /\ match flux_err with
           | Some err =>
               List.length err = List.length time
               /\ Forall (fun e => is_finite e = true) err
           | None => True
           end)
  /\ (forall other, other <> 42%Z ->
        Sys.lightcurve_files w1 other = Sys.lightcurve_files w other)
  /\ Sys.feature_cache_files w1 = Sys.feature_cache_files w.
Proof.
  apply (fetched_lightcurve_is_stored_clean Demo.settings_auto_fetch 42
           Demo.world_auto_fetch).
  vm_compute. reflexivity.
Defined.

(** ** The search order of a fetch *)

Lemma dedupe_not_seen {A} (eqb : A -> A -> bool) seen l x :
  (forall a b, eqb a b = true <-> a = b) ->
  In x (LcStore.dedupe eqb seen l) -> In x l /\ ~ In x seen.
Proof.
  intros Heq. revert seen. induction l as [|y l IH]; intros seen; simpl.
  - intros [].
  - destruct (existsb (eqb y) seen) eqn:E.
    + intros H. destruct (IH _ H). auto.
    + intros [<-|H].
      * split; [left; reflexivity|]. intros Hin.
        assert (existsb (eqb y) seen = true)
          by (apply existsb_exists; exists y; split; [exact Hin | apply Heq; reflexivity]).
        congruence.
      * destruct (IH _ H) as [H1 H2]. split; [right; exact H1|].
        intros Hin. apply H2. right. exact Hin.
Qed.

Lemma dedupe_NoDup {A} (eqb : A -> A -> bool) seen l :
  (forall a b, eqb a b = true <-> a = b) ->
  NoDup (LcStore.dedupe eqb seen l).
Proof.
  intros Heq. revert seen. induction l as [|y l IH]; intros seen; simpl.
  - constructor.
  - destruct (existsb (eqb y) seen); [apply IH|].
    constructor; [|apply IH].
    intros H. apply (dedupe_not_seen eqb _ _ _ Heq) in H.
    destruct H as [_ H]. apply H. left. reflexivity.
Qed.

Lemma dedupe_In {A} (eqb : A -> A -> bool) seen l x :
  (forall a b, eqb a b = true <-> a = b) ->
  In x l -> ~ In x seen -> In x (LcStore.dedupe eqb seen l).
Proof.
  intros Heq. revert seen. induction l as [|y l IH]; intros seen; simpl.
  - intros [].
  - intros [->|H] Hs.
    + destruct (existsb (eqb x) seen) eqn:E; [|left; reflexivity].
      apply existsb_exists in E. destruct E as (z & Hz & Exz).
      apply Heq in Exz. subst z. contradiction.
    + destruct (existsb (eqb y) seen) eqn:E; [apply IH; assumption|].
      destruct (eqb x y) eqn:Exy.
      * left. symmetry. apply Heq, Exy.
      * right. apply IH; [exact H|]. intros [Hy|Hin]; [|contradiction].
        rewrite <- Hy in Exy.
        assert (Hyy : eqb y y = true) by (apply Heq; reflexivity).
        congruence.
Qed.

(** An entry that occurs once, at the end, stays at the end. *)
Lemma dedupe_last {A} (eqb : A -> A -> bool) seen l x :
  (forall a b, eqb a b = true <-> a = b) ->
  ~ In x l -> ~ In x seen ->
  exists front, LcStore.dedupe eqb seen (l ++ [x]) = (front ++ [x])%list.
Proof.
  intros Heq. revert seen. induction l as [|y l IH]; intros seen Hl Hs; simpl.
  - destruct (existsb (eqb x) seen) eqn:E.
    + apply existsb_exists in E. destruct E as (z & Hz & Exz).
      apply Heq in Exz. subst z. contradiction.
    + exists []. reflexivity.
  - assert (Hxy : x <> y) by (intros ->; apply Hl; left; reflexivity).
    assert (Hl' : ~ In x l) by (intros H; apply Hl; right; exact H).
    destruct (existsb (eqb y) seen).
    + apply IH; assumption.
    + destruct (IH (y :: seen) Hl') as [front ->].
      * intros [H|H]; [congruence | contradiction].
      * exists (y :: front). reflexivity.
Qed.

Lemma author_eqb_eq a b : LcStore.author_eqb a b = true <-> a = b.
Proof.
  destruct a as [x|], b as [y|]; simpl; try (split; congruence).
  rewrite String.eqb_eq. split; congruence.
Qed.

(** X16. A fetch asks the archive in a fixed order without asking twice: the
    configured author first (when one is configured), then [SPOC], [QLP]
    and [TESS-SPOC], each author once, and the search without an author
    last; for each search the configured flux column first (unless it is
    empty), then [pdcsap_flux], [sap_flux] and [flux], each column once and
    never the empty name. *)
Theorem fetch_search_order_has_no_repeats (settings : Config.Settings) :
  let authors := LcStore.authors_ordered settings in
  let columns := LcStore.flux_ordered settings in
  NoDup authors
  /\ (exists front, authors = (front ++ [None])%list)
  /\ hd None authors
     = match Config.auto_fetch_author settings with
       | Some a => Some a
       | None => Some "SPOC"
       end
  /\ (forall a, In a authors
                <-> a = None \/ a = Config.auto_fetch_author settings
                    \/ In a [Some "SPOC"; Some "QLP"; Some "TESS-SPOC"])
  /\ NoDup columns
  /\ hd "" columns
     = (if String.eqb (Config.auto_fetch_flux_column settings) ""
        then "pdcsap_flux" else Config.auto_fetch_flux_column settings)
  /\ (forall c, In c columns
                <-> c <> ""
                    /\ (c = Config.auto_fetch_flux_column settings
                        \/ In c ["pdcsap_flux"; "sap_flux"; "flux"])).
Proof.
  cbv zeta. unfold LcStore.authors_ordered, LcStore.flux_ordered.
  set (named := filter _ _).
  assert (Hnamed : forall a, In a named
                             <-> a <> None
                                 /\ (a = Config.auto_fetch_author settings
                                     \/ In a [Some "SPOC"; Some "QLP";
                                              Some "TESS-SPOC"])).
  { intros a. unfold named. rewrite filter_In. simpl.
    destruct a as [x|]; split; intros H.
    - split; [discriminate|]. destruct H as [H _].
      destruct H as [H|[H|[H|[H|[H|[]]]]]]; auto; discriminate.
    - split; [|reflexivity]. destruct H as [_ H]. intuition congruence.
    - destruct H as [_ H]. discriminate.
    - destruct H as [H _]. congruence. }
  assert (Hnone : ~ In None named) by (rewrite Hnamed; intros [H _]; congruence).
  split; [apply dedupe_NoDup, author_eqb_eq|].
  split; [apply dedupe_last; [apply author_eqb_eq | exact Hnone | intros []]|].
  split.
  { unfold named. simpl. destruct (Config.auto_fetch_author settings); reflexivity. }
  split.
  { intros a. split.
    - intros H. apply (dedupe_not_seen _ _ _ _ author_eqb_eq) in H.
      destruct H as [H _]. apply in_app_iff in H. destruct H as [H|[<-|[]]]; auto.
      apply Hnamed in H. tauto.
    - intros H. apply dedupe_In; [apply author_eqb_eq | | intros []].
      apply in_app_iff. destruct a as [x|]; [left | right; left; reflexivity].
      apply Hnamed. split; [discriminate|]. destruct H as [H|H]; [discriminate | exact H]. }
  split; [apply dedupe_NoDup, String.eqb_eq|].
  split.
  { simpl. destruct (String.eqb (Config.auto_fetch_flux_column settings) "");
      reflexivity. }
  intros c. split.
  - intros H. apply (dedupe_not_seen _ _ _ _ String.eqb_eq) in H.
    destruct H as [H _]. apply filter_In in H. destruct H as [H Hne].
    apply negb_true_iff, String.eqb_neq in Hne. split; [exact Hne|].
    destruct H as [H|H]; [left; congruence | right; exact H].
  - intros [Hne H]. apply dedupe_In; [apply String.eqb_eq | | intros []].
    apply filter_In. split.
    + simpl in *. destruct H as [H|H]; [left; congruence | right; exact H].
    + apply negb_true_iff, String.eqb_neq, Hne.
Qed.

(** With [QLP] configured the archive is asked as QLP, SPOC, TESS-SPOC and
    then without an author. *)
Example search_order_sample :
  LcStore.authors_ordered
    {| Config.model_dir := ""; Config.processed_dir := "";
       Config.interim_dir := ""; Config.period_min := 0.5;
       Config.period_max := 30.0; Config.n_periods := 100;
       Config.dur_min_hours := 0.5; Config.dur_max_hours := 10.0;
       Config.auto_fetch_missing := true;
       Config.auto_fetch_author := Some "QLP";
       Config.auto_fetch_flux_column := "" |}
  = [Some "QLP"; Some "SPOC"; Some "TESS-SPOC"; None]
  /\ LcStore.flux_ordered Demo.settings = ["pdcsap_flux"; "sap_flux"; "flux"].
Proof. split; reflexivity. Qed.

(** ** A request, block by block *)

(** [predict_by_tic] is the sequence of its blocks. *)
Lemma predict_by_tic_stages bls np_std np_mean settings tic_id :
  Infer.predict_by_tic bls np_std np_mean settings tic_id
  = Stages.predict_by_tic bls np_std np_mean settings tic_id.
Proof. reflexivity. Qed.

Lemma bind_ok {A B} (m : Sys.M A) (k : A -> Sys.M B) w a w1 :
  m w = (Ok a, w1) -> Sys.bind m k w = k a w1.
Proof. intros H. unfold Sys.bind. rewrite H. reflexivity. Qed.

Lemma bind_raise {A B} (m : Sys.M A) (k : A -> Sys.M B) w e w1 :
  m w = (Raise e, w1) -> Sys.bind m k w = (Raise e, w1).
Proof. intros H. unfold Sys.bind. rewrite H. reflexivity. Qed.

Lemma isinstance_Exception e : Py.isinstance e Py.Exception = true.
Proof. destruct e as [[] ? ?]; reflexivity. Qed.

Lemma isinstance_Insufficient e :
  Py.isinstance e Py.InsufficientDataError
  = Py.exc_class_eqb (Py.exn_class e) Py.InsufficientDataError.
Proof. destruct e as [[] ? ?]; reflexivity. Qed.

(** The store's read, run. *)
Lemma get_lightcurve_run settings tic_id w :
  LcStore.get_lightcurve_by_tic settings tic_id w
  = let w1 := Sys.with_trace w (Sys.trace w ++ [Sys.GetLightcurve tic_id]) in
    match Sys.lightcurve_files w tic_id with
    | None =>
        (Raise (Exn Py.FileNotFoundError
                  ("Lightcurve parquet not found for TIC " ++ Py.str_of_Z tic_id
                   ++ " at " ++ LcStore._resolve_lightcurve_path settings tic_id)
                  None), w1)
    | Some df =>
        match Sys.col_time df, Sys.col_flux df with
        | Some time, Some flux => (Ok (time, flux, Sys.col_flux_err df), w1)
        | _, _ =>
            (Raise (Exn Py.ValueError
                      "Lightcurve parquet missing required columns" None), w1)
        end
    end.
Proof.
  unfold LcStore.get_lightcurve_by_tic, Sys.bind, Sys.emit, Sys.get_world.
  cbn [Sys.lightcurve_files Sys.with_trace].
  destruct (Sys.lightcurve_files w tic_id) as [df|]; [|reflexivity].
  destruct (Sys.col_time df), (Sys.col_flux df); reflexivity.
Qed.

(** The first block, run: a light curve on disk is returned as it is; a
    file without the required columns fails with the store's
    [ValueError], auto-fetch or not; a missing file is a
    [LightcurveNotFoundError] when auto-fetch is off, and otherwise the
    archive is asked, a failure of the fetch coming back as a
    [LightcurveNotFoundError] after a warning is logged. *)
Lemma acquire_run settings tic_id w :
  Stages.acquire settings tic_id w
  = let w1 := Sys.with_trace w (Sys.trace w ++ [Sys.GetLightcurve tic_id]) in
    match LcStore.get_lightcurve_by_tic settings tic_id w with
    | (Ok arrays, _) => (Ok (arrays, false), w1)
    | (Raise exc, _) =>
        if Py.isinstance exc Py.FileNotFoundError then
          if negb (Config.auto_fetch_missing settings)
          then (Raise (Exn Py.LightcurveNotFoundError (Py.exn_str exc)
                           (Some exc)), w1)
          else
            match LcStore.fetch_lightcurve_from_mast settings tic_id w1 with
            | (Ok _, w2) =>
                match LcStore.get_lightcurve_by_tic settings tic_id w2 with
                | (Ok arrays, w3) => (Ok (arrays, true), w3)
                | (Raise e, w3) =>
                    (Raise (Exn Py.LightcurveNotFoundError (Py.exn_str e)
                                (Some e)),
                     Sys.with_trace w3
                       (Sys.trace w3 ++ [Sys.Log "warning" "auto_fetch_failed"]))
                end
            | (Raise e, w2) =>
                (Raise (Exn Py.LightcurveNotFoundError (Py.exn_str e) (Some e)),
                 Sys.with_trace w2
                   (Sys.trace w2 ++ [Sys.Log "warning" "auto_fetch_failed"]))
            end
        else (Raise exc, w1)
    end.
Proof.
  unfold Stages.acquire, Sys.try_except. unfold Sys.bind at 1.
  rewrite get_lightcurve_run. cbv zeta.
  destruct (Sys.lightcurve_files w tic_id) as [df|].
  - destruct (Sys.col_time df), (Sys.col_flux df); reflexivity.
  - rewrite isinstance_same. cbn [Py.exn_str].
    destruct (negb (Config.auto_fetch_missing settings)); [reflexivity|].
    unfold Sys.bind.
    destruct (LcStore.fetch_lightcurve_from_mast settings tic_id _)
      as [[path|e] w2].
    + destruct (LcStore.get_lightcurve_by_tic settings tic_id w2)
        as [[arrays|e] w3]; [reflexivity|].
      cbv beta iota. rewrite isinstance_Exception. reflexivity.
    + cbv beta iota. rewrite isinstance_Exception. reflexivity.
Qed.

(** Feature extraction for the service, run: the extraction's result, its
    [InsufficientDataError] unchanged, and every other exception logged
    and wrapped in a [FeatureExtractionError] with the same message. *)
Lemma compute_features_run bls np_std np_mean settings time flux flux_err meta w :
  Infer._compute_features bls np_std np_mean settings time flux flux_err meta w
  = match Bls.build_bls_features bls np_std np_mean settings
                                 time flux flux_err meta with
    | Ok b => (Ok b, w)
    | Raise e =>
        if Py.isinstance e Py.InsufficientDataError then (Raise e, w)
        else (Raise (Exn Py.FeatureExtractionError (Py.exn_str e) (Some e)),
              Sys.with_trace w
                (Sys.trace w
                 ++ [Sys.Log "exception" "Failed to compute BLS features"]))
    end.
Proof.
  unfold Infer._compute_features, Sys.try_except, Sys.lift.
  destruct (Bls.build_bls_features _ _ _ _ _ _ _ _) as [b|e]; [reflexivity|].
  destruct (Py.isinstance e Py.InsufficientDataError); [reflexivity|].
  rewrite isinstance_Exception. reflexivity.
Qed.

(** The third block, run. *)
Lemma featurize_run bls np_std np_mean settings tic_id time flux flux_err
      cached_features w :
  Stages.featurize bls np_std np_mean settings tic_id time flux flux_err
                   cached_features w
  = match cached_features with
    | Some cached =>
        (Ok (cached, Infer._summary_from_features cached, [], true), w)
    | None =>
        match Bls.build_bls_features bls np_std np_mean settings
                                     time flux flux_err None with
        | Ok b =>
            (Ok (Bls.features b, Bls.summary b, Bls.warnings b, false),
             Sys.with_feature_cache
               (Sys.with_trace w
                  (Sys.trace w ++ [Sys.WriteCachedFeatures tic_id]))
               tic_id [Bls.features b])
        | Raise e =>
            if Py.isinstance e Py.InsufficientDataError then (Raise e, w)
            else
              let wrapped :=
                Exn Py.FeatureExtractionError (Py.exn_str e) (Some e) in
              (Raise (Exn Py.FeatureExtractionError (Py.exn_str e)
                          (Some wrapped)),
               Sys.with_trace w
                 (Sys.trace w
                  ++ [Sys.Log "exception" "Failed to compute BLS features";
                      Sys.Log "exception"
                              "Unexpected failure during TIC prediction"]))
        end
    end.
Proof.
  destruct cached_features as [cached|]; [reflexivity|].
  unfold Stages.featurize, Sys.try_except. unfold Sys.bind at 1.
  rewrite compute_features_run.
  destruct (Bls.build_bls_features _ _ _ _ _ _ _ _) as [b|e]; [reflexivity|].
  destruct (Py.isinstance e Py.InsufficientDataError) eqn:Hins.
  - rewrite Hins. reflexivity.
  - cbv zeta.
    change (Py.isinstance (Exn Py.FeatureExtractionError (Py.exn_str e) (Some e))
                          Py.InsufficientDataError) with false.
    change (Py.isinstance (Exn Py.FeatureExtractionError (Py.exn_str e) (Some e))
                          Py.Exception) with true.
    cbv beta iota. unfold Sys.bind, Sys.emit, Sys.throw.
    cbn [Sys.trace Sys.with_trace Py.exn_str]. rewrite <- app_assoc.
    reflexivity.
Qed.

(** A request, run up to the point where the features are known: after
    the refresh, one clock reading and the light-curve block, the cache is
    consulted (unless the light curve was fetched), the features are taken
    from it or extracted and written to it, the payload is prepared and
    the response is scored. *)
Lemma predict_after_acquire bls np_std np_mean settings tic_id w state w1
      time flux flux_err auto_fetch w3 :
  Infer.refresh settings false w = (Ok state, w1) ->
  Stages.acquire settings tic_id (Sys.with_ticks w1 (S (Sys.ticks w1)))
  = (Ok (time, flux, flux_err, auto_fetch), w3) ->
  Infer.predict_by_tic bls np_std np_mean settings tic_id w
  = match Stages.lookup settings tic_id auto_fetch w3 with
    | (Raise e, w4) => (Raise e, w4)
    | (Ok cached_features, w4) =>
        match Stages.featurize bls np_std np_mean settings tic_id
                               time flux flux_err cached_features w4 with
        | (Raise e, w5) => (Raise e, w5)
        | (Ok (features, summary, warnings, cache_hit), w5) =>
            match Infer._prepare_lightcurve time flux flux_err with
            | Raise e => (Raise e, w5)
            | Ok payload =>
                Infer._score settings features summary warnings (Some tic_id)
                             (Sys.clock w1 (Sys.ticks w1)) state
                             (Some cache_hit) auto_fetch (Some payload) w5
            end
        end
    end.
Proof.
  intros Href Hacq. rewrite predict_by_tic_stages.
  unfold Stages.predict_by_tic.
  rewrite (bind_ok _ _ _ _ _ Href).
  rewrite (bind_ok Sys.monotonic_ms _ w1 (Sys.clock w1 (Sys.ticks w1))
                   (Sys.with_ticks w1 (S (Sys.ticks w1))) eq_refl).
  rewrite (bind_ok _ _ _ _ _ Hacq). cbv beta iota.
  unfold Sys.bind at 1.
  destruct (Stages.lookup settings tic_id auto_fetch w3) as [[cached|e] w4];
    [|reflexivity].
  unfold Sys.bind at 1.
  destruct (Stages.featurize _ _ _ _ _ _ _ _ _ _)
    as [[[[[features summary] warnings] cache_hit]|e] w5]; [|reflexivity].
  unfold Sys.bind at 1, Sys.lift.
  destruct (Infer._prepare_lightcurve time flux flux_err); reflexivity.
Qed.

(** The light-curve block on a file that is on disk. *)
Lemma acquire_on_disk settings tic_id w df time flux :
  Sys.lightcurve_files w tic_id = Some df ->
  Sys.col_time df = Some time ->
  Sys.col_flux df = Some flux ->
  Stages.acquire settings tic_id w
  = (Ok (time, flux, Sys.col_flux_err df, false),
     Sys.with_trace w (Sys.trace w ++ [Sys.GetLightcurve tic_id])).
Proof.
  intros Hdf Ht Hf. rewrite acquire_run, get_lightcurve_run.
  cbv zeta. rewrite Hdf, Ht, Hf. reflexivity.
Qed.

(** ** Cache hits *)

(** A request served from the cache, run. *)
Lemma predict_cache_hit_run bls np_std np_mean settings tic_id w state w1
      df time flux cached rows :
  Infer.refresh settings false w = (Ok state, w1) ->
  Sys.lightcurve_files w tic_id = Some df ->
  Sys.col_time df = Some time ->
  Sys.col_flux df = Some flux ->
  Sys.feature_cache_files w tic_id = Some (cached :: rows) ->
  Infer.predict_by_tic bls np_std np_mean settings tic_id w
  = let w4 := Sys.with_trace (Sys.with_ticks w1 (S (Sys.ticks w1)))
                (Sys.trace w1 ++ [Sys.GetLightcurve tic_id;
                                  Sys.ReadCachedFeatures tic_id]) in
    match Infer._prepare_lightcurve time flux (Sys.col_flux_err df) with
    | Raise e => (Raise e, w4)
    | Ok payload =>
        Infer._score settings cached (Infer._summary_from_features cached) []
                     (Some tic_id) (Sys.clock w1 (Sys.ticks w1)) state
                     (Some true) false (Some payload) w4
    end.
Proof.
  intros Href Hdf Ht Hf Hcache.
  destruct (refresh_frame _ _ _ _ _ Href) as (_ & Hlc & Hfc & _).
  rewrite (predict_after_acquire bls np_std np_mean settings tic_id w state w1
             time flux (Sys.col_flux_err df) false
             (Sys.with_trace (Sys.with_ticks w1 (S (Sys.ticks w1)))
                (Sys.trace w1 ++ [Sys.GetLightcurve tic_id])) Href).
  2:{ rewrite (acquire_on_disk settings tic_id _ df time flux);
        [reflexivity | cbn; rewrite Hlc; exact Hdf | exact Ht | exact Hf]. }
  unfold Stages.lookup, LcStore.read_cached_features, Sys.bind, Sys.emit,
    Sys.get_world, Sys.ret.
  cbn [Sys.feature_cache_files Sys.with_trace Sys.with_ticks Sys.trace].
  rewrite Hfc, Hcache. rewrite featurize_run. rewrite <- app_assoc.
  reflexivity.
Qed.

(** X17. When the feature cache holds a row for the identifier and the light
    curve is on disk, the request is answered from the cache: nothing is
    extracted (the answer does not depend on the search or on any NumPy
    routine), nothing is written to the cache, the response carries the
    cached vector, a summary read off it, no warnings at all,
    [cache_hit = true] and [auto_fetch = false]. *)
Theorem cache_hit_answers_without_extraction
    (bls : Bls.BoxLeastSquares) (np_std np_mean : list float -> float)
    (settings : Config.Settings) (tic_id : Z) (w : Sys.World)
    (df : Sys.Table) (time flux : list float) (cached : Py.dict float)
    (rows : list (Py.dict float)) :
  Py.is_ok (fst (Infer.refresh settings false w)) = true ->
  Sys.lightcurve_files w tic_id = Some df ->
  Sys.col_time df = Some time ->
  Sys.col_flux df = Some flux ->
  Sys.feature_cache_files w tic_id = Some (cached :: rows) ->
  let '(r, w') := Infer.predict_by_tic bls np_std np_mean settings tic_id w in
  (forall bls' np_std' np_mean',
     Infer.predict_by_tic bls' np_std' np_mean' settings tic_id w = (r, w'))
  /\ Sys.feature_cache_files w' = Sys.feature_cache_files w
  /\ (forall t, ~ In (Sys.WriteCachedFeatures t) (Spec.new_events w w'))
  /\ (forall resp, r = Ok resp ->
        Infer.features resp = Infer._serialize_series cached
        /\ Infer.summary resp
           = Infer._serialize_summary (Infer._summary_from_features cached)
        /\ Infer.warnings resp = []
        /\ Infer.cache_hit (Infer.meta resp) = Some true
        /\ Infer.auto_fetch (Infer.meta resp) = false
        /\ Infer.tic_id resp = Some tic_id).
Proof.
  intros Hok Hdf Ht Hf Hcache.
  destruct (Infer.refresh settings false w) as [[state|e0] w1] eqn:Href;
    [|discriminate].
  destruct (refresh_frame _ _ _ _ _ Href) as (_ & _ & Hfc & _ & _ & _ & Htrace).
  rewrite (predict_cache_hit_run bls np_std np_mean settings tic_id w state w1
             df time flux cached rows Href Hdf Ht Hf Hcache).
  cbv zeta.
  set (w4 := Sys.with_trace _ _).
  assert (Hev : forall w', Sys.trace w' = Sys.trace w4 \/
                           Sys.trace w' = (Sys.trace w4 ++
                             [Sys.Log "info" "prediction_complete"])%list ->
                forall t, ~ In (Sys.WriteCachedFeatures t) (Spec.new_events w w')).
  { intros w' Hw' t.
    assert (Hsplit : exists evs,
               Sys.trace w' = (Sys.trace w1 ++ evs)%list
               /\ ~ In (Sys.WriteCachedFeatures t) evs).
    { destruct Hw' as [-> | ->]; unfold w4; cbn [Sys.trace Sys.with_trace];
        rewrite <- ?app_assoc; eexists; (split; [reflexivity|]);
        simpl; intuition discriminate. }
    destruct Hsplit as (evs & Heq & Hno).
    destruct (new_events_after_refresh _ _ _ _ Htrace Heq) as [-> | ->];
      simpl; intuition discriminate. }
  destruct (Infer._prepare_lightcurve time flux (Sys.col_flux_err df))
    as [payload|e] eqn:Hprep.
  - rewrite score_run.
    destruct (Infer.compute_score state cached) as [[score is_probability]|e]
      eqn:Hscore; cbv zeta.
    + split; [|split; [exact Hfc|split]].
      * intros bls' np_std' np_mean'.
        rewrite (predict_cache_hit_run bls' np_std' np_mean' settings tic_id w
                   state w1 df time flux cached rows Href Hdf Ht Hf Hcache).
        cbv zeta. fold w4. rewrite Hprep, score_run, Hscore. reflexivity.
      * apply Hev. right. reflexivity.
      * intros resp [= <-]. repeat split.
    + split; [|split; [exact Hfc|split]].
      * intros bls' np_std' np_mean'.
        rewrite (predict_cache_hit_run bls' np_std' np_mean' settings tic_id w
                   state w1 df time flux cached rows Href Hdf Ht Hf Hcache).
        cbv zeta. fold w4. rewrite Hprep, score_run, Hscore. reflexivity.
      * apply Hev. left. reflexivity.
      * discriminate.
  - split; [|split; [exact Hfc|split]].
    + intros bls' np_std' np_mean'.
      rewrite (predict_cache_hit_run bls' np_std' np_mean' settings tic_id w
                 state w1 df time flux cached rows Href Hdf Ht Hf Hcache).
      cbv zeta. fold w4. rewrite Hprep. reflexivity.
    + apply Hev. left. reflexivity.
    + discriminate.
Qed.

Lemma cache_hit_answers_without_extraction_witness :
  let '(r, w') := Infer.predict_by_tic Demo.bls Demo.np_std Demo.np_mean
                    Demo.settings 42 Samples.world_cached in
  (forall bls' np_std' np_mean',
     Infer.predict_by_tic bls' np_std' np_mean' Demo.settings 42
                          Samples.world_cached = (r, w'))
  /\ Sys.feature_cache_files w' = Sys.feature_cache_files Samples.world_cached
  /\ (forall t, ~ In (Sys.WriteCachedFeatures t)
                     (Spec.new_events Samples.world_cached w'))
  /\ (forall resp, r = Ok resp ->
        Infer.features resp = Infer._serialize_series Demo.features_inf
        /\ Infer.summary resp
           = Infer._serialize_summary
               (Infer._summary_from_features Demo.features_inf)
        /\ Infer.warnings resp = []
        /\ Infer.cache_hit (Infer.meta resp) = Some true
        /\ Infer.auto_fetch (Infer.meta resp) = false
        /\ Infer.tic_id resp = Some 42%Z).
Proof.
  eapply (cache_hit_answers_without_extraction Demo.bls Demo.np_std
            Demo.np_mean Demo.settings 42 Samples.world_cached Demo.table200
            _ _ Demo.features_inf []);
    reflexivity.
Defined.

(** The cached request, run: the store and the cache are read, nothing is
    written, and the score is the one of the cached vector. *)
Example cache_hit_sample :
  let '(r, w') := Infer.predict_by_tic Demo.bls Demo.np_std Demo.np_mean
                    Demo.settings 42 Samples.world_cached in
  Sys.trace w'
  = [ Sys.GetLightcurve 42; Sys.ReadCachedFeatures 42;
      Sys.Log "info" "prediction_complete" ]
  /\ match r with
     | Ok resp =>
         Infer.cache_hit (Infer.meta resp) = Some true
         /\ Py.get "period_days" (Infer.features resp) = Some (Some 3.5%float)
         /\ Py.get "depth_ppm" (Infer.summary resp) = Some None
     | Raise _ => False
     end.
Proof. vm_compute. repeat split. Qed.

(** ** A miss, then a hit *)

(** After a refresh that returned, the cached state is up to date with
    the pointer file. *)
Lemma refresh_settled settings force w st w1 :
  Infer.refresh settings force w = (Ok st, w1) ->
  Sys._state w1 = Some st
  /\ exists text mtime,
       Loader.latest_txt (Sys.model_files w1) = Some (text, mtime)
       /\ (Loader.latest_mtime st <? mtime)%float = false.
Proof.
  destruct (Loader.latest_txt (Sys.model_files w)) as [[text mtime]|] eqn:Hptr.
  - rewrite (refresh_cases settings force w text mtime Hptr).
    destruct (force || _)%bool eqn:Hdue.
    + destruct (Loader.load_state settings (Sys.model_files w)) as [st'|e] eqn:Hl;
        [|discriminate].
      intros [= <- <-]. split; [reflexivity|]. exists text, mtime.
      split; [exact Hptr|].
      destruct (load_state_invariants settings _ st' Hl)
        as (text' & mtime' & Hptr' & _ & _ & Hm & _).
      assert (Emt : Loader.latest_mtime st' = mtime) by congruence.
      rewrite Emt. apply ltb_irrefl.
    + apply orb_false_iff in Hdue. destruct Hdue as [_ Hlt].
      destruct (Sys._state w) as [st'|] eqn:Hst; [|discriminate].
      intros [= <- <-]. split; [exact Hst|]. exists text, mtime.
      split; [exact Hptr | exact Hlt].
  - unfold Infer.refresh, Sys.bind, Sys.get_world. rewrite Hptr. discriminate.
Qed.

Lemma refresh_cached settings w st text mtime :
  Sys._state w = Some st ->
  Loader.latest_txt (Sys.model_files w) = Some (text, mtime) ->
  (Loader.latest_mtime st <? mtime)%float = false ->
  Infer.refresh settings false w = (Ok st, w).
Proof.
  intros Hst Hptr Hlt. rewrite (refresh_cases settings false w text mtime Hptr).
  rewrite Hst. cbn. rewrite Hlt. reflexivity.
Qed.

Lemma predict_refresh_failed bls np_std np_mean settings tic_id w e w1 :
  Infer.refresh settings false w = (Raise e, w1) ->
  Infer.predict_by_tic bls np_std np_mean settings tic_id w = (Raise e, w1).
Proof.
  intros Href. rewrite predict_by_tic_stages. unfold Stages.predict_by_tic.
  apply bind_raise, Href.
Qed.

(** A request that finds the light curve on disk and nothing in the
    cache, run. *)
Lemma predict_cache_miss_run bls np_std np_mean settings tic_id w state w1
      df time flux :
  Infer.refresh settings false w = (Ok state, w1) ->
  Sys.lightcurve_files w tic_id = Some df ->
  Sys.col_time df = Some time ->
  Sys.col_flux df = Some flux ->
  Sys.feature_cache_files w tic_id = None
  \/ Sys.feature_cache_files w tic_id = Some [] ->
  Infer.predict_by_tic bls np_std np_mean settings tic_id w
  = let w4 := Sys.with_trace (Sys.with_ticks w1 (S (Sys.ticks w1)))
                (Sys.trace w1 ++ [Sys.GetLightcurve tic_id;
                                  Sys.ReadCachedFeatures tic_id]) in
    match Bls.build_bls_features bls np_std np_mean settings
                                 time flux (Sys.col_flux_err df) None with
    | Raise e =>
        if Py.isinstance e Py.InsufficientDataError then (Raise e, w4)
        else
          (Raise (Exn Py.FeatureExtractionError (Py.exn_str e)
                      (Some (Exn Py.FeatureExtractionError (Py.exn_str e)
                                 (Some e)))),
           Sys.with_trace w4
             (Sys.trace w4
              ++ [Sys.Log "exception" "Failed to compute BLS features";
                  Sys.Log "exception"
                          "Unexpected failure during TIC prediction"]))
    | Ok b =>
        let w5 := Sys.with_feature_cache
                    (Sys.with_trace w4
                       (Sys.trace w4 ++ [Sys.WriteCachedFeatures tic_id]))
                    tic_id [Bls.features b] in
        match Infer._prepare_lightcurve time flux (Sys.col_flux_err df) with
        | Raise e => (Raise e, w5)
        | Ok payload =>
            Infer._score settings (Bls.features b) (Bls.summary b)
                         (Bls.warnings b) (Some tic_id)
                         (Sys.clock w1 (Sys.ticks w1)) state
                         (Some false) false (Some payload) w5
        end
    end.
Proof.
  intros Href Hdf Ht Hf Hcache.
  destruct (refresh_frame _ _ _ _ _ Href) as (_ & Hlc & Hfc & _).
  rewrite (predict_after_acquire bls np_std np_mean settings tic_id w state w1
             time flux (Sys.col_flux_err df) false
             (Sys.with_trace (Sys.with_ticks w1 (S (Sys.ticks w1)))
                (Sys.trace w1 ++ [Sys.GetLightcurve tic_id])) Href).
  2:{ rewrite (acquire_on_disk settings tic_id _ df time flux);
        [reflexivity | cbn; rewrite Hlc; exact Hdf | exact Ht | exact Hf]. }
  unfold Stages.lookup, LcStore.read_cached_features, Sys.bind, Sys.emit,
    Sys.get_world, Sys.ret.
  cbn [Sys.feature_cache_files Sys.with_trace Sys.with_ticks Sys.trace].
  rewrite Hfc.
  assert (Hnone : match Sys.feature_cache_files w tic_id with
                  | Some (row :: _) => False
                  | _ => True
                  end) by (destruct Hcache as [-> | ->]; exact I).
  rewrite <- app_assoc. cbn [app].
  destruct (Sys.feature_cache_files w tic_id) as [[|row rows]|];
    try contradiction;
    rewrite featurize_run;
    (destruct (Bls.build_bls_features _ _ _ _ _ _ _ _) as [b|e];
     [reflexivity|];
     destruct (Py.isinstance e Py.InsufficientDataError); reflexivity).
Qed.

(** X18. The first request for a light curve extracts the features and caches
    them; the second is answered from the cache, with the same features,
    the same summary, the same score and the same light-curve payload.
    What the second answer lacks is the warnings of the first: a cached
    answer never carries any. *)
Theorem cache_miss_then_hit_agree
    (bls : Bls.BoxLeastSquares) (np_std np_mean : list float -> float)
    (settings : Config.Settings) (tic_id : Z) (w w' : Sys.World)
    (df : Sys.Table) (time flux : list float) (first : Infer.Response) :
  Sys.lightcurve_files w tic_id = Some df ->
  Sys.col_time df = Some time ->
  Sys.col_flux df = Some flux ->
  Sys.feature_cache_files w tic_id = None
  \/ Sys.feature_cache_files w tic_id = Some [] ->
  Infer.predict_by_tic bls np_std np_mean settings tic_id w = (Ok first, w') ->
  exists second w'',
    Infer.predict_by_tic bls np_std np_mean settings tic_id w'
    = (Ok second, w'')
    /\ Infer.cache_hit (Infer.meta first) = Some false
    /\ Infer.cache_hit (Infer.meta second) = Some true
    /\ Infer.features second = Infer.features first
    /\ Infer.summary second = Infer.summary first
    /\ Infer.score second = Infer.score first
    /\ Infer.is_probability second = Infer.is_probability first
    /\ Infer.lightcurve second = Infer.lightcurve first
    /\ Infer.warnings second = []
    /\ (forall t, ~ In (Sys.WriteCachedFeatures t) (Spec.new_events w' w'')).
Proof.
  intros Hdf Ht Hf Hcache Hrun.
  destruct (Infer.refresh settings false w) as [[state|e0] w1] eqn:Href.
  2:{ rewrite (predict_refresh_failed _ _ _ _ _ _ _ _ Href) in Hrun.
      discriminate. }
  destruct (refresh_frame _ _ _ _ _ Href) as (Hmf & Hlc & _).
  destruct (refresh_settled _ _ _ _ _ Href) as (Hst & text & mtime & Hptr & Hlt).
  rewrite (predict_cache_miss_run bls np_std np_mean settings tic_id w state w1
             df time flux Href Hdf Ht Hf Hcache) in Hrun.
  cbv zeta in Hrun.
  destruct (Bls.build_bls_features bls np_std np_mean settings time flux
              (Sys.col_flux_err df) None) as [b|e] eqn:Hbuild.
  2:{ destruct (Py.isinstance e Py.InsufficientDataError); discriminate. }
  destruct (Infer._prepare_lightcurve time flux (Sys.col_flux_err df))
    as [payload|e] eqn:Hprep; [|discriminate].
  rewrite score_run in Hrun.
  destruct (Infer.compute_score state (Bls.features b))
    as [[score is_probability]|e] eqn:Hscore; [|discriminate].
  cbv zeta in Hrun. injection Hrun as <- <-.
  set (w' := Sys.with_trace _ _).
  assert (Href' : Infer.refresh settings false w' = (Ok state, w'))
    by (apply (refresh_cached settings w' state text mtime);
        [exact Hst | exact Hptr | exact Hlt]).
  assert (Hdf' : Sys.lightcurve_files w' tic_id = Some df)
    by (unfold w'; cbn; rewrite Hlc; exact Hdf).
  assert (Hcache' : Sys.feature_cache_files w' tic_id = Some [Bls.features b])
    by (unfold w'; cbn; rewrite Z.eqb_refl; reflexivity).
  rewrite (predict_cache_hit_run bls np_std np_mean settings tic_id w' state w'
             df time flux (Bls.features b) [] Href' Hdf' Ht Hf Hcache').
  cbv zeta. rewrite Hprep, score_run, Hscore. cbv zeta.
  eexists. eexists. split; [reflexivity|].
  cbn [Infer.meta Infer.cache_hit Infer.features Infer.summary Infer.score
       Infer.is_probability Infer.lightcurve Infer.warnings].
  rewrite (build_summary_from_features _ _ _ _ _ _ _ _ _ Hbuild).
  repeat split.
  intros t. erewrite new_events_app.
  2:{ cbn [Sys.trace Sys.with_trace Sys.with_ticks]. rewrite <- app_assoc.
      reflexivity. }
  simpl. intuition discriminate.
Qed.

Lemma cache_miss_then_hit_agree_witness :
  exists first w' second w'',
    Infer.predict_by_tic Demo.bls Demo.np_std Demo.np_mean Demo.settings 42
                         Samples.world_uncached = (Ok first, w')
    /\ Infer.predict_by_tic Demo.bls Demo.np_std Demo.np_mean Demo.settings 42 w'
       = (Ok second, w'')
    /\ Infer.cache_hit (Infer.meta first) = Some false
    /\ Infer.cache_hit (Infer.meta second) = Some true
    /\ Infer.features second = Infer.features first
    /\ Infer.summary second = Infer.summary first
    /\ Infer.score second = Infer.score first
    /\ Infer.is_probability second = Infer.is_probability first
    /\ Infer.lightcurve second = Infer.lightcurve first
    /\ Infer.warnings second = []
    /\ (forall t, ~ In (Sys.WriteCachedFeatures t) (Spec.new_events w' w'')).
Proof.
  assert (Hrun : exists first w',
             Infer.predict_by_tic Demo.bls Demo.np_std Demo.np_mean
               Demo.settings 42 Samples.world_uncached = (Ok first, w'))
    by (eexists; eexists; vm_compute; reflexivity).
  destruct Hrun as (first & w' & Hrun).
  destruct (cache_miss_then_hit_agree Demo.bls Demo.np_std Demo.np_mean
              Demo.settings 42 Samples.world_uncached w' Demo.table200
              (Sys.lc_time Demo.lc200) (Sys.lc_flux Demo.lc200) first
              eq_refl) as (second & w'' & H).
  - vm_compute. reflexivity.
  - vm_compute. reflexivity.
  - left. reflexivity.
  - exact Hrun.
  - exists first, w', second, w''. split; [exact Hrun | exact H].
Defined.

(** ** Requests that fail *)

(** The archive fetch, run. *)
Lemma fetch_run settings tic_id w :
  LcStore.fetch_lightcurve_from_mast settings tic_id w
  = let w1 := Sys.with_trace w (Sys.trace w ++ [Sys.FetchFromMast tic_id]) in
    if negb (Sys.lightkurve_installed (Sys.mast w))
    then (Raise (Exn Py.RuntimeError
                   "lightkurve is required for automatic lightcurve fetching"
                   None), w1)
    else
      match LcStore.try_authors (Sys.search_lightcurve (Sys.mast w) tic_id)
                                (LcStore.authors_ordered settings)
                                (LcStore.flux_ordered settings) None with
      | LcStore.Stored df =>
          (Ok (LcStore._resolve_lightcurve_path settings tic_id),
           Sys.with_lightcurve w1 tic_id df)
      | LcStore.Escaped e => (Raise e, w1)
      | LcStore.Exhausted (Some msg) =>
          (Raise (Exn Py.RuntimeError
                    ("Failed to download lightcurve for TIC "
                     ++ Py.str_of_Z tic_id ++ ": " ++ msg)
                    (Some (Exn Py.Exception msg None))), w1)
      | LcStore.Exhausted None =>
          (Raise (Exn Py.RuntimeError
                    ("Failed to download lightcurve for TIC "
                     ++ Py.str_of_Z tic_id ++ "; no matching products found")
                    None), w1)
      end.
Proof.
  unfold LcStore.fetch_lightcurve_from_mast, Sys.bind, Sys.emit, Sys.get_world,
    Sys.throw, Sys.ret.
  cbn [Sys.mast Sys.with_trace].
  destruct (negb (Sys.lightkurve_installed (Sys.mast w))); [reflexivity|].
  destruct (LcStore.try_authors _ _ _ None) as [df|e|[msg|]]; reflexivity.
Qed.

Lemma status_of_not_found msg cause :
  Main.by_tic_response (Raise (Exn Py.LightcurveNotFoundError msg cause))
  = Main.HttpError 404 msg.
Proof. reflexivity. Qed.

(** X19. With auto-fetch on, a light curve that is neither on disk nor to be
    had from the archive is reported as not found: whatever makes the fetch
    fail ([lightkurve] not installed, no product that yields 200 clean
    rows, an error while a table is built), the request logs the warning
    [auto_fetch_failed] and raises [LightcurveNotFoundError] with the
    message of the failure, which is its cause; the store is left as it
    was, nothing is scored, and the HTTP handler answers 404 with that
    message. *)
Theorem failed_fetch_is_reported_as_not_found
    (bls : Bls.BoxLeastSquares) (np_std np_mean : list float -> float)
    (settings : Config.Settings) (tic_id : Z) (w : Sys.World) :
  Py.is_ok (fst (Infer.refresh settings false w)) = true ->
  Sys.lightcurve_files w tic_id = None ->
  Config.auto_fetch_missing settings = true ->
  Sys.lightkurve_installed (Sys.mast w) = false
  \/ (forall df,
        LcStore.try_authors (Sys.search_lightcurve (Sys.mast w) tic_id)
                            (LcStore.authors_ordered settings)
                            (LcStore.flux_ordered settings) None
        <> LcStore.Stored df) ->
  let '(r, w') := Infer.predict_by_tic bls np_std np_mean settings tic_id w in
  (exists cause,
     r = Raise (Exn Py.LightcurveNotFoundError (Py.exn_str cause) (Some cause))
     /\ fst (LcStore.fetch_lightcurve_from_mast settings tic_id w) = Raise cause
     /\ Main.by_tic_response r = Main.HttpError 404 (Py.exn_str cause))
  /\ In (Sys.FetchFromMast tic_id) (Spec.new_events w w')
  /\ In (Sys.Log "warning" "auto_fetch_failed") (Spec.new_events w w')
  /\ Sys.lightcurve_files w' = Sys.lightcurve_files w
  /\ Sys.feature_cache_files w' = Sys.feature_cache_files w
  /\ ~ Spec.scored w w'.
Proof.
  intros Hok Hnone Hauto Hfail.
  destruct (Infer.refresh settings false w) as [[state|e0] w1] eqn:Href;
    [|discriminate].
  destruct (refresh_frame _ _ _ _ _ Href)
    as (_ & Hlc & Hfc & Hmast & _ & _ & Htrace).
  rewrite predict_by_tic_stages. unfold Stages.predict_by_tic.
  rewrite (bind_ok _ _ _ _ _ Href).
  rewrite (bind_ok Sys.monotonic_ms _ w1 (Sys.clock w1 (Sys.ticks w1))
                   (Sys.with_ticks w1 (S (Sys.ticks w1))) eq_refl).
  set (w2 := Sys.with_ticks w1 (S (Sys.ticks w1))).
  assert (Hfetch : exists cause,
             fst (LcStore.fetch_lightcurve_from_mast settings tic_id w)
             = Raise cause
             /\ forall w0, Sys.mast w0 = Sys.mast w ->
                  LcStore.fetch_lightcurve_from_mast settings tic_id w0
                  = (Raise cause,
                     Sys.with_trace w0
                       (Sys.trace w0 ++ [Sys.FetchFromMast tic_id]))).
  { destruct Hfail as [Hlk|Hno].
    - eexists. split.
      + rewrite fetch_run. cbv zeta. rewrite Hlk. reflexivity.
      + intros w0 Hm. rewrite fetch_run. cbv zeta. rewrite Hm, Hlk. reflexivity.
    - destruct (Sys.lightkurve_installed (Sys.mast w)) eqn:Hlk.
      + destruct (LcStore.try_authors
                    (Sys.search_lightcurve (Sys.mast w) tic_id)
                    (LcStore.authors_ordered settings)
                    (LcStore.flux_ordered settings) None)
          as [df|e|[msg|]] eqn:Hta.
        * exfalso. exact (Hno df eq_refl).
        * eexists. split.
          -- rewrite fetch_run. cbv zeta. rewrite Hlk, Hta. reflexivity.
          -- intros w0 Hm. rewrite fetch_run. cbv zeta.
             rewrite Hm, Hlk, Hta. reflexivity.
        * eexists. split.
          -- rewrite fetch_run. cbv zeta. rewrite Hlk, Hta. reflexivity.
          -- intros w0 Hm. rewrite fetch_run. cbv zeta.
             rewrite Hm, Hlk, Hta. reflexivity.
        * eexists. split.
          -- rewrite fetch_run. cbv zeta. rewrite Hlk, Hta. reflexivity.
          -- intros w0 Hm. rewrite fetch_run. cbv zeta.
             rewrite Hm, Hlk, Hta. reflexivity.
      + eexists. split.
        * rewrite fetch_run. cbv zeta. rewrite Hlk. reflexivity.
        * intros w0 Hm. rewrite fetch_run. cbv zeta. rewrite Hm, Hlk.
          reflexivity. }
  destruct Hfetch as (cause & Hcause & Hrun).
  assert (Hacq : Stages.acquire settings tic_id w2
                 = (Raise (Exn Py.LightcurveNotFoundError (Py.exn_str cause)
                               (Some cause)),
                    Sys.with_trace w2
                      (Sys.trace w1
                       ++ [Sys.GetLightcurve tic_id; Sys.FetchFromMast tic_id;
                           Sys.Log "warning" "auto_fetch_failed"]))).
  { rewrite acquire_run, get_lightcurve_run. cbv zeta.
    assert (Hn2 : Sys.lightcurve_files w2 tic_id = None)
      by (unfold w2; cbn; rewrite Hlc; exact Hnone).
    rewrite Hn2, isinstance_same, Hauto. cbn [negb].
    rewrite Hrun by (unfold w2; cbn; exact Hmast).
    unfold w2. cbn [Sys.trace Sys.with_trace Sys.with_ticks].
    rewrite <- !app_assoc. reflexivity. }
  rewrite (bind_raise _ _ _ _ _ Hacq).
  assert (Hev : Spec.new_events w (Sys.with_trace w2
                  (Sys.trace w1
                   ++ [Sys.GetLightcurve tic_id; Sys.FetchFromMast tic_id;
                       Sys.Log "warning" "auto_fetch_failed"]))
                = [Sys.GetLightcurve tic_id; Sys.FetchFromMast tic_id;
                   Sys.Log "warning" "auto_fetch_failed"]
                \/ Spec.new_events w (Sys.with_trace w2
                     (Sys.trace w1
                      ++ [Sys.GetLightcurve tic_id; Sys.FetchFromMast tic_id;
                          Sys.Log "warning" "auto_fetch_failed"]))
                   = [Sys.LoadState; Sys.GetLightcurve tic_id;
                      Sys.FetchFromMast tic_id;
                      Sys.Log "warning" "auto_fetch_failed"])
    by (apply (new_events_after_refresh w w1); [exact Htrace | reflexivity]).
  split; [exists cause; repeat split; exact Hcause|].
  unfold Spec.scored.
  destruct Hev as [-> | ->]; simpl; repeat split; auto;
    intuition discriminate.
Qed.

Lemma failed_fetch_is_reported_as_not_found_witness :
  let w := Demo.world_of Demo.iso_dir (Some Demo.iso_state) in
  let '(r, w') := Infer.predict_by_tic Demo.bls Demo.np_std Demo.np_mean
                    Demo.settings_auto_fetch 42 w in
  (exists cause,
     r = Raise (Exn Py.LightcurveNotFoundError (Py.exn_str cause) (Some cause))
     /\ fst (LcStore.fetch_lightcurve_from_mast Demo.settings_auto_fetch 42 w)
        = Raise cause
     /\ Main.by_tic_response r = Main.HttpError 404 (Py.exn_str cause))
  /\ In (Sys.FetchFromMast 42) (Spec.new_events w w')
  /\ In (Sys.Log "warning" "auto_fetch_failed") (Spec.new_events w w')
  /\ Sys.lightcurve_files w' = Sys.lightcurve_files w
  /\ Sys.feature_cache_files w' = Sys.feature_cache_files w
  /\ ~ Spec.scored w w'.
Proof.
  apply (failed_fetch_is_reported_as_not_found Demo.bls Demo.np_std
           Demo.np_mean Demo.settings_auto_fetch 42
           (Demo.world_of Demo.iso_dir (Some Demo.iso_state)));
    [reflexivity | reflexivity | reflexivity | left; reflexivity].
Defined.

(** X20. A light-curve file that lacks the [time] or the [flux] column is not a
    missing light curve: the store's [ValueError] leaves the request as it
    is, auto-fetch on or off; the archive is not asked, nothing is scored,
    and the HTTP handler, having no clause for it, answers 500. *)
Theorem file_without_columns_is_a_server_error
    (bls : Bls.BoxLeastSquares) (np_std np_mean : list float -> float)
    (settings : Config.Settings) (tic_id : Z) (w : Sys.World)
    (df : Sys.Table) :
  Py.is_ok (fst (Infer.refresh settings false w)) = true ->
  Sys.lightcurve_files w tic_id = Some df ->
  Sys.col_time df = None \/ Sys.col_flux df = None ->
  let '(r, w') := Infer.predict_by_tic bls np_std np_mean settings tic_id w in
  (exists msg, r = Raise (Exn Py.ValueError msg None))
  /\ Main.status_code_of (Main.by_tic_response r) = 500%Z
  /\ (forall t, ~ In (Sys.FetchFromMast t) (Spec.new_events w w'))
  /\ ~ Spec.scored w w'
  /\ Sys.lightcurve_files w' = Sys.lightcurve_files w.
Proof.
  intros Hok Hdf Hcols.
  destruct (Infer.refresh settings false w) as [[state|e0] w1] eqn:Href;
    [|discriminate].
  destruct (refresh_frame _ _ _ _ _ Href)
    as (_ & Hlc & _ & _ & _ & _ & Htrace).
  rewrite predict_by_tic_stages. unfold Stages.predict_by_tic.
  rewrite (bind_ok _ _ _ _ _ Href).
  rewrite (bind_ok Sys.monotonic_ms _ w1 (Sys.clock w1 (Sys.ticks w1))
                   (Sys.with_ticks w1 (S (Sys.ticks w1))) eq_refl).
  set (w2 := Sys.with_ticks w1 (S (Sys.ticks w1))).
  assert (Hacq : Stages.acquire settings tic_id w2
                 = (Raise (Exn Py.ValueError
                             "Lightcurve parquet missing required columns" None),
                    Sys.with_trace w2
                      (Sys.trace w1 ++ [Sys.GetLightcurve tic_id]))).
  { rewrite acquire_run, get_lightcurve_run. cbv zeta.
    assert (Hd2 : Sys.lightcurve_files w2 tic_id = Some df)
      by (unfold w2; cbn; rewrite Hlc; exact Hdf).
    rewrite Hd2.
    destruct Hcols as [Hc|Hc]; rewrite Hc;
      [|destruct (Sys.col_time df)]; reflexivity. }
  rewrite (bind_raise _ _ _ _ _ Hacq).
  split; [eexists; reflexivity|]. split; [reflexivity|].
  unfold Spec.scored.
  destruct (new_events_after_refresh w w1
              (Sys.with_trace w2 (Sys.trace w1 ++ [Sys.GetLightcurve tic_id]))
              [Sys.GetLightcurve tic_id] Htrace eq_refl) as [-> | ->];
    simpl; repeat split; auto; try intros t; intuition discriminate.
Qed.

Lemma file_without_columns_is_a_server_error_witness :
  let w := Samples.world_without_time in
  let '(r, w') := Infer.predict_by_tic Demo.bls Demo.np_std Demo.np_mean
                    Demo.settings_auto_fetch 42 w in
  (exists msg, r = Raise (Exn Py.ValueError msg None))
  /\ Main.status_code_of (Main.by_tic_response r) = 500%Z
  /\ (forall t, ~ In (Sys.FetchFromMast t) (Spec.new_events w w'))
  /\ ~ Spec.scored w w'
  /\ Sys.lightcurve_files w' = Sys.lightcurve_files w.
Proof.
  apply (file_without_columns_is_a_server_error Demo.bls Demo.np_std
           Demo.np_mean Demo.settings_auto_fetch 42 Samples.world_without_time
           Samples.table_without_time);
    [reflexivity | reflexivity | left; reflexivity].
Defined.

(** X21. When the extraction fails for a light curve that is on disk and not in
    the cache, nothing is cached and nothing is scored.  Too few samples
    leave as the extraction's own [InsufficientDataError], unlogged, and
    the handler answers 422.  Any other failure is wrapped twice on this
    path, once by [_compute_features] and once by [predict_by_tic]: the
    request raises a [FeatureExtractionError] caused by a
    [FeatureExtractionError] caused by the failure, all three with the
    failure's message, two exception records are logged, and the handler
    answers 500 with that message. *)
Theorem failed_extraction_by_tic
    (bls : Bls.BoxLeastSquares) (np_std np_mean : list float -> float)
    (settings : Config.Settings) (tic_id : Z) (w : Sys.World)
    (df : Sys.Table) (time flux : list float) (e : exn) :
  Py.is_ok (fst (Infer.refresh settings false w)) = true ->
  Sys.lightcurve_files w tic_id = Some df ->
  Sys.col_time df = Some time ->
  Sys.col_flux df = Some flux ->
  Sys.feature_cache_files w tic_id = None
  \/ Sys.feature_cache_files w tic_id = Some [] ->
  Bls.build_bls_features bls np_std np_mean settings
                         time flux (Sys.col_flux_err df) None = Raise e ->
  let '(r, w') := Infer.predict_by_tic bls np_std np_mean settings tic_id w in
  Sys.feature_cache_files w' = Sys.feature_cache_files w
  /\ (forall t, ~ In (Sys.WriteCachedFeatures t) (Spec.new_events w w'))
  /\ ~ Spec.scored w w'
  /\ (Py.exn_class e = Py.InsufficientDataError ->
      r = Raise e
      /\ Main.by_tic_response r = Main.HttpError 422 "insufficient_data"
      /\ forall level message,
           ~ In (Sys.Log level message) (Spec.new_events w w'))
  /\ (Py.exn_class e <> Py.InsufficientDataError ->
      r = Raise (Exn Py.FeatureExtractionError (Py.exn_str e)
                     (Some (Exn Py.FeatureExtractionError (Py.exn_str e)
                                (Some e))))
      /\ Main.by_tic_response r = Main.HttpError 500 (Py.exn_str e)
      /\ In (Sys.Log "exception" "Failed to compute BLS features")
            (Spec.new_events w w')
      /\ In (Sys.Log "exception" "Unexpected failure during TIC prediction")
            (Spec.new_events w w')).
Proof.
  intros Hok Hdf Ht Hf Hcache Hbuild.
  destruct (Infer.refresh settings false w) as [[state|e0] w1] eqn:Href;
    [|discriminate].
  destruct (refresh_frame _ _ _ _ _ Href)
    as (_ & _ & Hfc & _ & _ & _ & Htrace).
  rewrite (predict_cache_miss_run bls np_std np_mean settings tic_id w state w1
             df time flux Href Hdf Ht Hf Hcache).
  cbv zeta. rewrite Hbuild. rewrite isinstance_Insufficient.
  unfold Spec.scored.
  destruct (Py.exc_class_eqb (Py.exn_class e) Py.InsufficientDataError) eqn:Hcls.
  - assert (Hc : Py.exn_class e = Py.InsufficientDataError)
      by (destruct e as [[] ? ?]; simpl in *; congruence).
    destruct (new_events_after_refresh w w1
                (Sys.with_trace (Sys.with_ticks w1 (S (Sys.ticks w1)))
                   (Sys.trace w1 ++ [Sys.GetLightcurve tic_id;
                                     Sys.ReadCachedFeatures tic_id]))
                [Sys.GetLightcurve tic_id; Sys.ReadCachedFeatures tic_id]
                Htrace eq_refl) as [-> | ->];
      (split; [exact Hfc|]);
      (split; [intros t; simpl; intuition discriminate|]);
      (split; [simpl; intuition discriminate|]);
      (split; [|intros Hne; contradiction]);
      intros _; (split; [reflexivity|]);
      (split; [destruct e as [cls msg cause]; simpl in Hc; subst cls;
               reflexivity|]);
      intros level message; simpl; intuition discriminate.
  - assert (Hc : Py.exn_class e <> Py.InsufficientDataError)
      by (destruct e as [[] ? ?]; simpl in *; congruence).
    destruct (new_events_after_refresh w w1
                (Sys.with_trace
                   (Sys.with_trace (Sys.with_ticks w1 (S (Sys.ticks w1)))
                      (Sys.trace w1 ++ [Sys.GetLightcurve tic_id;
                                        Sys.ReadCachedFeatures tic_id]))
                   ((Sys.trace w1 ++ [Sys.GetLightcurve tic_id;
                                      Sys.ReadCachedFeatures tic_id])
                    ++ [Sys.Log "exception" "Failed to compute BLS features";
                        Sys.Log "exception"
                                "Unexpected failure during TIC prediction"]))
                [Sys.GetLightcurve tic_id; Sys.ReadCachedFeatures tic_id;
                 Sys.Log "exception" "Failed to compute BLS features";
                 Sys.Log "exception" "Unexpected failure during TIC prediction"]
                Htrace) as [Hev | Hev];
      try (cbn [Sys.trace Sys.with_trace]; rewrite <- app_assoc; reflexivity);
      cbn [Sys.trace Sys.with_trace] in Hev |- *; rewrite Hev;
      (split; [exact Hfc|]);
      (split; [intros t; simpl; intuition discriminate|]);
      (split; [simpl; intuition discriminate|]);
      (split; [intros Heq; contradiction|]);
      intros _; (split; [reflexivity|]);
      (split; [reflexivity|]); simpl; auto 10.
Qed.

Lemma failed_extraction_by_tic_witness :
  let w := Samples.world_with Samples.table_zero_flux in
  let e := Exn Py.ValueError "median flux is invalid for normalization" None in
  let '(r, w') := Infer.predict_by_tic Demo.bls Demo.np_std Demo.np_mean
                    Demo.settings 42 w in
  Sys.feature_cache_files w' = Sys.feature_cache_files w
  /\ (forall t, ~ In (Sys.WriteCachedFeatures t) (Spec.new_events w w'))
  /\ ~ Spec.scored w w'
  /\ (Py.exn_class e = Py.InsufficientDataError ->
      r = Raise e
      /\ Main.by_tic_response r = Main.HttpError 422 "insufficient_data"
      /\ forall level message,
           ~ In (Sys.Log level message) (Spec.new_events w w'))
  /\ (Py.exn_class e <> Py.InsufficientDataError ->
      r = Raise (Exn Py.FeatureExtractionError (Py.exn_str e)
                     (Some (Exn Py.FeatureExtractionError (Py.exn_str e)
                                (Some e))))
      /\ Main.by_tic_response r = Main.HttpError 500 (Py.exn_str e)
      /\ In (Sys.Log "exception" "Failed to compute BLS features")
            (Spec.new_events w w')
      /\ In (Sys.Log "exception" "Unexpected failure during TIC prediction")
            (Spec.new_events w w')).
Proof.
  apply (failed_extraction_by_tic Demo.bls Demo.np_std Demo.np_mean
           Demo.settings 42 (Samples.world_with Samples.table_zero_flux)
           Samples.table_zero_flux (Sys.lc_time Demo.lc200)
           Samples.zero_flux200);
    [reflexivity | reflexivity | reflexivity | reflexivity
    | left; reflexivity | vm_compute; reflexivity].
Defined.

(** Seven samples on disk: the request is answered 422 and leaves no log
    record; 200 samples of zero flux cannot be normalised, and the request
    is answered 500. *)
Example failed_extraction_samples :
  Main.predict_by_tic Demo.bls Demo.np_std Demo.np_mean Demo.settings 42
                      (Samples.world_with Samples.table7)
  = (Main.HttpError 422 "insufficient_data",
     Sys.with_trace
       (Sys.with_ticks (Samples.world_with Samples.table7) 1)
       [Sys.GetLightcurve 42; Sys.ReadCachedFeatures 42])
  /\ fst (Main.predict_by_tic Demo.bls Demo.np_std Demo.np_mean Demo.settings
            42 (Samples.world_with Samples.table_zero_flux))
     = Main.HttpError 500 "median flux is invalid for normalization".
Proof. split; vm_compute; reflexivity. Qed.

(** ** Prediction from uploaded arrays *)

(** [predict_from_arrays], run. *)
Lemma predict_from_arrays_run bls np_std np_mean settings time flux flux_err
      meta w :
  Infer.predict_from_arrays bls np_std np_mean settings time flux flux_err meta w
  = match Infer.refresh settings false w with
    | (Raise e, w1) => (Raise e, w1)
    | (Ok state, w1) =>
        let w2 := Sys.with_ticks w1 (S (Sys.ticks w1)) in
        match Bls.build_bls_features bls np_std np_mean settings
                                     time flux flux_err meta with
        | Raise e =>
            if Py.isinstance e Py.InsufficientDataError then (Raise e, w2)
            else
              (Raise (Exn Py.FeatureExtractionError (Py.exn_str e) (Some e)),
               Sys.with_trace w2
                 (Sys.trace w2
                  ++ [Sys.Log "exception" "Failed to compute BLS features"]))
        | Ok b =>
            match Infer._prepare_lightcurve time flux flux_err with
            | Raise e => (Raise e, w2)
            | Ok payload =>
                Infer._score settings (Bls.features b) (Bls.summary b)
                             (Bls.warnings b) None
                             (Sys.clock w1 (Sys.ticks w1)) state
                             (Some false) false (Some payload) w2
            end
        end
    end.
Proof.
  unfold Infer.predict_from_arrays. unfold Sys.bind at 1.
  destruct (Infer.refresh settings false w) as [[state|e] w1]; [|reflexivity].
  rewrite (bind_ok Sys.monotonic_ms _ w1 (Sys.clock w1 (Sys.ticks w1))
                   (Sys.with_ticks w1 (S (Sys.ticks w1))) eq_refl).
  cbv zeta. unfold Sys.bind at 1. rewrite compute_features_run.
  destruct (Bls.build_bls_features _ _ _ _ _ _ _ _) as [b|e].
  - unfold Sys.bind at 1, Sys.lift.
    destruct (Infer._prepare_lightcurve time flux flux_err); reflexivity.
  - destruct (Py.isinstance e Py.InsufficientDataError); reflexivity.
Qed.

(** Only the loader call and log records are added to the trace. *)
Lemma new_events_of_trace w w1 w' evs :
  (Sys.trace w1 = Sys.trace w
   \/ Sys.trace w1 = (Sys.trace w ++ [Sys.LoadState])%list) ->
  Sys.trace w' = (Sys.trace w1 ++ evs)%list ->
  forall ev, In ev (Spec.new_events w w') -> ev = Sys.LoadState \/ In ev evs.
Proof.
  intros Htrace Heq ev.
  destruct (new_events_after_refresh _ _ _ _ Htrace Heq) as [-> | ->];
    simpl; intuition.
Qed.

(** X22. A prediction from uploaded arrays involves neither the light-curve
    store, nor the feature cache, nor the archive: their contents are what
    they were, the only calls recorded are the loader's and the logger's,
    and a response says so, with no TIC identifier, [cache_hit = false]
    and [auto_fetch = false]; the only exceptions of the extraction that
    reach the caller are [InsufficientDataError] and
    [FeatureExtractionError]. *)
Theorem uploaded_arrays_bypass_store_and_cache
    (bls : Bls.BoxLeastSquares) (np_std np_mean : list float -> float)
    (settings : Config.Settings) (time flux : list float)
    (flux_err : option (list float)) (meta : option (Py.dict float))
    (w : Sys.World) :
  let '(r, w') := Infer.predict_from_arrays bls np_std np_mean settings
                    time flux flux_err meta w in
  Sys.lightcurve_files w' = Sys.lightcurve_files w
  /\ Sys.feature_cache_files w' = Sys.feature_cache_files w
  /\ Sys.mast w' = Sys.mast w
  /\ (forall ev, In ev (Spec.new_events w w') ->
        ev = Sys.LoadState \/ exists level message, ev = Sys.Log level message)
  /\ (forall resp, r = Ok resp ->
        Infer.tic_id resp = None
        /\ Infer.cache_hit (Infer.meta resp) = Some false
        /\ Infer.auto_fetch (Infer.meta resp) = false
        /\ exists b,
             Bls.build_bls_features bls np_std np_mean settings
                                    time flux flux_err meta = Ok b
             /\ Infer.features resp = Infer._serialize_series (Bls.features b)
             /\ Infer.warnings resp = Bls.warnings b)
  /\ (forall e,
        Bls.build_bls_features bls np_std np_mean settings
                               time flux flux_err meta = Raise e ->
        Py.is_ok (fst (Infer.refresh settings false w)) = true ->
        r = Raise e /\ Py.exn_class e = Py.InsufficientDataError
        \/ r = Raise (Exn Py.FeatureExtractionError (Py.exn_str e) (Some e))
           /\ Py.exn_class e <> Py.InsufficientDataError).
Proof.
  rewrite predict_from_arrays_run.
  destruct (Infer.refresh settings false w) as [[state|e0] w1] eqn:Href.
  2:{ destruct (refresh_frame _ _ _ _ _ Href)
        as (_ & Hlc & Hfc & Hmast & _ & _ & Htrace).
      repeat split; try assumption; try discriminate.
      intros ev Hin.
      apply (new_events_of_trace w w1 w1 [] Htrace) in Hin;
        [|rewrite app_nil_r; reflexivity].
      destruct Hin as [H|[]]. left. exact H. }
  destruct (refresh_frame _ _ _ _ _ Href)
    as (_ & Hlc & Hfc & Hmast & _ & _ & Htrace).
  cbv zeta.
  destruct (Bls.build_bls_features bls np_std np_mean settings time flux
              flux_err meta) as [b|e] eqn:Hbuild.
  - destruct (Infer._prepare_lightcurve time flux flux_err) as [payload|e].
    + rewrite score_run.
      destruct (Infer.compute_score state (Bls.features b))
        as [[score is_probability]|e]; cbv zeta.
      * repeat split; try assumption; try discriminate.
        -- intros ev Hin.
           apply (new_events_of_trace w w1 _
                    [Sys.Log "info" "prediction_complete"] Htrace) in Hin;
             [|reflexivity].
           destruct Hin as [H|[H|[]]]; [left; exact H|].
           right. eexists. eexists. symmetry. exact H.
        -- injection H as <-. reflexivity.
        -- injection H as <-. reflexivity.
        -- injection H as <-. reflexivity.
        -- injection H as <-. exists b. repeat split.
      * repeat split; try assumption; try discriminate.
        intros ev Hin.
        apply (new_events_of_trace w w1 _ [] Htrace) in Hin;
          [|cbn; rewrite app_nil_r; reflexivity].
        destruct Hin as [H|[]]. left. exact H.
    + repeat split; try assumption; try discriminate.
      intros ev Hin.
      apply (new_events_of_trace w w1 _ [] Htrace) in Hin;
        [|cbn; rewrite app_nil_r; reflexivity].
      destruct Hin as [H|[]]. left. exact H.
  - rewrite isinstance_Insufficient.
    destruct (Py.exc_class_eqb (Py.exn_class e) Py.InsufficientDataError)
      eqn:Hcls.
    + assert (Hc : Py.exn_class e = Py.InsufficientDataError)
        by (destruct e as [[] ? ?]; simpl in *; congruence).
      repeat split; try assumption; try discriminate.
      * intros ev Hin.
        apply (new_events_of_trace w w1 _ [] Htrace) in Hin;
          [|cbn; rewrite app_nil_r; reflexivity].
        destruct Hin as [H|[]]. left. exact H.
      * intros e' [= <-] _. left. split; [reflexivity | exact Hc].
    + assert (Hc : Py.exn_class e <> Py.InsufficientDataError)
        by (destruct e as [[] ? ?]; simpl in *; congruence).
      repeat split; try assumption; try discriminate.
      * intros ev Hin.
        apply (new_events_of_trace w w1 _
                 [Sys.Log "exception" "Failed to compute BLS features"]
                 Htrace) in Hin; [|reflexivity].
        destruct Hin as [H|[H|[]]]; [left; exact H|].
        right. eexists. eexists. symmetry. exact H.
      * intros e' [= <-] _. right. split; [reflexivity | exact Hc].
Qed.

(** ** The [/predict/from_lightcurve] endpoint *)

Lemma serialize_summary_keys summary :
  NoDup (map fst summary) ->
  map fst (Infer._serialize_summary summary) = map fst summary.
Proof.
  intros Hnd. unfold Infer._serialize_summary.
  erewrite fold_left_pointwise.
  - rewrite (fold_set_fresh
               (fun v : option float =>
                  match v with
                  | Some x => if is_nan x || is_infinity x then None else Some x
                  | None => None
                  end)
               summary []); [|exact Hnd | intros k _ []].
    simpl. rewrite map_map. reflexivity.
  - intros payload [k [x|]]; simpl; [|reflexivity].
    destruct (is_nan x || is_infinity x); reflexivity.
Qed.

Lemma contains_In {V} k (d : Py.dict V) :
  In k (map fst d) -> Py.contains k d = true.
Proof.
  intros H. unfold Py.contains.
  destruct (Py.get k d) eqn:E; [reflexivity|].
  apply get_None_not_In in E. contradiction.
Qed.

(** The summary of a response built from a feature vector has the five
    fields the response model requires. *)
Lemma summary_fields_present features :
  forallb (fun k => Py.contains k
                      (Infer._serialize_summary
                         (Infer._summary_from_features features)))
          Schemas.SUMMARY_FIELDS = true.
Proof.
  assert (Hkeys : map fst (Infer._serialize_summary
                             (Infer._summary_from_features features))
                  = Schemas.SUMMARY_FIELDS).
  { rewrite serialize_summary_keys; [reflexivity|].
    simpl. repeat constructor; simpl; intuition discriminate. }
  apply forallb_forall. intros k Hk. apply contains_In.
  rewrite Hkeys. exact Hk.
Qed.

(** The payload prepared from arrays of one length passes the length
    check of the response model. *)
Lemma prepared_payload_validates time flux flux_err p :
  Infer._prepare_lightcurve time flux flux_err = Ok p ->
  List.length flux = List.length time ->
  (forall e, flux_err = Some e -> List.length e = List.length time) ->
  Schemas._validate_lengths p = Ok p.
Proof.
  intros Hp Hflux Herr.
  assert (Hlen : List.length (Infer.lp_flux p) = List.length (Infer.lp_time p)
                 /\ forall e, Infer.lp_flux_err p = Some e ->
                              List.length e = List.length (Infer.lp_time p)).
  { revert Hp. unfold Infer._prepare_lightcurve.
    remember 5000%nat as max_points eqn:Hmax. clear Hmax.
    destruct time as [|t time].
    { intros [= <-]. split; [reflexivity | discriminate]. }
    destruct flux as [|f flux].
    { intros [= <-]. split; [reflexivity | discriminate]. }
    cbv zeta.
    destruct (max_points <? List.length (t :: time))%nat.
    - set (idx := map Z.to_nat _).
      destruct (Np.take idx (t :: time)) as [ts|e] eqn:Ets; [|discriminate].
      destruct (Np.take idx (f :: flux)) as [fs|e] eqn:Efs; [|discriminate].
      apply take_length in Ets. apply take_length in Efs.
      cbn [Py.bind].
      destruct flux_err as [[|e0 err]|].
      + intros [= <-]. split; [cbn; congruence | discriminate].
      + destruct (Np.take idx (e0 :: err)) as [es|e] eqn:Ees; [|discriminate].
        apply take_length in Ees. cbn [Py.bind].
        intros [= <-]. split; [cbn; congruence|].
        cbn. intros e [= <-]. congruence.
      + intros [= <-]. split; [cbn; congruence | discriminate].
    - cbn [Py.bind].
      destruct flux_err as [[|e0 err]|]; cbn [Py.bind]; intros [= <-];
        (split; [exact Hflux|]); cbn; try discriminate.
      intros e [= <-]. apply Herr. reflexivity. }
  destruct Hlen as [Hf He]. unfold Schemas._validate_lengths.
  rewrite Hf, Nat.eqb_refl. cbn [negb].
  destruct (Infer.lp_flux_err p) as [e|]; [|reflexivity].
  rewrite (He e eq_refl), Nat.eqb_refl. reflexivity.
Qed.

(** A response [predict_from_arrays] returns for arrays of one length is a
    valid [PredictionResponse]. *)
Lemma uploaded_response_validates bls np_std np_mean settings time flux
      flux_err meta w resp w' :
  Infer.predict_from_arrays bls np_std np_mean settings time flux flux_err meta w
  = (Ok resp, w') ->
  List.length flux = List.length time ->
  (forall e, flux_err = Some e -> List.length e = List.length time) ->
  Schemas.PredictionResponse resp = Ok resp.
Proof.
  rewrite predict_from_arrays_run.
  destruct (Infer.refresh settings false w) as [[state|e0] w1]; [|discriminate].
  cbv zeta.
  destruct (Bls.build_bls_features bls np_std np_mean settings time flux
              flux_err meta) as [b|e] eqn:Hbuild.
  2:{ destruct (Py.isinstance e Py.InsufficientDataError); discriminate. }
  destruct (Infer._prepare_lightcurve time flux flux_err) as [payload|e]
    eqn:Hprep; [|discriminate].
  rewrite score_run.
  destruct (Infer.compute_score state (Bls.features b))
    as [[score is_probability]|e]; [|discriminate].
  cbv zeta. intros [= <- _] Hflux Herr. unfold Schemas.PredictionResponse.
  cbn [Infer.summary Infer.lightcurve].
  rewrite (build_summary_from_features _ _ _ _ _ _ _ _ _ Hbuild).
  rewrite summary_fields_present. cbn [negb].
  rewrite (prepared_payload_validates _ _ _ _ Hprep Hflux Herr). reflexivity.
Qed.

(** X23. The upload endpoint. Arrays of unequal length are answered 400 before
    the service is called: nothing is refreshed, read, logged or timed.
    Otherwise the answer is decided by [predict_from_arrays] alone,
    because a response it returns always passes the response model: 200
    with that response, 422 for [InsufficientDataError], 400 with the
    message for [FeatureExtractionError], and 500 for anything else; the
    same [FeatureExtractionError] that is a 400 here is a 500 on
    [/predict/by_tic]. *)
Theorem upload_endpoint_answers
    (bls : Bls.BoxLeastSquares) (np_std np_mean : list float -> float)
    (settings : Config.Settings) (payload : Schemas.LightcurvePayload)
    (w : Sys.World) :
  let time := Schemas.time payload in
  let flux := Schemas.flux payload in
  let flux_err := Schemas.flux_err payload in
  let answer := MainPost.predict_from_lightcurve bls np_std np_mean settings
                                                 payload w in
  (List.length time <> List.length flux
   \/ (exists e, flux_err = Some e /\ List.length e <> List.length time) ->
   Main.status_code_of (fst answer) = 400%Z /\ snd answer = w)
  /\ (List.length time = List.length flux ->
      (forall e, flux_err = Some e -> List.length e = List.length time) ->
      let '(r, w') := Infer.predict_from_arrays bls np_std np_mean settings
                        time flux flux_err (Schemas.meta payload) w in
      answer = (MainPost.from_lightcurve_response r, w')
      /\ (forall resp, r = Ok resp -> fst answer = Main.Http200 resp)
      /\ (Py.raises r Py.InsufficientDataError = true ->
          fst answer = Main.HttpError 422 "insufficient_data")
      /\ (forall msg cause,
            r = Raise (Exn Py.FeatureExtractionError msg cause) ->
            fst answer = Main.HttpError 400 msg
            /\ Main.by_tic_response r = Main.HttpError 500 msg)).
Proof.
  cbv zeta. split.
  - intros Hbad. unfold MainPost.predict_from_lightcurve.
    destruct (Nat.eqb (List.length (Schemas.time payload))
                      (List.length (Schemas.flux payload))) eqn:Htf;
      [|split; reflexivity].
    apply Nat.eqb_eq in Htf. cbn [negb].
    destruct Hbad as [Hne|(e & He & Hne)]; [contradiction|].
    rewrite He. apply Nat.eqb_neq in Hne. rewrite Hne. split; reflexivity.
  - intros Htf Herr.
    destruct (Infer.predict_from_arrays bls np_std np_mean settings
                (Schemas.time payload) (Schemas.flux payload)
                (Schemas.flux_err payload) (Schemas.meta payload) w)
      as [r w'] eqn:Hrun.
    assert (Hans : MainPost.predict_from_lightcurve bls np_std np_mean
                     settings payload w
                   = (MainPost.from_lightcurve_response r, w')).
    { unfold MainPost.predict_from_lightcurve.
      assert (Hok : match Schemas.flux_err payload with
                    | Some e =>
                        negb (List.length e
                              =? List.length (Schemas.time payload))%nat
                    | None => false
                    end = false).
      { destruct (Schemas.flux_err payload) as [e|] eqn:E; [|reflexivity].
        rewrite (Herr e eq_refl), Nat.eqb_refl. reflexivity. }
      rewrite Hok, Htf, Nat.eqb_refl. cbn [negb]. unfold Sys.bind.
      rewrite Hrun.
      destruct r as [resp|e]; [|reflexivity].
      unfold Sys.lift.
      rewrite (uploaded_response_validates _ _ _ _ _ _ _ _ _ _ _ Hrun
                 (eq_sym Htf) Herr).
      reflexivity. }
    rewrite Hans. split; [reflexivity|]. cbn [fst]. split; [|split].
    + intros resp ->. reflexivity.
    + destruct r as [resp|e]; [discriminate|]. simpl. intros ->. reflexivity.
    + intros msg cause ->. split; reflexivity.
Qed.

Lemma upload_endpoint_answers_witness :
  let payload :=
    {| Schemas.time := Demo.time7; Schemas.flux := Demo.flux7;
       Schemas.flux_err := None; Schemas.meta := None |} in
  let w := Demo.world_of Demo.iso_dir None in
  let answer := MainPost.predict_from_lightcurve Demo.bls Demo.np_std
                  Demo.np_mean Demo.settings payload w in
  (List.length Demo.time7 <> List.length Demo.flux7
   \/ (exists e, @None (list float) = Some e
                 /\ List.length e <> List.length Demo.time7) ->
   Main.status_code_of (fst answer) = 400%Z /\ snd answer = w)
  /\ (List.length Demo.time7 = List.length Demo.flux7 ->
      (forall e, @None (list float) = Some e ->
                 List.length e = List.length Demo.time7) ->
      let '(r, w') := Infer.predict_from_arrays Demo.bls Demo.np_std
                        Demo.np_mean Demo.settings Demo.time7 Demo.flux7
                        None None w in
      answer = (MainPost.from_lightcurve_response r, w')
      /\ (forall resp, r = Ok resp -> fst answer = Main.Http200 resp)
      /\ (Py.raises r Py.InsufficientDataError = true ->
          fst answer = Main.HttpError 422 "insufficient_data")
      /\ (forall msg cause,
            r = Raise (Exn Py.FeatureExtractionError msg cause) ->
            fst answer = Main.HttpError 400 msg
            /\ Main.by_tic_response r = Main.HttpError 500 msg)).
Proof.
  exact (upload_endpoint_answers Demo.bls Demo.np_std Demo.np_mean
           Demo.settings
           {| Schemas.time := Demo.time7; Schemas.flux := Demo.flux7;
              Schemas.flux_err := None; Schemas.meta := None |}
           (Demo.world_of Demo.iso_dir None)).
Defined.

(** Two hundred samples are answered 200; seven are answered 422; seven
    times against six fluxes are answered 400 without a clock reading; a
    single sample does not reach the handler. *)
Example upload_endpoint_samples :
  let post time flux :=
    MainPost.route_from_lightcurve Demo.bls Demo.np_std Demo.np_mean
      Demo.settings
      {| Schemas.time := time; Schemas.flux := flux;
         Schemas.flux_err := None; Schemas.meta := None |}
      (Demo.world_of Demo.iso_dir None) in
  Main.status_code_of
    (fst (post (Sys.lc_time Demo.lc200) (Sys.lc_flux Demo.lc200))) = 200%Z
  /\ Main.status_code_of (fst (post Demo.time7 Demo.flux7)) = 422%Z
  /\ post Demo.time7 (tl Demo.flux7)
     = (Main.HttpError 400 "time and flux length mismatch",
        Demo.world_of Demo.iso_dir None)
  /\ post [1.0%float] [1.0%float]
     = (Main.HttpError 422 "lightcurve must contain at least two samples",
        Demo.world_of Demo.iso_dir None).
Proof. repeat split; vm_compute; reflexivity. Qed.

(** ** The best fit *)

Lemma ltb_leb (a b : float) : (a <? b)%float = true -> (a <=? b)%float = true.
Proof.
  rewrite ltb_spec, leb_spec. unfold SFltb, SFleb.
  destruct (SFcompare (Prim2SF a) (Prim2SF b)) as [[]|]; congruence.
Qed.

Lemma leb_refl (a : float) : is_nan a = false -> (a <=? a)%float = true.
Proof.
  intros H. rewrite leb_spec. unfold SFleb.
  rewrite is_nan_Prim2SF in H. rewrite SFcompare_refl by exact H. reflexivity.
Qed.

Lemma ltb_not_nan_r (a b : float) : (a <? b)%float = true -> is_nan b = false.
Proof.
  rewrite ltb_spec, is_nan_Prim2SF. unfold SFltb.
  destruct (Prim2SF a), (Prim2SF b); simpl; try reflexivity; discriminate.
Qed.

Lemma sanitized_not_nan (x : float) :
  is_nan (if is_nan x then neg_infinity else x) = false.
Proof. destruct (is_nan x) eqn:E; [reflexivity | exact E]. Qed.

(** The scan behind [np.nanargmax]: the index it ends on holds a value
    that, with NaN read as minus infinity, is not below the running best
    nor below any entry scanned. *)
Lemma argmax_from_max (full l : list float) best_i best_v i :
  is_nan best_v = false ->
  (exists x, nth_error full best_i = Some x
             /\ best_v = if is_nan x then neg_infinity else x) ->
  (forall j x, nth_error l j = Some x -> nth_error full (i + j) = Some x) ->
  exists x,
    nth_error full (Np.argmax_from best_i best_v i l) = Some x
    /\ let top := if is_nan x then neg_infinity else x in
       (best_v <=? top)%float = true
       /\ Forall (fun y => ((if is_nan y then neg_infinity else y) <=? top)%float
                           = true) l.
Proof.
  revert best_i best_v i. induction l as [|y l IH]; intros best_i best_v i
    Hnan (x & Hx & Hv) Hfull; simpl.
  - exists x. split; [exact Hx|]. cbv zeta. rewrite <- Hv.
    split; [apply leb_refl, Hnan | constructor].
  - set (y' := if is_nan y then neg_infinity else y).
    assert (Hy' : is_nan y' = false) by apply sanitized_not_nan.
    assert (Hrest : forall j x0, nth_error l j = Some x0 ->
                                 nth_error full (S i + j) = Some x0).
    { intros j x0 Hj. replace (S i + j)%nat with (i + S j)%nat by lia.
      apply Hfull. exact Hj. }
    destruct (best_v <? y')%float eqn:Hlt.
    + destruct (IH i y' (S i) Hy') as (z & Hz & Hle & Hall).
      * exists y. split; [|reflexivity].
        rewrite <- (Nat.add_0_r i). apply Hfull. reflexivity.
      * exact Hrest.
      * exists z. split; [exact Hz|]. cbv zeta in *. split.
        -- exact (leb_trans _ _ _ (ltb_leb _ _ Hlt) Hle).
        -- constructor; assumption.
    + destruct (IH best_i best_v (S i) Hnan) as (z & Hz & Hle & Hall).
      * exists x. split; assumption.
      * exact Hrest.
      * exists z. split; [exact Hz|]. cbv zeta in *. split; [exact Hle|].
        constructor; [|exact Hall].
        apply (leb_trans _ best_v); [|exact Hle].
        apply ltb_false_leb; assumption.
Qed.

Lemma nanargmax_max a idx :
  Np.nanargmax a = Ok idx ->
  exists best,
    nth_error a idx = Some best
    /\ Forall (fun y => ((if is_nan y then neg_infinity else y)
                         <=? (if is_nan best then neg_infinity else best))%float
                        = true) a.
Proof.
  unfold Np.nanargmax. destruct a as [|x l]; [discriminate|].
  destruct (forallb is_nan (x :: l)); [discriminate|].
  intros [= <-].
  destruct (argmax_from_max (x :: l) l 0
              (if is_nan x then neg_infinity else x) 1
              (sanitized_not_nan x)) as (best & Hb & Hle & Hall).
  - exists x. split; reflexivity.
  - intros j y Hj. exact Hj.
  - exists best. split; [exact Hb|]. constructor; assumption.
Qed.

(** X24. The fit the search settles on is one row of the periodogram, its
    strongest: period, duration, transit time and power are those of a
    single row, and no power of the periodogram that is a number exceeds
    that row's power (NaN powers are passed over; only when every power
    that is a number is minus infinity can the row chosen hold a NaN). *)
Theorem best_fit_is_the_strongest_row
    (bls : Bls.BoxLeastSquares) (settings : Config.Settings)
    (time_arr norm_flux : list float) (norm_flux_err : option (list float))
    (fit : Bls.BestFit) :
  Bls.search bls settings time_arr norm_flux norm_flux_err = Ok fit ->
  exists results row,
    Bls.bls_power bls time_arr norm_flux norm_flux_err
      (Np.linspace (Config.period_min settings) (Config.period_max settings)
                   (Config.n_periods settings))
      (map (fun d => d / 24.0)%float
           (Np.linspace (Config.dur_min_hours settings)
                        (Config.dur_max_hours settings) 20))
    = Py.Returned results
    /\ In row results
    /\ Bls.powers fit = map Bls.power results
    /\ Bls.best_power fit = Bls.power row
    /\ Bls.best_period fit = Bls.period row
    /\ Bls.best_duration fit = Bls.duration row
    /\ Bls.best_t0 fit = Bls.transit_time row
    /\ Forall (fun p => is_nan p = true
                        \/ is_nan (Bls.best_power fit) = true
                        \/ (p <=? Bls.best_power fit)%float = true)
              (Bls.powers fit)
    /\ (is_nan (Bls.best_power fit) = true ->
        Forall (fun p => is_nan p = true \/ (p <=? neg_infinity)%float = true)
               (Bls.powers fit)).
Proof.
  unfold Bls.search. cbv zeta.
  destruct (Bls.bls_power bls _ _ _ _ _) as [results|msg] eqn:Hpower;
    [|discriminate].
  cbn [Py.of_foreign Py.bind].
  destruct results as [|row0 rest] eqn:Hres; [discriminate|].
  rewrite <- Hres in *.
  destruct (Np.nanargmax (map Bls.power results)) as [idx|e] eqn:Hidx;
    [|discriminate].
  cbn [Py.bind].
  destruct (nanargmax_max _ _ Hidx) as (best & Hbest & Hall).
  rewrite nth_error_map in Hbest.
  destruct (nth_error results idx) as [row|] eqn:Hrow; [|discriminate].
  injection Hbest as Hbest.
  assert (Hnth : nth idx results row0 = row)
    by (apply nth_error_nth; exact Hrow).
  rewrite Hnth.
  destruct (Py.of_foreign (Bls.bls_compute_stats bls _ _ _ _ _ _))
    as [stats|e]; [|discriminate].
  cbn [Py.bind].
  match goal with
  | |- (let '(_, _) := ?s in _) = _ -> _ => destruct s as [[dv ds] mask]
  end.
  match goal with
  | |- Py.bind ?m _ = _ -> _ => destruct m as [mk|e]; [|discriminate]
  end.
  cbn [Py.bind]. intros [= <-].
  cbn [Bls.powers Bls.best_power Bls.best_period Bls.best_duration Bls.best_t0].
  exists results, row.
  split; [reflexivity|]. split; [exact (nth_error_In _ _ Hrow)|].
  split; [reflexivity|]. split; [reflexivity|]. split; [reflexivity|].
  split; [reflexivity|]. split; [reflexivity|].
  rewrite Hbest. split.
  - eapply Forall_impl; [|exact Hall]. intros p Hp. cbv beta in Hp.
    destruct (is_nan p) eqn:Ep; [left; reflexivity|].
    destruct (is_nan best) eqn:Eb; [right; left; reflexivity|].
    right. right. exact Hp.
  - intros Eb. rewrite Eb in Hall.
    eapply Forall_impl; [|exact Hall]. intros p Hp. cbv beta in Hp.
    destruct (is_nan p) eqn:Ep; [left; reflexivity | right; exact Hp].
Qed.

Lemma best_fit_is_the_strongest_row_witness :
  exists fit results row,
    Bls.search Demo.bls Demo.settings Demo.time7 Demo.flux7 None = Ok fit
    /\ Bls.bls_power Demo.bls Demo.time7 Demo.flux7 None
         (Np.linspace (Config.period_min Demo.settings)
                      (Config.period_max Demo.settings)
                      (Config.n_periods Demo.settings))
         (map (fun d => d / 24.0)%float
              (Np.linspace (Config.dur_min_hours Demo.settings)
                           (Config.dur_max_hours Demo.settings) 20))
       = Py.Returned results
    /\ In row results
    /\ Bls.powers fit = map Bls.power results
    /\ Bls.best_power fit = Bls.power row
    /\ Bls.best_period fit = Bls.period row
    /\ Bls.best_duration fit = Bls.duration row
    /\ Bls.best_t0 fit = Bls.transit_time row
    /\ Forall (fun p => is_nan p = true
                        \/ is_nan (Bls.best_power fit) = true
                        \/ (p <=? Bls.best_power fit)%float = true)
              (Bls.powers fit)
    /\ (is_nan (Bls.best_power fit) = true ->
        Forall (fun p => is_nan p = true \/ (p <=? neg_infinity)%float = true)
               (Bls.powers fit)).
Proof.
  assert (Hfit : exists fit,
             Bls.search Demo.bls Demo.settings Demo.time7 Demo.flux7 None
             = Ok fit) by (eexists; vm_compute; reflexivity).
  destruct Hfit as [fit Hfit].
  destruct (best_fit_is_the_strongest_row Demo.bls Demo.settings Demo.time7
              Demo.flux7 None fit Hfit) as (results & row & H).
  exists fit, results, row. split; [exact Hfit | exact H].
Defined.

(** With a NaN and a larger power further on, the later row wins. *)
Example strongest_row_sample :
  Np.nanargmax [2.0; nan; 7.5; 7.5; 3.0]%float = Ok 2%nat
  /\ Np.nanargmax [nan; neg_infinity]%float = Ok 0%nat
  /\ Np.nanargmax [nan; nan]%float
     = Py.raise Py.ValueError "All-NaN slice encountered".
Proof. repeat split; reflexivity. Qed.

(** ** What the run time measures *)

Lemma get_lightcurve_clock settings tic_id w r w' :
  LcStore.get_lightcurve_by_tic settings tic_id w = (r, w') ->
  Sys.clock w' = Sys.clock w /\ Sys.ticks w' = Sys.ticks w.
Proof.
  rewrite get_lightcurve_run. cbv zeta.
  destruct (Sys.lightcurve_files w tic_id) as [df|].
  - destruct (Sys.col_time df), (Sys.col_flux df); intros [= <- <-];
      split; reflexivity.
  - intros [= <- <-]. split; reflexivity.
Qed.

Lemma fetch_clock settings tic_id w r w' :
  LcStore.fetch_lightcurve_from_mast settings tic_id w = (r, w') ->
  Sys.clock w' = Sys.clock w /\ Sys.ticks w' = Sys.ticks w.
Proof.
  rewrite fetch_run. cbv zeta.
  destruct (negb (Sys.lightkurve_installed (Sys.mast w)));
    [intros [= <- <-]; split; reflexivity|].
  destruct (LcStore.try_authors _ _ _ None) as [df|e|[msg|]];
    intros [= <- <-]; split; reflexivity.
Qed.

Lemma acquire_clock settings tic_id w r w' :
  Stages.acquire settings tic_id w = (r, w') ->
  Sys.clock w' = Sys.clock w /\ Sys.ticks w' = Sys.ticks w.
Proof.
  rewrite acquire_run. cbv zeta.
  destruct (LcStore.get_lightcurve_by_tic settings tic_id w) as [[arrays|exc] w0].
  - intros [= <- <-]. split; reflexivity.
  - destruct (Py.isinstance exc Py.FileNotFoundError);
      [|intros [= <- <-]; split; reflexivity].
    destruct (negb (Config.auto_fetch_missing settings));
      [intros [= <- <-]; split; reflexivity|].
    destruct (LcStore.fetch_lightcurve_from_mast settings tic_id _)
      as [[path|e] w2] eqn:Hfetch;
      apply fetch_clock in Hfetch; cbn in Hfetch; destruct Hfetch as [Hc Ht].
    + destruct (LcStore.get_lightcurve_by_tic settings tic_id w2)
        as [[arrays|e] w3] eqn:Hget;
        apply get_lightcurve_clock in Hget; destruct Hget as [Hc' Ht'];
        intros [= <- <-]; cbn; split; congruence.
    + intros [= <- <-]. cbn. split; congruence.
Qed.

Lemma lookup_clock settings tic_id auto_fetch w r w' :
  Stages.lookup settings tic_id auto_fetch w = (r, w') ->
  Sys.clock w' = Sys.clock w /\ Sys.ticks w' = Sys.ticks w.
Proof.
  unfold Stages.lookup, LcStore.read_cached_features, Sys.bind, Sys.emit,
    Sys.get_world, Sys.ret.
  destruct auto_fetch; [intros [= <- <-]; split; reflexivity|].
  cbn [Sys.feature_cache_files Sys.with_trace].
  destruct (Sys.feature_cache_files w tic_id) as [[|row rows]|];
    intros [= <- <-]; split; reflexivity.
Qed.

Lemma featurize_clock bls np_std np_mean settings tic_id time flux flux_err
      cached w r w' :
  Stages.featurize bls np_std np_mean settings tic_id time flux flux_err
                   cached w = (r, w') ->
  Sys.clock w' = Sys.clock w /\ Sys.ticks w' = Sys.ticks w.
Proof.
  rewrite featurize_run. destruct cached as [c|].
  - intros [= <- <-]. split; reflexivity.
  - destruct (Bls.build_bls_features _ _ _ _ _ _ _ _) as [b|e].
    + intros [= <- <-]. split; reflexivity.
    + destruct (Py.isinstance e Py.InsufficientDataError);
        intros [= <- <-]; split; reflexivity.
Qed.

(** X25. The run time a response reports is the difference of two consecutive
    clock readings, never negative: the first reading is taken after the
    artifact refresh, which is therefore not timed, and the second when
    the score is known; a request that returns reads the clock exactly
    twice.  This holds for [predict_by_tic], on every path through the
    store, the archive and the cache, and for [predict_from_arrays]. *)
Theorem run_time_is_the_gap_between_two_readings
    (bls : Bls.BoxLeastSquares) (np_std np_mean : list float -> float)
    (settings : Config.Settings) (w w' : Sys.World) (resp : Infer.Response) :
  (exists tic_id,
     Infer.predict_by_tic bls np_std np_mean settings tic_id w = (Ok resp, w'))
  \/ (exists time flux flux_err meta,
        Infer.predict_from_arrays bls np_std np_mean settings
                                  time flux flux_err meta w = (Ok resp, w')) ->
  Infer.runtime_ms (Infer.meta resp)
  = Z.max 0 (Sys.clock w (S (Sys.ticks w)) - Sys.clock w (Sys.ticks w))
  /\ (0 <= Infer.runtime_ms (Infer.meta resp))%Z
  /\ Sys.ticks w' = S (S (Sys.ticks w))
  /\ Sys.clock w' = Sys.clock w.
Proof.
  assert (Hscore : forall features summary warnings tic start state hit af lc
                          w5,
             Infer._score settings features summary warnings tic start state
                          hit af lc w5 = (Ok resp, w') ->
             Infer.runtime_ms (Infer.meta resp)
             = Z.max 0 (Sys.clock w5 (Sys.ticks w5) - start)
             /\ Sys.ticks w' = S (Sys.ticks w5)
             /\ Sys.clock w' = Sys.clock w5).
  { intros features summary warnings tic start state hit af lc w5.
    rewrite score_run.
    destruct (Infer.compute_score state features) as [[s p]|e];
      [|discriminate].
    cbv zeta. intros [= <- <-]. repeat split. }
  intros [[tic_id Hrun]|(time & flux & flux_err & meta & Hrun)].
  - destruct (Infer.refresh settings false w) as [[state|e0] w1] eqn:Href.
    2:{ rewrite (predict_refresh_failed _ _ _ _ _ _ _ _ Href) in Hrun.
        discriminate. }
    destruct (refresh_frame _ _ _ _ _ Href) as (_ & _ & _ & _ & Hc1 & Ht1 & _).
    destruct (Stages.acquire settings tic_id
                (Sys.with_ticks w1 (S (Sys.ticks w1))))
      as [[[[[time flux] flux_err] auto_fetch]|e] w3] eqn:Hacq.
    2:{ rewrite predict_by_tic_stages in Hrun.
        unfold Stages.predict_by_tic in Hrun.
        rewrite (bind_ok _ _ _ _ _ Href) in Hrun.
        rewrite (bind_ok Sys.monotonic_ms _ w1 (Sys.clock w1 (Sys.ticks w1))
                         (Sys.with_ticks w1 (S (Sys.ticks w1))) eq_refl) in Hrun.
        rewrite (bind_raise _ _ _ _ _ Hacq) in Hrun. discriminate. }
    rewrite (predict_after_acquire bls np_std np_mean settings tic_id w state
               w1 time flux flux_err auto_fetch w3 Href Hacq) in Hrun.
    apply acquire_clock in Hacq. cbn in Hacq. destruct Hacq as [Hc3 Ht3].
    destruct (Stages.lookup settings tic_id auto_fetch w3)
      as [[cached|e] w4] eqn:Hlook; [|discriminate].
    apply lookup_clock in Hlook. destruct Hlook as [Hc4 Ht4].
    destruct (Stages.featurize _ _ _ _ _ _ _ _ _ _)
      as [[[[[features summary] warnings] cache_hit]|e] w5] eqn:Hfeat;
      [|discriminate].
    apply featurize_clock in Hfeat. destruct Hfeat as [Hc5 Ht5].
    destruct (Infer._prepare_lightcurve time flux flux_err) as [payload|e];
      [|discriminate].
    apply Hscore in Hrun. destruct Hrun as (Hrt & Ht & Hc).
    assert (Hc' : Sys.clock w5 = Sys.clock w) by congruence.
    assert (Ht' : Sys.ticks w5 = S (Sys.ticks w)) by congruence.
    rewrite Hrt, Ht, Hc, Hc', Ht', Hc1, Ht1.
    repeat split. lia.
  - rewrite predict_from_arrays_run in Hrun.
    destruct (Infer.refresh settings false w) as [[state|e0] w1] eqn:Href;
      [|discriminate].
    destruct (refresh_frame _ _ _ _ _ Href) as (_ & _ & _ & _ & Hc1 & Ht1 & _).
    cbv zeta in Hrun.
    destruct (Bls.build_bls_features _ _ _ _ _ _ _ _) as [b|e].
    2:{ destruct (Py.isinstance e Py.InsufficientDataError); discriminate. }
    destruct (Infer._prepare_lightcurve time flux flux_err) as [payload|e];
      [|discriminate].
    apply Hscore in Hrun. destruct Hrun as (Hrt & Ht & Hc).
    cbn in Hrt, Ht, Hc. rewrite Hrt, Ht, Hc, Hc1, Ht1.
    repeat split. lia.
Qed.

Lemma run_time_is_the_gap_between_two_readings_witness :
  exists resp w',
    Infer.predict_by_tic Demo.bls Demo.np_std Demo.np_mean Demo.settings 42
                         Samples.world_cached = (Ok resp, w')
    /\ Infer.runtime_ms (Infer.meta resp)
       = Z.max 0 (Sys.clock Samples.world_cached
                            (S (Sys.ticks Samples.world_cached))
                  - Sys.clock Samples.world_cached
                              (Sys.ticks Samples.world_cached))
    /\ (0 <= Infer.runtime_ms (Infer.meta resp))%Z
    /\ Sys.ticks w' = S (S (Sys.ticks Samples.world_cached))
    /\ Sys.clock w' = Sys.clock Samples.world_cached.
Proof.
  assert (Hrun : exists resp w',
             Infer.predict_by_tic Demo.bls Demo.np_std Demo.np_mean
               Demo.settings 42 Samples.world_cached = (Ok resp, w'))
    by (eexists; eexists; vm_compute; reflexivity).
  destruct Hrun as (resp & w' & Hrun).
  exists resp, w'. split; [exact Hrun|].
  apply (run_time_is_the_gap_between_two_readings Demo.bls Demo.np_std
           Demo.np_mean Demo.settings Samples.world_cached w' resp).
  left. exists 42%Z. exact Hrun.
Defined.

(** ** A constructed service *)

(** X26. Constructing the service loads the artifacts or fails.  When
    [__init__] returns, the state it holds is the one [load_state] returns
    for the model directory, and [version_info] and [model_info] then answer
    from that state without loading again: the same mode and artifact
    name, at least one feature, and a calibrator only in supervised mode.
    When [__init__] raises, no state is held, and the exception is the
    missing pointer file's or the loader's. *)
Theorem constructed_service_answers_from_loaded_state
    (settings : Config.Settings) (w : Sys.World) :
  match Infer.init settings w with
  | (Ok _, w') =>
      exists st,
        Loader.load_state settings (Sys.model_files w) = Ok st
        /\ Sys._state w' = Some st
        /\ Infer.version_info settings w'
           = (Ok {| Infer.vi_app := "exoplanet-ai";
                    Infer.vi_mode := Loader.mode st;
                    Infer.vi_model := Loader.latest st;
                    Infer.vi_is_probability :=
                      Loader.mode_eqb (Loader.mode st) Loader.supervised |},
              w')
        /\ Infer.model_info settings w'
           = (Ok (Infer.model_info_of settings st), w')
        /\ (1 <= Infer.mi_feature_count (Infer.model_info_of settings st))%nat
        /\ (Infer.mi_has_calibrator (Infer.model_info_of settings st) = true ->
            Infer.mi_is_probability (Infer.model_info_of settings st) = true)
  | (Raise e, w') =>
      Sys._state w' = None
      /\ (Loader.latest_txt (Sys.model_files w) = None
          \/ Loader.load_state settings (Sys.model_files w) = Raise e)
  end.
Proof.
  unfold Infer.init. unfold Sys.bind at 1.
  set (w0 := Sys.with_state w None).
  unfold Sys.bind at 1.
  destruct (Infer.refresh settings true w0) as [[st|e] w1] eqn:Href.
  - unfold Sys.ret.
    destruct (refresh_settled _ _ _ _ _ Href) as (Hst & text & mtime & Hptr & Hlt).
    pose proof (refresh_cached settings w1 st text mtime Hst Hptr Hlt) as Hagain.
    assert (Hload : Loader.load_state settings (Sys.model_files w) = Ok st).
    { destruct (Loader.latest_txt (Sys.model_files w0)) as [[t0 m0]|] eqn:Hp0.
      - rewrite (refresh_cases settings true w0 t0 m0 Hp0) in Href.
        cbn in Href.
        destruct (Loader.load_state settings (Sys.model_files w)) as [st'|e'];
          [injection Href as <- _; reflexivity | discriminate].
      - unfold Infer.refresh, Sys.bind, Sys.get_world in Href.
        rewrite Hp0 in Href. discriminate. }
    exists st. split; [exact Hload|]. split; [exact Hst|].
    destruct (load_state_invariants settings _ st Hload)
      as (_ & _ & _ & _ & _ & _ & _ & Hnames & _ & Hmode).
    split; [|split; [|split]].
    + unfold Infer.version_info. rewrite (bind_ok _ _ _ _ _ Hagain).
      reflexivity.
    + unfold Infer.model_info. rewrite (bind_ok _ _ _ _ _ Hagain).
      reflexivity.
    + cbn. destruct (Loader.feature_names st); [congruence | simpl; lia].
    + cbn. destruct (Loader.mode st); [|reflexivity].
      destruct Hmode as (_ & -> & _). discriminate.
  - destruct (refresh_frame _ _ _ _ _ Href) as (Hmf & _).
    assert (Hstate : Sys._state w1 = None /\
                     (Loader.latest_txt (Sys.model_files w) = None
                      \/ Loader.load_state settings (Sys.model_files w) = Raise e)).
    { destruct (Loader.latest_txt (Sys.model_files w0)) as [[t0 m0]|] eqn:Hp0.
      - rewrite (refresh_cases settings true w0 t0 m0 Hp0) in Href.
        cbn in Href.
        destruct (Loader.load_state settings (Sys.model_files w)) as [st'|e'];
          [discriminate|].
        injection Href as <- <-. split; [reflexivity | right; reflexivity].
      - unfold Infer.refresh, Sys.bind, Sys.get_world in Href.
        rewrite Hp0 in Href. injection Href as _ <-.
        split; [reflexivity | left; exact Hp0]. }
    exact Hstate.
Qed.

(** Constructed on the sample directory, the service reports the
    unsupervised bundle with its three features. *)
Example constructed_service_sample :
  match Infer.init Demo.settings (Demo.world_of Demo.iso_dir None) with
  | (Ok _, w') =>
      Sys.trace w' = [Sys.LoadState]
      /\ fst (Infer.model_info Demo.settings w')
         = Ok {| Infer.mi_mode := Loader.one_class;
                 Infer.mi_latest := "model_iso_v2.pkl";
                 Infer.mi_artifact_dir := "/data/model";
                 Infer.mi_feature_names_version := "v2";
                 Infer.mi_feature_count := 3;
                 Infer.mi_has_scaler := true;
                 Infer.mi_has_calibrator := false;
                 Infer.mi_is_probability := false |}
      /\ Sys.trace (snd (Infer.model_info Demo.settings w')) = [Sys.LoadState]
  | (Raise _, _) => False
  end.
Proof. vm_compute. repeat split. Qed.

(** ** The version a state reports *)

Lemma after_last_free sep s : Notions.holds sep (Str.after_last sep s) = false.
Proof.
  unfold Notions.holds. induction s as [|c s IH]; [reflexivity|].
  cbn [Str.after_last].
  destruct (existsb (Ascii.eqb sep) (list_ascii_of_string s)) eqn:Hs;
    [exact IH|].
  destruct (Ascii.eqb c sep) eqn:Hc; [exact Hs|].
  cbn. rewrite Ascii.eqb_sym, Hc. exact Hs.
Qed.

Lemma after_last_id sep s : Notions.holds sep s = false -> Str.after_last sep s = s.
Proof.
  unfold Notions.holds. destruct s as [|c s]; [reflexivity|].
  cbn. intros H. apply orb_false_iff in H as [Hc Hs].
  rewrite Hs, Ascii.eqb_sym, Hc. reflexivity.
Qed.

Lemma substring_free c n m s :
  Notions.holds c s = false -> Notions.holds c (String.substring n m s) = false.
Proof.
  unfold Notions.holds. revert n m.
  induction s as [|a s IH]; intros n m H.
  - destruct n, m; reflexivity.
  - cbn in H. apply orb_false_iff in H as [Ha Hs].
    destruct n as [|n]; [destruct m as [|m]|]; cbn; [reflexivity| |].
    + rewrite Ha. exact (IH 0%nat m Hs).
    + exact (IH n m Hs).
Qed.

Lemma before_first_free sep s : Notions.holds sep (Str.before_first sep s) = false.
Proof.
  unfold Notions.holds. induction s as [|a s IH]; [reflexivity|].
  cbn [Str.before_first]. destruct (Ascii.eqb a sep) eqn:Ha; [reflexivity|].
  cbn. rewrite Ascii.eqb_sym, Ha. exact IH.
Qed.

Lemma before_first_keeps_free c sep s :
  Notions.holds c s = false -> Notions.holds c (Str.before_first sep s) = false.
Proof.
  unfold Notions.holds. induction s as [|a s IH]; [reflexivity|].
  cbn. intros H. apply orb_false_iff in H as [Ha Hs].
  destruct (Ascii.eqb a sep); [reflexivity|].
  cbn. rewrite Ha. exact (IH Hs).
Qed.

Lemma holds_app c a b :
  Notions.holds c (a ++ b)%string = Notions.holds c a || Notions.holds c b.
Proof.
  unfold Notions.holds. induction a as [|x a IH]; [reflexivity|].
  cbn. rewrite IH, orb_assoc. reflexivity.
Qed.

Lemma rfind_from_free i c s found :
  Notions.holds c s = false -> Str.rfind_from i c s found = found.
Proof.
  unfold Notions.holds. revert i found.
  induction s as [|a s IH]; intros i found H; [reflexivity|].
  cbn in H. apply orb_false_iff in H as [Ha Hs].
  cbn. rewrite Ascii.eqb_sym, Ha. exact (IH _ _ Hs).
Qed.

(** The last occurrence of [c] in [a ++ c :: b] when [b] has none. *)
Lemma rfind_from_last i c a b found :
  Notions.holds c b = false ->
  Str.rfind_from i c (a ++ String c b)%string found = Some (i + String.length a)%nat.
Proof.
  intros Hb. revert i found.
  induction a as [|x a IH]; intros i found.
  - cbn. rewrite Ascii.eqb_refl, (rfind_from_free _ _ _ _ Hb).
    f_equal. lia.
  - cbn. rewrite IH. f_equal. lia.
Qed.

Lemma substring_app_head a b :
  String.substring 0 (String.length a) (a ++ b)%string = a.
Proof.
  induction a as [|x a IH]; [destruct b; reflexivity|].
  cbn. rewrite IH. reflexivity.
Qed.

Lemma app_string_assoc (a b c : string) :
  (a ++ (b ++ c))%string = ((a ++ b) ++ c)%string.
Proof. induction a as [|x a IH]; [reflexivity|]. cbn. rewrite IH. reflexivity. Qed.

Lemma substring_all s : String.substring 0 (String.length s) s = s.
Proof. induction s as [|x s IH]; [reflexivity|]. cbn. rewrite IH. reflexivity. Qed.

Lemma length_app a b :
  String.length (a ++ b)%string
  = (String.length a + String.length b)%nat.
Proof. induction a as [|x a IH]; [reflexivity|]. cbn. rewrite IH. reflexivity. Qed.

Lemma prefix_app p s : String.prefix p (p ++ s)%string = true.
Proof.
  induction p as [|x p IH]; [destruct s; reflexivity|].
  cbn. destruct (ascii_dec x x); [exact IH | congruence].
Qed.

(** [(p + s).removeprefix(p)] is [s]. *)
Lemma removeprefix_app p s : Py.removeprefix (p ++ s)%string p = s.
Proof.
  unfold Py.removeprefix, Py.startswith. rewrite prefix_app, length_app.
  replace (String.length p + String.length s - String.length p)%nat
    with (String.length s) by lia.
  induction p as [|x p IH]; [apply substring_all|exact IH].
Qed.

(** The stem of [feature_names_<suffix>.json], and what is left of it
    without its prefix, for a suffix without [.] and [/]. *)
Lemma feature_file_stem suffix :
  Notions.holds "." suffix = false -> Notions.holds "/" suffix = false ->
  Py.removeprefix
    (Str.path_stem ("feature_names_" ++ suffix ++ ".json")%string)
    "feature_names_" = suffix.
Proof.
  intros Hdot Hslash.
  unfold Str.path_stem, Str.path_name.
  rewrite after_last_id
    by (rewrite !holds_app, Hslash; reflexivity).
  unfold Str.suffix_dot, Str.rfind.
  rewrite (app_string_assoc "feature_names_" suffix ".json").
  change ".json" with (String "." "json").
  rewrite rfind_from_last by reflexivity.
  rewrite !length_app.
  replace ((0 <? 0 + (String.length "feature_names_" + String.length suffix))
           && (0 + (String.length "feature_names_" + String.length suffix)
               <? String.length "feature_names_" + String.length suffix
                  + String.length (String "." "json") - 1))%nat with true.
  2:{ symmetry. apply andb_true_iff. split; apply Nat.ltb_lt; cbn; lia. }
  replace (0 + (String.length "feature_names_" + String.length suffix))%nat
    with (String.length ("feature_names_" ++ suffix)%string)
    by (rewrite length_app; reflexivity).
  rewrite substring_app_head. apply removeprefix_app.
Qed.

Lemma resolve_suffix_ok latest prefix suffix :
  Loader._resolve_suffix latest prefix = Ok suffix ->
  suffix = Py.removeprefix (Str.path_stem latest) prefix
  /\ Py.startswith (Str.path_stem latest) prefix = true.
Proof.
  unfold Loader._resolve_suffix.
  destruct (Py.startswith (Str.path_stem latest) prefix); cbn;
    [intros [= <-]; split; reflexivity | discriminate].
Qed.

Lemma path_stem_free latest : Notions.holds "/" (Str.path_stem latest) = false.
Proof.
  unfold Str.path_stem, Str.path_name.
  destruct (Str.suffix_dot _);
    [apply substring_free|]; apply after_last_free.
Qed.

Lemma removeprefix_free c s p :
  Notions.holds c s = false -> Notions.holds c (Py.removeprefix s p) = false.
Proof.
  intros H. unfold Py.removeprefix.
  destruct (Py.startswith s p); [apply substring_free|]; exact H.
Qed.

Lemma version_free latest prefix :
  Notions.holds "." (Str.before_first "." (Py.removeprefix (Str.path_stem latest) prefix)) = false
  /\ Notions.holds "/" (Str.before_first "." (Py.removeprefix (Str.path_stem latest) prefix)) = false.
Proof.
  split; [apply before_first_free|].
  apply before_first_keeps_free, removeprefix_free, path_stem_free.
Qed.

Lemma load_state_feature_file settings md st :
  Loader.load_state settings md = Ok st ->
  exists prefix,
    (Loader.mode st = Loader.one_class /\ prefix = "model_iso_"
     \/ Loader.mode st = Loader.supervised /\ prefix = "model_xgb_")
    /\ Py.startswith (Str.path_stem (Loader.latest st)) prefix = true
    /\ Loader.feature_names_path st
       = (Config.model_dir settings ++ "/" ++ "feature_names_"
          ++ Str.before_first "." (Py.removeprefix (Str.path_stem (Loader.latest st)) prefix) ++ ".json")%string
    /\ Loader.feature_names_version st
       = Py.removeprefix
           (Str.path_stem
              ("feature_names_" ++ Str.before_first "." (Py.removeprefix (Str.path_stem (Loader.latest st)) prefix)
               ++ ".json")%string)
           "feature_names_"
    /\ Loader.path_exists md
         ("feature_names_" ++ Str.before_first "." (Py.removeprefix (Str.path_stem (Loader.latest st)) prefix)
          ++ ".json")%string
       = true.
Proof.
  match goal with |- _ -> ?G => set (Claim := G) end.
  unfold Loader.load_state.
  destruct (Loader.latest_txt md) as [[text mtime]|] eqn:Hptr; [|discriminate].
  destruct (String.eqb (Str.strip text) "") eqn:Hempty; [discriminate|].
  destruct (negb (Loader.path_exists md (Str.strip text))) eqn:Hexists;
    [discriminate|].
  destruct (Py.startswith (Str.strip text) "model_iso_") eqn:Hiso.
  - destruct (Loader._resolve_suffix (Str.strip text) "model_iso_")
      as [suffix|] eqn:Hres; [|discriminate].
    apply resolve_suffix_ok in Hres as [-> Hstem].
    walk_load; intros H; subst Claim; injection H as <-;
      exists "model_iso_"; cbn [Loader.mode Loader.latest
        Loader.feature_names_path Loader.feature_names_version];
      repeat match goal with
             | H : Ok _ = Ok _ |- _ => injection H as <-
             end; subst;
      (split; [left; split; reflexivity|]);
      (split; [exact Hstem|]);
      repeat split;
      match goal with
      | Hn : negb (Loader.path_exists md _) = false |- _ =>
          apply negb_false_iff in Hn; exact Hn
      end.
  - destruct (Py.startswith (Str.strip text) "model_xgb_") eqn:Hxgb;
      [|discriminate].
    destruct (Loader._resolve_suffix (Str.strip text) "model_xgb_")
      as [suffix|] eqn:Hres; [|discriminate].
    apply resolve_suffix_ok in Hres as [-> Hstem].
    walk_load; intros H; subst Claim; injection H as <-;
      exists "model_xgb_"; cbn [Loader.mode Loader.latest
        Loader.feature_names_path Loader.feature_names_version];
      repeat match goal with
             | H : Ok _ = Ok _ |- _ => injection H as <-
             end; subst;
      (split; [right; split; reflexivity|]);
      (split; [exact Hstem|]);
      repeat split;
      match goal with
      | Hn : negb (Loader.path_exists md
                     ("feature_names_" ++ _)%string) = false |- _ =>
          apply negb_false_iff in Hn; exact Hn
      end.
Qed.

(** X27. The version a loaded state reports names the feature file it was
    loaded from.  The version is the part of the artifact's stem between
    the mode's prefix and the first dot; it holds neither a dot nor a
    slash; the feature names were read from
    [feature_names_<version>.json] in the model directory, which exists;
    and splitting the path of that file again, as [load_state] does for
    [feature_names_version], gives the version back. *)
Theorem reported_version_names_the_feature_file
    (settings : Config.Settings) (md : Loader.ModelDir) (st : Loader.State) :
  Loader.load_state settings md = Ok st ->
  exists prefix,
    (Loader.mode st = Loader.one_class /\ prefix = "model_iso_"
     \/ Loader.mode st = Loader.supervised /\ prefix = "model_xgb_")
    /\ Py.startswith (Str.path_stem (Loader.latest st)) prefix = true
    /\ Loader.feature_names_version st
       = Str.before_first "."
           (Py.removeprefix (Str.path_stem (Loader.latest st)) prefix)
    /\ Notions.holds "." (Loader.feature_names_version st) = false
    /\ Notions.holds "/" (Loader.feature_names_version st) = false
    /\ Loader.feature_names_path st
       = (Config.model_dir settings ++ "/feature_names_"
          ++ Loader.feature_names_version st ++ ".json")%string
    /\ Loader.path_exists md
         ("feature_names_" ++ Loader.feature_names_version st ++ ".json")%string
       = true
    /\ Infer.mi_feature_names_version (Infer.model_info_of settings st)
       = Loader.feature_names_version st.
Proof.
  intros Hload.
  destruct (load_state_feature_file settings md st Hload)
    as (prefix & Hmode & Hstem & Hpath & Hversion & Hexists).
  destruct (version_free (Loader.latest st) prefix) as [Hdot Hslash].
  rewrite (feature_file_stem _ Hdot Hslash) in Hversion.
  exists prefix. rewrite Hversion.
  repeat split; try assumption.
Qed.

Lemma reported_version_names_the_feature_file_witness :
  exists prefix,
    (Loader.mode Demo.xgb_state = Loader.one_class /\ prefix = "model_iso_"
     \/ Loader.mode Demo.xgb_state = Loader.supervised
        /\ prefix = "model_xgb_")
    /\ Py.startswith (Str.path_stem (Loader.latest Demo.xgb_state)) prefix
       = true
    /\ Loader.feature_names_version Demo.xgb_state
       = Str.before_first "."
           (Py.removeprefix (Str.path_stem (Loader.latest Demo.xgb_state))
                            prefix)
    /\ Notions.holds "." (Loader.feature_names_version Demo.xgb_state) = false
    /\ Notions.holds "/" (Loader.feature_names_version Demo.xgb_state) = false
    /\ Loader.feature_names_path Demo.xgb_state
       = (Config.model_dir Demo.settings ++ "/feature_names_"
          ++ Loader.feature_names_version Demo.xgb_state ++ ".json")%string
    /\ Loader.path_exists Demo.xgb_dir
         ("feature_names_" ++ Loader.feature_names_version Demo.xgb_state
          ++ ".json")%string
       = true
    /\ Infer.mi_feature_names_version
         (Infer.model_info_of Demo.settings Demo.xgb_state)
       = Loader.feature_names_version Demo.xgb_state.
Proof.
  apply (reported_version_names_the_feature_file
           Demo.settings Demo.xgb_dir Demo.xgb_state).
  reflexivity.
Defined.

(** An artifact named with a dotted version is versioned by what comes
    before the first dot. *)
Example dotted_version_sample :
  Str.before_first "."
    (Py.removeprefix (Str.path_stem "model_xgb_v1.2.json") "model_xgb_")
  = "v1".
Proof. reflexivity. Qed.
